(** * asias_fds_profiles: example measure nodes, flight-set selectors and
    notebook helpers, embedded from [example_profile.py],
    [parallel_profile.py] and [notebook_utils.py].

  The FlightDataAnalyzer engine ([analysis_engine]) and the Python standard
  library are outside the repository.  What the profiles use of them is
  modelled in [Py] and [Engine] below; the engine routines whose
  behaviour is not fixed by the profiles ([repair_mask], [integrate], the
  flight-record query, the directory listing, the graph drawing calls) are
  section variables of the code that calls them. *)

From Stdlib Require Import ZArith QArith Qcanon String Ascii List Lia.
From stdpp Require Import gmap strings list.

Open Scope Z_scope.

(** ** Python values *)

Module Py.

(** Exceptions a modelled call can raise. *)
Inductive exn :=
| ValueError (msg : string)
| KeyError (msg : string)
| TypeError (msg : string)
| AttributeError (msg : string)
| OtherError (msg : string).

Inductive outcome (A : Type) :=
| Ok (a : A)
| Raise (e : exn).
Arguments Ok {A} a.
Arguments Raise {A} e.

#[global] Instance outcome_ret : MRet outcome := λ A a, Ok a.
#[global] Instance outcome_bind : MBind outcome := λ A B f m,
  match m with
  | Ok a => f a
  | Raise e => Raise e
  end.

(** A list comprehension whose element expression can raise. *)
Fixpoint comprehension {A B} (f : A → outcome B) (xs : list A) : outcome (list B) :=
  match xs with
  | [] => Ok []
  | x :: xs' => y ← f x; ys ← comprehension f xs'; mret (y :: ys)
  end.

(** A slice bound or a section edge: [None] or a number.  Python floats
    are only compared and selected here, so exact rationals stand for
    them. *)
Definition edge := option Qc.

Record slice := mk_slice { start : edge; stop : edge }.

Definition Qcltb (x y : Qc) : bool := negb (Qle_bool y x).

(** Python 2 ordering of mixed values: [None] sorts below every number. *)
Definition lt (a b : edge) : bool :=
  match a, b with
  | None, None => false
  | None, Some _ => true
  | Some _, None => false
  | Some x, Some y => Qcltb x y
  end.

(** [min(iterable)]: the first smallest item; [ValueError] on an empty
    sequence. *)
Definition min (l : list edge) : outcome edge :=
  match l with
  | [] => Raise (ValueError "min() arg is an empty sequence")
  | x :: xs => Ok (fold_left (fun m y => if lt y m then y else m) xs x)
  end.

(** Values stored in attributes and dictionaries.  [VRef] is a reference
    to a mutable object of the store, [VAttribute] an attribute object
    with its name and value. *)
Inductive val :=
| VNone
| VBool (b : bool)
| VInt (z : Z)
| VFloat (q : Qc)
| VStr (s : string)
| VList (l : list Z)
| VRef (l : positive)
| VAttribute (name : string) (value : val).

(** *** Slices over a sequence of length [n] *)

(** [int(x)] on a float: truncation towards zero. *)
Definition trunc (x : Qc) : Z := Z.quot (Qnum (this x)) (Zpos (Qden (this x))).

(** One bound of [slice.indices(n)] for a step of 1: [None] is the default,
    a negative bound counts from the end, and the result is clipped to
    [0..n]. *)
Definition clip_bound (n : Z) (default : Z) (b : edge) : Z :=
  match b with
  | None => default
  | Some x =>
      let i := trunc x in
      let i := if i <? 0 then i + n else i in
      if i <? 0 then 0 else if n <? i then n else i
  end.

(** The half-open index range [lo, hi) that [a[s]] selects in a sequence
    of [n] items. *)
Definition indices (s : slice) (n : nat) : nat * nat :=
  (Z.to_nat (clip_bound (Z.of_nat n) 0 (start s)),
   Z.to_nat (clip_bound (Z.of_nat n) (Z.of_nat n) (stop s))).

Definition in_slice (s : slice) (n i : nat) : bool :=
  (fst (indices s n) <=? i)%nat && (i <? snd (indices s n))%nat.

(** [a[s] = x]: every selected item is overwritten. *)
Definition setitem_slice {A} (a : list A) (s : slice) (x : A) : list A :=
  imap (fun i y => if in_slice s (length a) i then x else y) a.

(** *** Strings *)

Definition upper_ascii (c : ascii) : ascii :=
  let n := N_of_ascii c in
  if ((97 <=? n) && (n <=? 122))%N then ascii_of_N (n - 32) else c.

(** [str.upper()] on a byte string. *)
Fixpoint upper (s : string) : string :=
  match s with
  | EmptyString => EmptyString
  | String c s' => String (upper_ascii c) (upper s')
  end.

(** [str.startswith] *)
Fixpoint startswith (s p : string) {struct p} : bool :=
  match p, s with
  | EmptyString, _ => true
  | String _ _, EmptyString => false
  | String a p', String b s' => if Ascii.eqb a b then startswith s' p' else false
  end.

(** [str.find(sub)]: the lowest index at which [sub] occurs, or [-1]. *)
Fixpoint find (s sub : string) : Z :=
  if startswith s sub then 0
  else match s with
       | EmptyString => -1
       | String _ s' => let r := find s' sub in if r <? 0 then -1 else r + 1
       end.

(** [str.replace(old, new)] for a non-empty [old]: occurrences are replaced
    from the left and do not overlap.  [skip] counts the characters of an
    occurrence still to be dropped. *)
Fixpoint replace_from (old new : string) (skip : nat) (s : string) : string :=
  match s with
  | EmptyString => EmptyString
  | String c s' =>
      match skip with
      | S k => replace_from old new k s'
      | O => if startswith s old
             then new +:+ replace_from old new (String.length old - 1) s'
             else String c (replace_from old new 0 s')
      end
  end.

Definition replace (s old new : string) : string := replace_from old new 0 s.

(** [str.endswith]: some tail of [s] is [p]. *)
Fixpoint endswith (s p : string) : bool :=
  String.eqb s p ||
  match s with
  | EmptyString => false
  | String _ s' => endswith s' p
  end.

(** *** posixpath, fnmatch and glob *)

(** [os.path.join(a, b)] *)
Definition join (a b : string) : string :=
  if startswith b "/" then b
  else if String.eqb a "" || endswith a "/" then a +:+ b
  else a +:+ "/" +:+ b.

(** [head.rstrip('/')] *)
Fixpoint rstrip_slash (s : string) : string :=
  match s with
  | EmptyString => EmptyString
  | String c s' =>
      match rstrip_slash s' with
      | EmptyString => if Ascii.eqb c "/" then EmptyString else String c EmptyString
      | r => String c r
      end
  end.

(** [p[:i], p[i:]] for [i = p.rfind('/') + 1] *)
Fixpoint split_at_last_slash (p : string) : string * string :=
  match p with
  | EmptyString => (EmptyString, EmptyString)
  | String c p' =>
      match split_at_last_slash p' with
      | (EmptyString, t) =>
          if Ascii.eqb c "/" then (String c EmptyString, t)
          else (EmptyString, String c t)
      | (h, t) => (String c h, t)
      end
  end.

(** [os.path.split(p)] *)
Definition split (p : string) : string * string :=
  let '(head, tail) := split_at_last_slash p in
  if negb (String.eqb head "") && negb (String.eqb (rstrip_slash head) "")
  then (rstrip_slash head, tail)
  else (head, tail).

(** [glob.has_magic]: a search for one of the characters [*?[]. *)
Fixpoint has_magic (s : string) : bool :=
  match s with
  | EmptyString => false
  | String c s' =>
      Ascii.eqb c "*" || Ascii.eqb c "?" || Ascii.eqb c "[" || has_magic s'
  end.

(** [fnmatch.fnmatchcase] for patterns built from [*], [?] and literal
    characters (bracket classes are not used by the profiles and are
    read as literals). *)
Fixpoint fnmatchcase (name pat : string) {struct pat} : bool :=
  match pat with
  | EmptyString => String.eqb name ""
  | String c pat' =>
      if Ascii.eqb c "*" then
        (fix star (nm : string) : bool :=
           fnmatchcase nm pat' ||
           match nm with
           | EmptyString => false
           | String _ nm' => star nm'
           end) name
      else
        match name with
        | EmptyString => false
        | String d name' =>
            (Ascii.eqb c "?" || Ascii.eqb c d) && fnmatchcase name' pat'
        end
  end.

(** What the selectors can observe of the file system. *)
Record filesystem := mk_fs {
  listdir : string → option (list string);   (* [None]: os.error *)
  lexists : string → bool;
  isdir : string → bool
}.

(** [glob.glob1]: the entries of [dirname] that match [pattern]; hidden
    entries are skipped unless the pattern itself starts with a dot. *)
Definition glob1 (fs : filesystem) (dirname pattern : string) : list string :=
  let dirname := if String.eqb dirname "" then "." else dirname in
  match listdir fs dirname with
  | None => []
  | Some names =>
      let names :=
        if startswith pattern "." then names
        else List.filter (fun x => negb (startswith x ".")) names in
      List.filter (fun x => fnmatchcase x pattern) names
  end.

(** [glob.glob0] *)
Definition glob0 (fs : filesystem) (dirname basename : string) : list string :=
  if String.eqb basename "" then
    if isdir fs dirname then [basename] else []
  else
    if lexists fs (join dirname basename) then [basename] else [].

(** [glob.iglob]; the recursive call is on the directory part, which is
    shorter than the path, so [fuel] above the length of the path is never
    used up. *)
Fixpoint iglob (fuel : nat) (fs : filesystem) (pathname : string) : list string :=
  if negb (has_magic pathname) then
    if lexists fs pathname then [pathname] else []
  else
    let '(dirname, basename) := split pathname in
    if String.eqb dirname "" then glob1 fs "." basename
    else
      let dirs :=
        if negb (String.eqb dirname pathname) && has_magic dirname then
          match fuel with
          | O => []
          | S fuel' => iglob fuel' fs dirname
          end
        else [dirname] in
      let glob_in_dir := if has_magic basename then glob1 fs else glob0 fs in
      flat_map (fun d => map (join d) (glob_in_dir d basename)) dirs.

(** [glob.glob(pathname)] *)
Definition glob (fs : filesystem) (pathname : string) : list string :=
  iglob (String.length pathname) fs pathname.

(** Truth value of an object in a condition. *)
Definition truthy (v : val) : bool :=
  match v with
  | VNone => false
  | VBool b => b
  | VInt z => negb (z =? 0)
  | VFloat q => negb (Qeq_bool (this q) 0)
  | VStr s => negb (String.eqb s "")
  | VList l => negb (Nat.eqb (length l) 0)
  | VRef _ => true
  | VAttribute _ _ => true
  end.

End Py.

(** ** The engine's data records and node interface *)

Module Engine.
Import Py.

(** [Section = namedtuple('Section', 'name slice start_edge stop_edge')] *)
Record Section := mk_Section {
  name : string;
  slice_ : slice;
  start_edge : edge;
  stop_edge : edge
}.

(** [KeyTimeInstance = recordtype('KeyTimeInstance', 'index name ...')];
    datetime, latitude and longitude are never set by the profiles. *)
Record KeyTimeInstance := mk_KTI {
  kti_index : Qc;
  kti_name : string
}.

(** [KeyPointValue = recordtype('KeyPointValue', 'index value name ...')] *)
Record KeyPointValue := mk_KPV {
  kpv_index : Qc;
  kpv_value : Qc;
  kpv_name : string
}.

(** A sample of a numpy masked array: the stored datum and its mask bit. *)
Record sample (A : Type) := mk_sample { sdata : A; smask : bool }.
Arguments mk_sample {A} sdata smask.
Arguments sdata {A} s.
Arguments smask {A} s.

Definition valid {A} (x : A) : sample A := mk_sample x false.

(** Mutable objects the dependencies refer to. *)
Inductive obj :=
| ODict (d : gmap string val)
| OStates (a : list (sample string))
| OFloats (a : list (sample Qc)).

Definition loc := positive.

Record world := mk_world {
  heap : gmap loc obj;
  stdout : list string
}.

(** A resolved attribute dependency, [A(...)]. *)
Record Attribute := mk_Attribute { attr_name : string; value : val }.

(** A resolved series dependency, [P(...)] or [M(...)]: [array] refers to
    the array object held by the upstream node. *)
Record Param := mk_Param {
  param_name : string;
  array : loc;
  frequency : Qc;
  offset : Qc
}.

(** Node instances, by category.  [derive] runs on a fresh instance. *)
Record FlightAttributeNode := mk_FAN { fan_name : string; fan_value : val }.
Record ListNode (T : Type) := mk_LN { ln_name : string; items : list T }.
Arguments mk_LN {T} ln_name items.
Arguments ln_name {T} l.
Arguments items {T} l.
Definition KeyTimeInstanceNode := ListNode KeyTimeInstance.
Definition KeyPointValueNode := ListNode KeyPointValue.
Definition FlightPhaseNode := ListNode Section.
Record DerivedParameterNode := mk_DPN {
  dpn_name : string;
  dpn_array : option (list (sample Qc))
}.

(** A [derive] body: a computation over the node instance [self] and the
    world, which returns or raises. *)
Definition M (S A : Type) : Type := S → world → outcome A * S * world.

#[global] Instance M_ret S : MRet (M S) := λ A a self w, (Ok a, self, w).
#[global] Instance M_bind S : MBind (M S) := λ A B f m self w,
  match m self w with
  | (Ok a, self', w') => f a self' w'
  | (Raise e, self', w') => (Raise e, self', w')
  end.

Definition raise {S A} (e : exn) : M S A := λ self w, (Raise e, self, w).
Definition get_self {S} : M S S := λ self w, (Ok self, self, w).
Definition put_self {S} (s : S) : M S unit := λ _ w, (Ok tt, s, w).
Definition get_heap {S} : M S (gmap loc obj) := λ self w, (Ok (heap w), self, w).
Definition put_heap {S} (h : gmap loc obj) : M S unit :=
  λ self w, (Ok tt, self, mk_world h (stdout w)).
Definition print {S} (line : string) : M S unit :=
  λ self w, (Ok tt, self, mk_world (heap w) (stdout w ++ [line])).

(** [for x in xs: body(x)] *)
Fixpoint for_ {S A} (xs : list A) (body : A → M S unit) : M S unit :=
  match xs with
  | [] => mret tt
  | x :: xs' => body x ;; for_ xs' body
  end.

(** A call that returns or raises, made from a [derive] body. *)
Definition lift {S A} (o : outcome A) : M S A := λ self w, (o, self, w).

(** [list.append] on a list-like node *)
Definition append {T} (x : T) : M (ListNode T) unit :=
  λ self w, (Ok tt, mk_LN (ln_name self) (items self ++ [x]), w).

(** Modelled from the spec: the engine's [FlightPhaseNode.create_phase]
    is not in the repository.  A produced interval is a Section named
    after the node that holds the slice it was given; with no explicit
    begin and end its edges are the slice bounds. *)
Definition create_phase (section_slice : slice) : M FlightPhaseNode unit :=
  self ← get_self;
  append (mk_Section (ln_name self) section_slice
                     (start section_slice) (stop section_slice)).

(** *** Access to the objects behind a dependency *)

Definition load_states {S} (l : loc) : M S (list (sample string)) :=
  h ← get_heap;
  match h !! l with
  | Some (OStates a) => mret a
  | _ => raise (TypeError "not a multistate array")
  end.

Definition load_floats {S} (l : loc) : M S (list (sample Qc)) :=
  h ← get_heap;
  match h !! l with
  | Some (OFloats a) => mret a
  | _ => raise (TypeError "not a float array")
  end.

Definition store {S} (l : loc) (o : obj) : M S unit :=
  h ← get_heap;
  put_heap (<[l := o]> h).

(** [d[key] = x] on the dictionary that [d] refers to *)
Definition setitem_dict {S} (d : val) (key : string) (x : val) : M S unit :=
  match d with
  | VRef l =>
      h ← get_heap;
      match h !! l with
      | Some (ODict m) => store l (ODict (<[key := x]> m))
      | _ => raise (TypeError "object does not support item assignment")
      end
  | _ => raise (TypeError "object does not support item assignment")
  end.

(** *** numpy masked arrays *)

(** [array == state]: the comparison keeps the mask. *)
Definition ma_eq (a : list (sample string)) (state : string) : list (sample bool) :=
  map (fun x => mk_sample (String.eqb (sdata x) state) (smask x)) a.

(** [np.ma.where(condition)]: the indices at which the condition holds and
    is not masked. *)
Definition ma_where (c : list (sample bool)) : list nat :=
  List.filter
    (fun i => match c !! i with
              | Some x => negb (smask x) && sdata x
              | None => false
              end)
    (seq 0 (length c)).

(** [a[idx] = x] for an index array: the items become valid [x]. *)
Definition setitem_indices {A} (a : list (sample A)) (idx : list nat) (x : A)
  : list (sample A) :=
  fold_left (fun acc i => <[i := valid x]> acc) idx a.

(** [tcas.array[idx] = state], in place *)
Definition setitem_states {S} (l : loc) (idx : list nat) (state : string) : M S unit :=
  a ← load_states l;
  store l (OStates (setitem_indices a idx state)).

(** [airspeed.array[sl] = x], in place: the selected samples become valid
    [x]. *)
Definition setitem_floats {S} (l : loc) (sl : slice) (x : Qc) : M S unit :=
  a ← load_floats l;
  store l (OFloats (setitem_slice a sl (valid x))).

(** *** Node methods *)

(** Modelled from the spec: [FlightAttributeNode.set_flight_attr] is not in
    the repository; a flight attribute is a name with one value. *)
Definition set_flight_attr (v : val) : M FlightAttributeNode unit :=
  self ← get_self;
  put_self (mk_FAN (fan_name self) v).

(** Modelled from the spec: [KeyTimeInstanceNode.create_kti] is not in the
    repository; it records one instant under the node's name. *)
Definition create_kti (index : Qc) : M KeyTimeInstanceNode unit :=
  self ← get_self;
  append (mk_KTI index (ln_name self)).

(** Modelled from the spec: [KeyPointValueNode.create_kpv] is not in the
    repository; it records one value at an index under the node's name. *)
Definition create_kpv (index value : Qc) : M KeyPointValueNode unit :=
  self ← get_self;
  append (mk_KPV index value (ln_name self)).

(** [self.array = a] on a derived parameter node *)
Definition set_array (a : list (sample Qc)) : M DerivedParameterNode unit :=
  self ← get_self;
  put_self (mk_DPN (dpn_name self) (Some a)).

(** The position of sample [i] as an instant's index. *)
Definition index_of_sample (i : nat) : Qc := Q2Qc (inject_Z (Z.of_nat i)).

(** The [change] argument; the profiles only pass ['entering']. *)
Inductive change := entering.

(** A sample is in [state] when it is valid and carries that label. *)
Definition in_state (a : list (sample string)) (state : string) (i : nat) : bool :=
  match a !! i with
  | Some x => negb (smask x) && String.eqb (sdata x) state
  | None => false
  end.

(** The entries into [state] observable among the samples that [s]
    selects: sample [i] is in the state and its predecessor, also selected,
    is not. *)
Definition state_changes (state : string) (a : list (sample string)) (s : slice)
  : list nat :=
  let '(lo, hi) := indices s (length a) in
  List.filter (fun i => in_state a state i && negb (in_state a state (i - 1)))
              (seq (S lo) (hi - S lo)).

(** Modelled from the spec: [KeyTimeInstanceNode.create_ktis_on_state_change]
    is not in the repository.  Given a discrete-state series and a
    restricting list of intervals it emits one instant per transition into
    the target state, at the index of the entering sample, restricted to
    the samples inside each interval; no transition is observable at a
    first sample, which has no preceding sample. *)
Definition create_ktis_on_state_change (state : string) (a : list (sample string))
    (c : change) (phase : list Section) : M KeyTimeInstanceNode unit :=
  for_ phase (fun each_period =>
    for_ (state_changes state a (slice_ each_period))
         (fun i => create_kti (index_of_sample i))).

End Engine.

(** ** example_profile.py *)

Module example_profile.
Import Py Engine.

Section Profile.

(** [analysis_engine.library.repair_mask] and [integrate(array, frequency,
    scale=...)], which return an array or raise; each is taken as a
    function of the contents of the array it is given. *)
Variable repair_mask : list (sample Qc) → outcome (list (sample Qc)).
Variable integrate : list (sample Qc) → Qc → Qc → outcome (list (sample Qc)).

(** [analyser_custom_settings] *)
Variable BASE_DATA_PATH : string.
Variable OPERATOR_FOLDER : string.

(** The file system that [glob] reads. *)
Variable fs : filesystem.

(** [fds_oracle.flight_record_filepaths(query)] *)
Variable flight_record_filepaths : string → outcome (list string).

(** *** Section 2: measure definitions *)

(** [SimpleAttribute.derive(self, start_datetime=A('Start Datetime'))] *)
Definition SimpleAttribute_derive (start_datetime : Attribute)
  : M FlightAttributeNode unit :=
  set_flight_attr (VStr "Keith").

(** [FileAttribute.derive(self, filename=A('Myfile'))] *)
Definition FileAttribute_derive (filename : Attribute)
  : M FlightAttributeNode unit :=
  set_flight_attr (value filename).

(** [MydictAttribute.derive(self, mydict=A('Mydict'))] *)
Definition MydictAttribute_derive (mydict : Attribute)
  : M FlightAttributeNode unit :=
  setitem_dict (value mydict) "testkey" (VList [1; 2; 3]) ;;
  set_flight_attr (value mydict).

(** [SimpleKTI.derive(self, start_datetime=A('Start Datetime'))] *)
Definition SimpleKTI_derive (start_datetime : Attribute)
  : M KeyTimeInstanceNode unit :=
  create_kti (Q2Qc 3).

(** [SimplerKTI.derive(self, start_datetime=A('Start Datetime'))] *)
Definition SimplerKTI_derive (start_datetime : Attribute)
  : M KeyTimeInstanceNode unit :=
  let kti := mk_KTI (Q2Qc 700) "My Simpler KTI" in
  append kti.

(** [SimpleKPV.derive(self, start_datetime=A('Start Datetime'))] *)
Definition SimpleKPV_derive (start_datetime : Attribute)
  : M KeyPointValueNode unit :=
  create_kpv (Q2Qc 3) (Q2Qc (9999 # 10)).

(** [SimplerKPV.derive(self, start_datetime=A('Start Datetime'))] *)
Definition SimplerKPV_derive (start_datetime : Attribute)
  : M KeyPointValueNode unit :=
  append (mk_KPV (Q2Qc (425 # 10)) (Q2Qc (6666 # 10)) "My Simpler KPV") ;;
  append (mk_KPV (Q2Qc (425 # 10)) (Q2Qc (6666 # 10)) "My Simpler KPV 2").

(** [TCASRAStart.derive(self, tcas=M('TCAS Combined Control'), air=S('Airborne'))] *)
Definition TCASRAStart_derive (tcas : Param) (air : list Section)
  : M KeyTimeInstanceNode unit :=
  a ← load_states (array tcas);
  let dn_idx := ma_where (ma_eq a "Down Advisory Corrective") in
  setitem_states (array tcas) dn_idx "Up Advisory Corrective" ;;
  a' ← load_states (array tcas);
  create_ktis_on_state_change "Up Advisory Corrective" a' entering air.

(** [InitialApproach.derive(self, approach=S('Approach'), final=S('Final Approach'))] *)
Definition InitialApproach_derive (approach final : list Section)
  : M FlightPhaseNode unit :=
  if (0 <? length approach)%nat && (0 <? length final)%nat then
    dbegin ← lift (min (map start_edge approach));
    dend ← lift (min (map start_edge final));
    create_phase (mk_slice dbegin dend)
  else mret tt.

(** [DistanceTravelledInAir.derive(self, airspeed=P('Airspeed True'), grounded=S('Grounded'))] *)
Definition DistanceTravelledInAir_derive (airspeed : Param) (grounded : list Section)
  : M DerivedParameterNode unit :=
  for_ grounded (fun section =>
    setitem_floats (array airspeed) (slice_ section) 0%Qc) ;;
  a ← load_floats (array airspeed);
  repaired_array ← lift (repair_mask a);
  adist ← lift (integrate repaired_array (frequency airspeed) (Q2Qc (1 # 3600)));
  set_array adist.

(** *** Section 3: pre-defined test sets *)

Definition tiny_test : M unit (string * list string) :=
  let input_dir := BASE_DATA_PATH +:+ "tiny_test/" in
  print ("tiny_test() " +:+ input_dir) ;;
  let files_to_process := glob fs (join input_dir "*.hdf5") in
  let repo := "linux" in
  mret (repo, files_to_process).

Definition ffd_test10 : M unit (string * list string) :=
  let input_dir := BASE_DATA_PATH +:+ "ffd897/" in
  print input_dir ;;
  let files_to_process := glob fs (join input_dir "*.hdf5") in
  let repo := "linux" in
  mret (repo, files_to_process).

Definition test10_scratch : M unit (string * list string) :=
  let input_dir := "/opt/scratch/test10/" in
  print input_dir ;;
  let files_to_process := glob fs (join input_dir "*.hdf5") in
  let repo := "cockpit" in
  mret (repo, files_to_process).

Definition test10 : M unit (string * list string) :=
  let input_dir := BASE_DATA_PATH +:+ "test10/" in
  print input_dir ;;
  let files_to_process := glob fs (join input_dir "*.hdf5") in
  let repo := "linux" in
  mret (repo, files_to_process).

Definition test100 : M unit (string * list string) :=
  let input_dir := BASE_DATA_PATH +:+ OPERATOR_FOLDER +:+ "2012-07-13/" in
  print input_dir ;;
  let files_to_process := take 100 (glob fs (join input_dir "*.hdf5")) in
  let repo := "keith" in
  mret (repo, files_to_process).

Definition test_sql_jfk_query : string :=
  "select distinct file_path from fds_flight_record 
                 where 
                    file_repository='central' 
                    and orig_icao='KJFK' and dest_icao in ('KFLL','KMCO' )
                    --and rownum<15
                    ".

Definition test_sql_jfk : M unit (string * list string) :=
  let query := test_sql_jfk_query in
  retrieved ← lift (flight_record_filepaths query);
  let files_to_process := take 40 retrieved in
  let repo := "central" in
  mret (repo, files_to_process).

Definition test_sql_jfk_local_query : string :=
  "select distinct file_path from fds_flight_record 
                 where 
                    file_repository='REPO' 
                    and orig_icao='KJFK' and dest_icao in ('KFLL','KMCO' )
                    --and rownum<15
                    ".

Definition test_sql_jfk_local : M unit (string * list string) :=
  let repo := "local" in
  let query := replace test_sql_jfk_local_query "REPO" repo in
  files_to_process ← lift (flight_record_filepaths query);
  mret (repo, files_to_process).

Definition fll_local_query : string :=
  "select distinct file_path from fds_flight_record 
                 where 
                    file_repository='REPO' 
                    and dest_icao in ('KFLL')
                    ".

Definition fll_local : M unit (string * list string) :=
  let repo := "local" in
  let query := replace fll_local_query "REPO" repo in
  files_to_process ← lift (flight_record_filepaths query);
  mret (repo, files_to_process).

Definition test_multifleet_query : string :=
  "select file_path from fds_flight_record 
           where fleet_series='B747-200' and file_repository='linux' and rownum<=5
        union all
        select file_path from fds_flight_record 
           where fleet_series='CRJ 700' and file_repository='linux' and rownum<=5
        union all
        select file_path from fds_flight_record 
           where fleet_series='A320-200' and file_repository='linux' and rownum<=5".

Definition test_multifleet : M unit (string * list string) :=
  let repo := "linux" in
  let query := test_multifleet_query in
  files_to_process ← lift (flight_record_filepaths query);
  mret (repo, files_to_process).

Definition test_kpv_range_query : string :=
  "select distinct f.file_path --, kpv.name, kpv.value
                from fds_flight_record f join fds_kpv kpv 
                  on kpv.file_repository=f.file_repository and kpv.base_file_path=f.base_file_path
                 where f.file_repository='REPO' 
                   and f.base_file_path is not null
                   and f.orig_icao='KIAD' and f.dest_icao='KFLL'
                   and ( 
                         kpv.name='Airspeed 500 To 20 Ft Max' 
                      --and kpv.value between 100.0 and 200.0)
                      --  or (kpv.name='Simple Kpv' and kpv.value>100)
                       ) 
                order by file_path
                ".

Definition test_kpv_range : M unit (string * list string) :=
  let repo := "linux" in
  let query := replace test_kpv_range_query "REPO" repo in
  retrieved ← lift (flight_record_filepaths query);
  let files_to_process := take 40 retrieved in
  mret (repo, files_to_process).

End Profile.

End example_profile.

(** ** parallel_profile.py *)

Module parallel_profile.
Import Py Engine.

Section Profile.

(** [analyser_custom_settings] *)
Variable BASE_DATA_PATH : string.
Variable OPERATOR_FOLDER : string.

(** The file system that [glob] reads. *)
Variable fs : filesystem.

(** [fds_oracle.flight_record_filepaths(query)] *)
Variable flight_record_filepaths : string → outcome (list string).

(** *** Section 2: measure definitions *)

(** [SimpleAttribute.derive(self, start_datetime=A('Start Datetime'))] *)
Definition SimpleAttribute_derive (start_datetime : Attribute)
  : M FlightAttributeNode unit :=
  set_flight_attr (VStr "Keith").

(** [FileAttribute.derive(self, filename=A('Myfile'))]: the attribute
    object itself is stored. *)
Definition FileAttribute_derive (filename : Attribute)
  : M FlightAttributeNode unit :=
  set_flight_attr (VAttribute (attr_name filename) (value filename)).

(** [MydictAttribute.derive(self, mydict=A('Mydict'))] *)
Definition MydictAttribute_derive (mydict : Attribute)
  : M FlightAttributeNode unit :=
  setitem_dict (value mydict) "testkey" (VList [1; 2; 3]) ;;
  set_flight_attr (VAttribute (attr_name mydict) (value mydict)).

(** [SimpleKTI.derive(self, start_datetime=A('Start Datetime'))] *)
Definition SimpleKTI_derive (start_datetime : Attribute)
  : M KeyTimeInstanceNode unit :=
  create_kti (Q2Qc 3).

(** [SimplerKTI.derive(self, start_datetime=A('Start Datetime'))] *)
Definition SimplerKTI_derive (start_datetime : Attribute)
  : M KeyTimeInstanceNode unit :=
  let kti := mk_KTI (Q2Qc 700) "My Simpler KTI" in
  append kti.

(** [SimpleKPV.derive(self, start_datetime=A('Start Datetime'))] *)
Definition SimpleKPV_derive (start_datetime : Attribute)
  : M KeyPointValueNode unit :=
  create_kpv (Q2Qc 3) (Q2Qc (9999 # 10)).

(** [SimplerKPV.derive(self, start_datetime=A('Start Datetime'))] *)
Definition SimplerKPV_derive (start_datetime : Attribute)
  : M KeyPointValueNode unit :=
  append (mk_KPV (Q2Qc (425 # 10)) (Q2Qc (6666 # 10)) "My Simpler KPV") ;;
  print "simpler KPV 2" ;;
  append (mk_KPV (Q2Qc (425 # 10)) (Q2Qc (6666 # 10)) "My Simpler KPV 2").

(** [TCASRAStart.derive(self, tcas=M('TCAS Combined Control'), air=S('Airborne'))] *)
Definition TCASRAStart_derive (tcas : Param) (air : list Section)
  : M KeyTimeInstanceNode unit :=
  a ← load_states (array tcas);
  create_ktis_on_state_change "Up Advisory Corrective" a entering air ;;
  a' ← load_states (array tcas);
  create_ktis_on_state_change "Down Advisory Corrective" a' entering air.

(** [InitialApproach.derive(self, approach=S('Approach'), final=S('Final Approach'))] *)
Definition InitialApproach_derive (approach final : list Section)
  : M FlightPhaseNode unit :=
  if (0 <? length approach)%nat && (0 <? length final)%nat then
    dbegin ← lift (min (map start_edge approach));
    dend ← lift (min (map start_edge final));
    create_phase (mk_slice dbegin dend)
  else mret tt.

(** *** Section 3: pre-defined test sets *)

Definition tiny_test : M unit (string * list string) :=
  let input_dir := BASE_DATA_PATH +:+ "tiny_test/" in
  print input_dir ;;
  let files_to_process := glob fs (join input_dir "*.hdf5") in
  let repo := "keith" in
  mret (repo, files_to_process).

Definition test10 : M unit (string * list string) :=
  let input_dir := BASE_DATA_PATH +:+ "test10/" in
  print input_dir ;;
  let files_to_process := glob fs (join input_dir "*.hdf5") in
  let repo := "NA" in
  mret (repo, files_to_process).

Definition test100 : M unit (string * list string) :=
  let input_dir := BASE_DATA_PATH +:+ OPERATOR_FOLDER +:+ "2012-07-13/" in
  print input_dir ;;
  let files_to_process := take 100 (glob fs (join input_dir "*.hdf5")) in
  let repo := "keith" in
  mret (repo, files_to_process).

Definition test_sql_jfk_query : string :=
  "select distinct file_path from fds_flight_record 
                 where 
                    file_repository='central' 
                    and orig_icao='KJFK' and dest_icao in ('KFLL','KMCO' )
                    --and rownum<15
                    ".

Definition test_sql_jfk : M unit (string * list string) :=
  let query := test_sql_jfk_query in
  retrieved ← lift (flight_record_filepaths query);
  let files_to_process := take 40 retrieved in
  let repo := "central" in
  mret (repo, files_to_process).

Definition test_sql_jfk_local_query : string :=
  "select distinct file_path from fds_flight_record 
                 where 
                    file_repository='REPO' 
                    and orig_icao='KJFK' and dest_icao in ('KFLL','KMCO' )
                    --and rownum<15
                    ".

Definition test_sql_jfk_local : M unit (string * list string) :=
  let repo := "local" in
  let query := replace test_sql_jfk_local_query "REPO" repo in
  files_to_process ← lift (flight_record_filepaths query);
  mret (repo, files_to_process).

Definition fll_local_query : string :=
  "select distinct file_path from fds_flight_record 
                 where file_repository='local' and dest_icao in ('KFLL')".

Definition fll_local : M unit (string * list string) :=
  let repo := "local" in
  let query := replace fll_local_query "REPO" repo in
  files_to_process ← lift (flight_record_filepaths query);
  mret (repo, files_to_process).

Definition jfk_local_query : string :=
  "select distinct file_path from fds_flight_record 
                 where file_repository='local' and dest_icao in ('KJFK')".

Definition jfk_local : M unit (string * list string) :=
  let repo := "local" in
  let query := replace jfk_local_query "REPO" repo in
  files_to_process ← lift (flight_record_filepaths query);
  mret (repo, files_to_process).

Definition test_kpv_range_query : string :=
  "select distinct f.file_path --, kpv.name, kpv.value
                from fds_flight_record f join fds_kpv kpv 
                  on kpv.file_repository=f.file_repository and kpv.base_file_path=f.base_file_path
                 where f.file_repository='REPO' 
                   and f.base_file_path is not null
                   and f.orig_icao='KIAD' and f.dest_icao='KFLL'
                   and ( 
                         kpv.name='Airspeed 500 To 20 Ft Max' 
                      --and kpv.value between 100.0 and 200.0)
                      --  or (kpv.name='Simple Kpv' and kpv.value>100)
                       ) 
                order by file_path
                ".

Definition test_kpv_range : M unit (string * list string) :=
  let repo := "linux" in
  let query := replace test_kpv_range_query "REPO" repo in
  files_to_process ← lift (flight_record_filepaths query);
  mret (repo, files_to_process).

End Profile.

End parallel_profile.

(** ** notebook_utils.py *)

Module notebook_utils.
Import Py Engine.

(** The class of a series object, as [type(...)] reports it. *)
Inductive pytype :=
| T_Parameter
| T_DerivedParameterNode
| T_MultistateDerivedParameterNode
| T_other (cls : string).

#[global] Instance pytype_eq_dec : EqDecision pytype.
Proof. solve_decision. Defined.

(** What [hdf_search] reads of a series. *)
Record Series := mk_Series {
  series_type : pytype;
  lfl : val;
  series_frequency : Qc;
  data_type : val;
  units : val;
  values_mapping : gmap Z string
}.

(** A table cell: a plain value or a state-code-to-label mapping. *)
Inductive cell :=
| Cell (v : val)
| Mapping (m : gmap Z string).

(** A [pandas.DataFrame]: named columns over a common row index. *)
Record DataFrame := mk_DataFrame {
  rows : nat;
  columns : list (string * list cell)
}.

(** [pd.DataFrame({col: values})] *)
Definition DataFrame_new (col : string) (values : list cell) : DataFrame :=
  mk_DataFrame (length values) [(col, values)].

(** [df[col] = values]: the list must be as long as the index; a new
    column goes last, an existing one is replaced. *)
Definition DataFrame_setitem (df : DataFrame) (col : string) (values : list cell)
  : outcome DataFrame :=
  if negb (Nat.eqb (length values) (rows df)) then
    Raise (ValueError "Length of values does not match length of index")
  else if existsb (fun c => String.eqb (fst c) col) (columns df) then
    Ok (mk_DataFrame (rows df)
          (map (fun c => if String.eqb (fst c) col then (col, values) else c)
               (columns df)))
  else Ok (mk_DataFrame (rows df) (columns df ++ [(col, values)])).

(** [myhdf5.keys()] *)
Definition keys (myhdf5 : gmap string Series) : list string :=
  (map_to_list myhdf5).*1.

(** [myhdf5.get(nm).attr]: [get] gives [None] for a missing name, on which
    the attribute access raises. *)
Definition get_attr {A} (myhdf5 : gmap string Series) (nm : string)
    (attr : Series → A) : outcome A :=
  match myhdf5 !! nm with
  | Some s => Ok (attr s)
  | None => Raise (AttributeError "'NoneType' object has no attribute")
  end.

(** [hdf_search(myhdf5, search_term)] *)
Definition hdf_search (myhdf5 : gmap string Series) (search_term : string)
  : outcome DataFrame :=
  let matching_names :=
    List.filter (fun k => 0 <=? find (upper k) (upper search_term)) (keys myhdf5) in
  let df := DataFrame_new "name" (map (fun k => Cell (VStr k)) matching_names) in
  recorded ← comprehension
    (fun nm => l ← get_attr myhdf5 nm lfl;
               mret (Cell (VStr (if truthy l then "T" else "F"))))
    matching_names;
  df ← DataFrame_setitem df "recorded" recorded;
  frequency ← comprehension
    (fun nm => f ← get_attr myhdf5 nm series_frequency; mret (Cell (VFloat f)))
    matching_names;
  df ← DataFrame_setitem df "frequency" frequency;
  data_types ← comprehension
    (fun nm => d ← get_attr myhdf5 nm data_type; mret (Cell d))
    matching_names;
  df ← DataFrame_setitem df "data_type" data_types;
  units_ ← comprehension
    (fun nm => c ← get_attr myhdf5 nm units;
               if truthy c
               then u ← get_attr myhdf5 nm units; mret (Cell u)
               else mret (Cell (VStr "")))
    matching_names;
  df ← DataFrame_setitem df "units" units_;
  values ← comprehension
    (fun nm => t ← get_attr myhdf5 nm series_type;
               if bool_decide (t = T_MultistateDerivedParameterNode)
               then m ← get_attr myhdf5 nm values_mapping; mret (Mapping m)
               else mret (Cell (VStr "n/a")))
    matching_names;
  df ← DataFrame_setitem df "values" values;
  mret df.

(** *** Graph display *)

Section Graph.

(** The graph, the positions a layout assigns, and the drawing surface
    of the notebook. *)
Variable graph : Type.
Variable layout : Type.
Variable canvas : Type.

(** [nx.spring_layout(graph)] and [nx.draw_networkx(graph, pos=,
    node_size=, alpha=, font_size=)]; either can raise, and drawing can
    have changed the surface by then. *)
Variable spring_layout : graph → outcome layout.
Variable draw_networkx : graph → layout → Qc → Qc → Qc → canvas → outcome unit * canvas.

(** The plotting state: [pylab.rcParams] and the surface. *)
Record pylab := mk_pylab {
  rcParams : gmap string (Qc * Qc);
  surface : canvas
}.

(** [pylab.rcParams[key] = v] *)
Definition set_rcParam (key : string) (v : Qc * Qc) : M pylab unit :=
  self ← get_self;
  put_self (mk_pylab (<[key := v]> (rcParams self)) (surface self)).

Definition draw (g : graph) (pos : layout) (node_size alpha font_size : Qc)
  : M pylab unit :=
  λ self w,
    let '(o, c) := draw_networkx g pos node_size alpha font_size (surface self) in
    (o, mk_pylab (rcParams self) c, w).

(** [try: body  except: handler], a bare [except] clause: every exception
    of the body is caught. *)
Definition try_except {S} (body handler : M S unit) : M S unit :=
  λ self w,
    match body self w with
    | (Ok a, self', w') => (Ok a, self', w')
    | (Raise _, self', w') => handler self' w'
    end.

(** [show_graph(graph, font_size=12)] *)
Definition show_graph (g : graph) (font_size : Qc) : M pylab unit :=
  set_rcParam "figure.figsize" (Q2Qc 16, Q2Qc 12) ;;
  try_except
    (pos ← lift (spring_layout g);
     draw g pos (Q2Qc 6) (Q2Qc (1 # 10)) font_size)
    (print "hmm, apparently bogus exception") ;;
  set_rcParam "figure.figsize" (Q2Qc 10, Q2Qc 4).

End Graph.

End notebook_utils.

(** ** The engine library *)

Module library.
Import Py Engine.

(** Distance to the next valid sample, and its value. *)
Fixpoint next_valid (a : list (sample Qc)) : option (nat * Qc) :=
  match a with
  | [] => None
  | x :: a' =>
      if smask x then
        match next_valid a' with
        | Some (d, v) => Some (S d, v)
        | None => None
        end
      else Some (O, sdata x)
  end.

(** Linear interpolation across masked runs that have a valid sample on
    both sides: [prev] is the last valid value and [gap] the number of
    masked samples passed since. *)
Fixpoint interpolate (prev : option Qc) (gap : nat) (a : list (sample Qc))
  : list (sample Qc) :=
  match a with
  | [] => []
  | x :: a' =>
      if smask x then
        match prev, next_valid a' with
        | Some vp, Some (d, vq) =>
            let pos := Q2Qc (inject_Z (Z.of_nat (gap + 1))) in
            let span := Q2Qc (inject_Z (Z.of_nat (gap + 1 + d + 1))) in
            valid (vp + (vq - vp) * pos / span)%Qc :: interpolate prev (S gap) a'
        | _, _ => x :: interpolate prev (S gap) a'
        end
      else x :: interpolate (Some (sdata x)) O a'
  end.

(** Modelled from the spec: [analysis_engine.library.repair_mask] is not
    in the repository; the spec has invalid samples repaired by
    interpolation or zero-filling.  This routine interpolates between the
    valid neighbours of a masked run, keeps valid samples, and refuses an
    array with no valid sample.  It serves as an instance of what the
    distance node relies on. *)
Definition repair_mask (a : list (sample Qc)) : outcome (list (sample Qc)) :=
  if forallb smask a then
    Raise (ValueError "Array cannot be repaired as it is entirely masked")
  else Ok (interpolate None O a).

(** [np.roll(a, 1)] *)
Definition roll {A} (a : list A) : list A :=
  match last a with
  | Some x => x :: removelast a
  | None => []
  end.

(** [np.ma.cumsum]: masked items add nothing and stay masked. *)
Fixpoint cumsum (acc : Qc) (a : list (sample Qc)) : list (sample Qc) :=
  match a with
  | [] => []
  | x :: a' =>
      let acc' := if smask x then acc else (acc + sdata x)%Qc in
      mk_sample acc' (smask x) :: cumsum acc' a'
  end.

(** Index of the first valid sample. *)
Fixpoint first_valid (a : list (sample Qc)) : option nat :=
  match a with
  | [] => None
  | x :: a' => if smask x then S <$> first_valid a' else Some O
  end.

(** Modelled from the spec: [analysis_engine.library.integrate] is not in
    the repository; the spec has it accumulate a sampled series.  This
    routine accumulates by the trapezoidal rule,
    [scale * 0.5 / frequency * (a[i] + a[i-1])] per step, from an initial
    value of zero at the first step that can be computed.  It serves as an
    instance of what the distance node relies on. *)
Definition integrate (a : list (sample Qc)) (frequency scale : Qc)
  : outcome (list (sample Qc)) :=
  if forallb smask a then Ok (map (fun _ => mk_sample 0%Qc true) a)
  else if bool_decide (frequency = 0%Qc) then
    Raise (OtherError "float division by zero")
  else
    let k := (scale * Q2Qc (1 # 2) / frequency)%Qc in
    let to_int :=
      zip_with (fun x y => mk_sample (k * (sdata x + sdata y))%Qc
                                     (smask x || smask y))
               a (roll a) in
    match first_valid to_int with
    | None => Raise (TypeError "'NoneType' object is not subscriptable")
    | Some e =>
        let to_int := <[(if Nat.eqb e 1 then O else e) := valid 0%Qc]> to_int in
        Ok (cumsum 0%Qc to_int)
    end.

End library.

(** ** Running a node *)

Module run.
Import Py Engine.

(** The nodes the two profiles define. *)
Inductive example_node :=
| ex_SimpleAttribute | ex_FileAttribute | ex_MydictAttribute
| ex_SimpleKTI | ex_SimplerKTI | ex_SimpleKPV | ex_SimplerKPV
| ex_TCASRAStart | ex_InitialApproach | ex_DistanceTravelledInAir.

Inductive parallel_node :=
| par_SimpleAttribute | par_FileAttribute | par_MydictAttribute
| par_SimpleKTI | par_SimplerKTI | par_SimpleKPV | par_SimplerKPV
| par_TCASRAStart | par_InitialApproach.

Inductive node :=
| example (n : example_node)
| parallel (n : parallel_node).

(** The resolved dependencies, by the name each is declared under. *)
Record resolved := mk_resolved {
  Start_Datetime : Attribute;
  Myfile : Attribute;
  Mydict : Attribute;
  TCAS_Combined_Control : Param;
  Airborne : list Section;
  Approach : list Section;
  Final_Approach : list Section;
  Airspeed_True : Param;
  Grounded : list Section
}.

(** The output records of a node, by category. *)
Inductive records :=
| attribute (n : FlightAttributeNode)
| instants (n : KeyTimeInstanceNode)
| point_values (n : KeyPointValueNode)
| phases (n : FlightPhaseNode)
| series (n : DerivedParameterNode).

Definition invoke {S} (fresh : S) (wrap : S → records) (body : M S unit)
    (w : world) : outcome unit * records * world :=
  let '(o, self, w') := body fresh w in (o, wrap self, w').

Section Derive.

Variable repair_mask : list (sample Qc) → outcome (list (sample Qc)).
Variable integrate : list (sample Qc) → Qc → Qc → outcome (list (sample Qc)).

(** Modelled from the spec: the engine's invocation of a node is not in
    the repository.  Each node is created fresh, named [name], and is
    populated by one invocation of its [derive] with the resolved
    dependencies it declares. *)
Definition derive (n : node) (name : string) (deps : resolved) (w : world)
  : outcome unit * records * world :=
  let fan := mk_FAN name VNone in
  match n with
  | example ex_SimpleAttribute =>
      invoke fan attribute (example_profile.SimpleAttribute_derive (Start_Datetime deps)) w
  | example ex_FileAttribute =>
      invoke fan attribute (example_profile.FileAttribute_derive (Myfile deps)) w
  | example ex_MydictAttribute =>
      invoke fan attribute (example_profile.MydictAttribute_derive (Mydict deps)) w
  | example ex_SimpleKTI =>
      invoke (mk_LN name []) instants (example_profile.SimpleKTI_derive (Start_Datetime deps)) w
  | example ex_SimplerKTI =>
      invoke (mk_LN name []) instants (example_profile.SimplerKTI_derive (Start_Datetime deps)) w
  | example ex_SimpleKPV =>
      invoke (mk_LN name []) point_values (example_profile.SimpleKPV_derive (Start_Datetime deps)) w
  | example ex_SimplerKPV =>
      invoke (mk_LN name []) point_values (example_profile.SimplerKPV_derive (Start_Datetime deps)) w
  | example ex_TCASRAStart =>
      invoke (mk_LN name []) instants
        (example_profile.TCASRAStart_derive (TCAS_Combined_Control deps) (Airborne deps)) w
  | example ex_InitialApproach =>
      invoke (mk_LN name []) phases
        (example_profile.InitialApproach_derive (Approach deps) (Final_Approach deps)) w
  | example ex_DistanceTravelledInAir =>
      invoke (mk_DPN name None) series
        (example_profile.DistanceTravelledInAir_derive repair_mask integrate
           (Airspeed_True deps) (Grounded deps)) w
  | parallel par_SimpleAttribute =>
      invoke fan attribute (parallel_profile.SimpleAttribute_derive (Start_Datetime deps)) w
  | parallel par_FileAttribute =>
      invoke fan attribute (parallel_profile.FileAttribute_derive (Myfile deps)) w
  | parallel par_MydictAttribute =>
      invoke fan attribute (parallel_profile.MydictAttribute_derive (Mydict deps)) w
  | parallel par_SimpleKTI =>
      invoke (mk_LN name []) instants (parallel_profile.SimpleKTI_derive (Start_Datetime deps)) w
  | parallel par_SimplerKTI =>
      invoke (mk_LN name []) instants (parallel_profile.SimplerKTI_derive (Start_Datetime deps)) w
  | parallel par_SimpleKPV =>
      invoke (mk_LN name []) point_values (parallel_profile.SimpleKPV_derive (Start_Datetime deps)) w
  | parallel par_SimplerKPV =>
      invoke (mk_LN name []) point_values (parallel_profile.SimplerKPV_derive (Start_Datetime deps)) w
  | parallel par_TCASRAStart =>
      invoke (mk_LN name []) instants
        (parallel_profile.TCASRAStart_derive (TCAS_Combined_Control deps) (Airborne deps)) w
  | parallel par_InitialApproach =>
      invoke (mk_LN name []) phases
        (parallel_profile.InitialApproach_derive (Approach deps) (Final_Approach deps)) w
  end.

End Derive.

End run.

(** ** Notions the properties are stated with *)

Module notions.
Import Py Engine.

Definition Up : string := "Up Advisory Corrective".
Definition Down : string := "Down Advisory Corrective".

(** A valid sample that carries the label [state]. *)
Definition is_state (state : string) (x : sample string) : bool :=
  negb (smask x) && String.eqb (sdata x) state.

(** A valid sample in a corrective advisory, up or down. *)
Definition advisory (x : sample string) : bool :=
  is_state Up x || is_state Down x.

(** The series after the down advisories are relabelled as up advisories. *)
Definition merge (x : sample string) : sample string :=
  if is_state Down x then valid Up else x.

Definition holds (p : sample string → bool) (a : list (sample string)) (i : nat) : bool :=
  match a !! i with
  | Some x => p x
  | None => false
  end.

(** Sample [i] enters the target state inside the interval [s]: [i] and
    its predecessor are both selected by [s], sample [i] is in the state
    and its predecessor is not. *)
Definition entry_within (p : sample string → bool) (a : list (sample string))
    (s : slice) (i : nat) : bool :=
  (fst (indices s (length a)) <? i)%nat && (i <? snd (indices s (length a)))%nat
  && holds p a i && negb (holds p a (i - 1)).

(** The number of restricting intervals inside which sample [i] enters
    the target state. *)
Definition entries (p : sample string → bool) (a : list (sample string))
    (air : list Section) (i : nat) : nat :=
  length (List.filter (fun sec => entry_within p a (slice_ sec) i) air).

(** The airspeed samples once every grounded section has been zeroed. *)
Definition zero_out (a : list (sample Qc)) (grounded : list Section) : list (sample Qc) :=
  fold_left (fun acc sec => setitem_slice acc (slice_ sec) (valid 0%Qc)) grounded a.

(** A directory entry that the pattern [*.hdf5] selects: not hidden, and
    with the recording-file extension. *)
Definition hdf5_file (name : string) : bool :=
  negb (startswith name ".") && endswith name ".hdf5".

(** A pattern without wildcard characters. *)
Fixpoint literal (pat : string) : bool :=
  match pat with
  | EmptyString => true
  | String c pat' =>
      negb (Ascii.eqb c "*") && negb (Ascii.eqb c "?") && literal pat'
  end.

(** [needle] occurs in [s]. *)
Definition occurs (needle s : string) : Prop :=
  ∃ pre post, s = pre +:+ needle +:+ post.

(** The series of a container whose name contains [search_term], without
    regard to case, in the order the container lists its keys. *)
Definition matching_series (myhdf5 : gmap string notebook_utils.Series)
    (search_term : string) : list (string * notebook_utils.Series) :=
  List.filter (fun ks => 0 <=? find (upper ks.1) (upper search_term))
              (map_to_list myhdf5).

(** SQL text with the [--] comments removed, each up to its end of line. *)
Fixpoint strip_comments (in_comment : bool) (s : string) : string :=
  match s with
  | EmptyString => EmptyString
  | String c s' =>
      if in_comment then
        if Ascii.eqb c "010" then String c (strip_comments false s')
        else strip_comments true s'
      else if startswith s "--" then strip_comments true s'
      else String c (strip_comments false s')
  end.

(** The query text limits the number of rows itself. *)
Definition caps_rows (query : string) : bool :=
  0 <=? find (upper (strip_comments false query)) "ROWNUM".

(** [files] is what a selector returns for the tag [repo] when the list
    [retrieved] came back from the query and the caller kept at most [K]
    entries of it: the selector returns normally, and when more than [K]
    entries were retrieved exactly the first [K] are kept, in their
    order. *)
Definition capped {S} (K : nat) (res : outcome (string * list string) * S * world)
    (repo : string) (retrieved : list string) (self : S) (w : world) : Prop :=
  ∃ files,
    res = (Ok (repo, files), self, w)
    ∧ files = take K retrieved
    ∧ ((K < length retrieved)%nat →
       length files = K ∧ ∀ i, (i < K)%nat → files !! i = retrieved !! i).

End notions.

(** ** Sample inputs *)

Module samples.
Import Py Engine.

Definition approach_sections : list Section :=
  [ mk_Section "Approach" (mk_slice (Some (Q2Qc 12)) (Some (Q2Qc 20)))
               (Some (Q2Qc (23 # 2))) (Some (Q2Qc (41 # 2)));
    mk_Section "Approach" (mk_slice (Some (Q2Qc 5)) (Some (Q2Qc 9)))
               (Some (Q2Qc (9 # 2))) (Some (Q2Qc (19 # 2))) ].

Definition final_sections : list Section :=
  [ mk_Section "Final Approach" (mk_slice (Some (Q2Qc 7)) (Some (Q2Qc 9)))
               (Some (Q2Qc (13 # 2))) (Some (Q2Qc (19 # 2))) ].

(** A TCAS series of 40 samples that enters the up advisory at sample 5,
    the down advisory at sample 20 and the up advisory again at sample 35,
    with the Airborne phase over samples [0, 30). *)
Definition tcas_series : list (sample string) :=
  map (fun i : nat =>
         valid (if ((5 <=? i) && (i <? 8))%nat then notions.Up
                else if ((20 <=? i) && (i <? 23))%nat then notions.Down
                else if (35 =? i)%nat then notions.Up
                else "No Advisory"))
      (seq 0 40).

Definition tcas : Param := mk_Param "TCAS Combined Control" 1%positive 1%Qc 0%Qc.

Definition tcas_world : world := mk_world {[ 1%positive := OStates tcas_series ]} [].

Definition airborne : list Section :=
  [ mk_Section "Airborne" (mk_slice (Some (Q2Qc 0)) (Some (Q2Qc 30)))
               (Some (Q2Qc 0)) (Some (Q2Qc 30)) ].

(** An airspeed series with one invalid sample, grounded over samples
    [0, 3). *)
Definition airspeed_series : list (sample Qc) :=
  [ valid (Q2Qc 100); valid (Q2Qc 100); valid (Q2Qc 100);
    mk_sample (Q2Qc 5) true; valid (Q2Qc 100); valid (Q2Qc 100) ].

Definition airspeed : Param := mk_Param "Airspeed True" 2%positive 1%Qc 0%Qc.

Definition airspeed_world : world := mk_world {[ 2%positive := OFloats airspeed_series ]} [].

Definition grounded : list Section :=
  [ mk_Section "Grounded" (mk_slice (Some (Q2Qc 0)) (Some (Q2Qc 3)))
               (Some (Q2Qc 0)) (Some (Q2Qc 3)) ].

Definition repaired : list (sample Qc) :=
  match library.repair_mask (notions.zero_out airspeed_series grounded) with
  | Ok r => r
  | Raise _ => []
  end.

Definition distance : list (sample Qc) :=
  match library.integrate repaired (frequency airspeed) (Q2Qc (1 # 3600)) with
  | Ok out => out
  | Raise _ => []
  end.

(** A flight-record store that answers every query with 45 paths. *)
Definition flight_records (query : string) : outcome (list string) :=
  Ok (map (fun i : nat => "/flights/" +:+ String (ascii_of_nat (65 + i)) ".hdf5") (seq 0 45)).


(** A container of three series, one of them discrete. *)
Definition series_container : gmap string notebook_utils.Series :=
  {[ "Gear Down" :=
       notebook_utils.mk_Series notebook_utils.T_MultistateDerivedParameterNode
         (VBool true) 1%Qc (VStr "Discrete") VNone {[ 0 := "Up"; 1 := "Down" ]};
     "Airspeed" :=
       notebook_utils.mk_Series notebook_utils.T_DerivedParameterNode
         (VBool true) 1%Qc (VStr "Unsigned") (VStr "kts") ∅;
     "Gear Lever Position" :=
       notebook_utils.mk_Series notebook_utils.T_Parameter
         (VBool false) (Q2Qc (1 # 4)) (VStr "Signed") (VStr "") ∅ ]}.

End samples.

(** ** Further sample inputs *)

Module more_samples.
Import Py Engine.

(** The approach sections of [samples], listed the other way round. *)
Definition approach_reversed : list Section := rev samples.approach_sections.

(** A store in which the attribute Mydict refers to a dictionary that
    already has two entries, one of them under the key the node writes. *)
Definition mydict : Attribute := mk_Attribute "Mydict" (VRef 3%positive).

Definition mydict_world : world :=
  mk_world {[ 3%positive := ODict {[ "testkey" := VInt 0; "tail" := VStr "N123" ]} ]} [].

(** A TCAS series without a down advisory. *)
Definition quiet_series : list (sample string) :=
  [ valid "No Advisory"; valid notions.Up; mk_sample notions.Down true; valid "No Advisory" ].

Definition quiet_world : world := mk_world {[ 1%positive := OStates quiet_series ]} [].

(** A repair routine that refuses every array. *)
Definition failing_repair (a : list (sample Qc)) : outcome (list (sample Qc)) :=
  Raise (ValueError "Array cannot be repaired as it is entirely masked").

(** A flight-record store that cannot be reached. *)
Definition unreachable_store (query : string) : outcome (list string) :=
  Raise (OtherError "ORA-12541: TNS:no listener").

(** A file system with no directory to list. *)
Definition empty_fs : filesystem :=
  mk_fs (fun _ => None) (fun _ => false) (fun _ => false).

(** A folder of 120 recordings for the operator folder of [test100]. *)
Definition big_fs : filesystem :=
  mk_fs (fun d => if String.eqb d "/data/op/2012-07-13"
                  then Some (map (fun i : nat =>
                                    String (ascii_of_nat (48 + i)) ".hdf5") (seq 0 120))
                  else None)
        (fun _ => false) (fun _ => false).

End more_samples.

(** ** notebook_utils.py, the other helpers *)

From Stdlib Require OrderedTypeEx.
From stdpp Require Import sorting.
Open Scope Z_scope.

Module notebook_helpers.
Import Py Engine notebook_utils.

(** A list comprehension with a condition that can raise. *)
Fixpoint comprehension_if {A} (cond : A → outcome bool) (xs : list A) : outcome (list A) :=
  match xs with
  | [] => Ok []
  | x :: xs' =>
      match cond x with
      | Raise e => Raise e
      | Ok b => ys ← comprehension_if cond xs'; mret (if b then x :: ys else ys)
      end
  end.

(** [a[0]] on a string; the empty string has no first character. *)
Definition getitem0 (a : string) : outcome ascii :=
  match a with
  | EmptyString => Raise (OtherError "IndexError: string index out of range")
  | String c _ => Ok c
  end.

(** What a name of a module is bound to, as far as [isinstance(...,
    types.FunctionType)] can tell. *)
Inductive binding := Function | NotFunction.

(** [dir(mymodule)]: the names of the module's [__dict__], sorted. *)
Definition dir (mymodule : gmap string binding) : list string :=
  merge_sort (fun a b : string => Is_true (String.leb a b)) (map_to_list mymodule).*1.

(** [module_functions(mymodule)]; [and] looks at [a[0]] only for a
    function. *)
Definition module_functions (mymodule : gmap string binding) : outcome (list string) :=
  comprehension_if
    (fun a =>
       match mymodule !! a with
       | Some Function => c ← getitem0 a; mret (negb (Ascii.eqb c "_"))
       | _ => mret false
       end)
    (dir mymodule).

(** [node_type(base_nodes, nm)]; [base_nodes] maps a name to the [repr] of
    the node class stored under it. *)
Definition node_type (base_nodes : gmap string string) (nm : string) : outcome string :=
  match base_nodes !! nm with
  | None => Raise (KeyError nm)
  | Some nodestr =>
      if (0 <? find nodestr "key_point_values")%Z then Ok "KPV"
      else if (0 <? find nodestr "_phase")%Z then Ok "phase"
      else if (0 <? find nodestr "_time_")%Z then Ok "KTI"
      else if (0 <? find nodestr "_param")%Z then Ok "parameter"
      else Ok nodestr
  end.

(** [node_search(node_dict, search_term)] *)
Definition node_search (node_dict : gmap string string) (search_term : string)
  : outcome DataFrame :=
  let matching_names :=
    List.filter (fun k => (0 <=? find (upper k) (upper search_term))%Z)
                (map_to_list node_dict).*1 in
  let df := DataFrame_new "name" (map (fun k => Cell (VStr k)) matching_names) in
  types ← comprehension
    (fun nm => t ← node_type node_dict nm; mret (Cell (VStr t)))
    matching_names;
  df ← DataFrame_setitem df "type" types;
  mret df.

(** A handler of the [logging] module. *)
Inductive handler :=
| FileHandler (filename : string)
| StreamHandler.

(** The root logger, which [logging.getLogger()] hands out at every
    call. *)
Record Logger := mk_Logger {
  level : Z;
  handlers : list handler
}.

Section Logging.

(** The check [setLevel] makes of a level name, and the opening of a log
    file for appending; either returns or raises. *)
Variable _checkLevel : string → outcome Z.
Variable open_append : string → outcome unit.

(** [logger.setLevel(level)] *)
Definition setLevel (lvl : string) : M Logger unit :=
  n ← lift (_checkLevel lvl);
  self ← get_self;
  put_self (mk_Logger n (handlers self)).

(** [logger.addHandler(hdlr)] with a handler just created, which the
    logger cannot hold yet. *)
Definition addHandler (hdlr : handler) : M Logger unit :=
  self ← get_self;
  put_self (mk_Logger (level self) (handlers self ++ [hdlr])).

(** [logging.FileHandler(filename=filename)] opens the file at once. *)
Definition new_FileHandler (filename : string) : M Logger handler :=
  lift (open_append filename) ;; mret (FileHandler filename).

(** [initialize_logger(LOG_LEVEL, filename='log_messages.txt')]; the
    logger it returns is the root logger, the state these calls act on. *)
Definition initialize_logger (LOG_LEVEL : string) (filename : string) : M Logger unit :=
  setLevel LOG_LEVEL ;;
  h ← new_FileHandler filename;
  addHandler h ;;
  addHandler StreamHandler.

End Logging.

(** What [get_profile_nodes] can tell of a value of a namespace: a class,
    with whether it derives from [node.Node] and the module it was defined
    in, or something else. *)
Inductive pyvalue :=
| PClass (qualname : string) (node_subclass : bool) (module_name : string)
| PObject (descr : string).

(** [inspect.isclass(v) and issubclass(v, node.Node) and
    v.__module__ != 'analysis_engine.node'] *)
Definition profile_node (v : pyvalue) : bool :=
  match v with
  | PClass _ sub m => sub && negb (String.eqb m "analysis_engine.node")
  | PObject _ => false
  end.

(** [for k, v in items: d[k] = v] *)
Definition update_all {V} (d : gmap string V) (items : list (string * V)) : gmap string V :=
  fold_left (fun d kv => <[kv.1 := kv.2]> d) items d.

(** [get_profile_nodes(myvars)] *)
Definition get_profile_nodes (myvars : gmap string pyvalue) : gmap string pyvalue :=
  let derived_nodes := ∅ in
  let nodelist := List.filter (fun kv => profile_node kv.2) (map_to_list myvars) in
  update_all derived_nodes nodelist.

(** [_node_typestr(node)], on [str(node.node_type)] *)
Definition _node_typestr (node_type_str : string) : string :=
  replace (replace node_type_str "<class 'analysis_engine.node." "") "'>" "".

(** A flight as the helpers read it. *)
Record Flight := mk_Flight {
  series : gmap string pyvalue;
  start_datetime : val;
  duration : val;
  aircraft_info : val;
  filepath : string
}.

(** [achieved_flight_record={'Myfile': ..., 'Mydict': dict()}] *)
Record flight_record := mk_flight_record {
  Myfile : string;
  Mydict : gmap string val
}.

(** [node.NodeManager(start_datetime, duration, hdf_keys, requested,
    derived_nodes, aircraft_info, achieved_flight_record=...)]: the
    arguments the manager is built from. *)
Record NodeManager := mk_NodeManager {
  nm_start_datetime : val;
  nm_duration : val;
  hdf_keys : list string;
  requested : list string;
  derived_nodes : gmap string pyvalue;
  nm_aircraft_info : val;
  achieved_flight_record : flight_record
}.

Section Managers.

(** [helper.get_derived_nodes(settings.NODE_MODULES)] *)
Variable base_nodes : gmap string pyvalue.

(** [get_profile_nodemanager(flt, myvars)] *)
Definition get_profile_nodemanager (flt : Flight) (myvars : gmap string pyvalue)
  : NodeManager :=
  let requested_nodes := get_profile_nodes myvars in
  let all_nodes := base_nodes in
  let all_nodes := update_all all_nodes (map_to_list requested_nodes) in
  let all_nodes := update_all all_nodes (map_to_list (series flt)) in
  mk_NodeManager (start_datetime flt) (duration flt)
    (map_to_list (series flt)).*1
    (map_to_list requested_nodes).*1
    all_nodes
    (aircraft_info flt)
    (mk_flight_record (filepath flt) ∅).

(** The manager that [derive_one] and [single_graph] build for one class,
    in the same words. *)
Definition single_manager (class_name : string) (parameter_class : pyvalue)
    (flight : Flight) : NodeManager :=
  let single_request : gmap string pyvalue := {[ class_name := parameter_class ]} in
  let all_nodes := base_nodes in
  let all_nodes := update_all all_nodes (map_to_list single_request) in
  let all_nodes := update_all all_nodes (map_to_list (series flight)) in
  mk_NodeManager (start_datetime flight) (duration flight)
    (map_to_list (series flight)).*1
    (map_to_list single_request).*1
    all_nodes
    (aircraft_info flight)
    (mk_flight_record (filepath flight) ∅).

End Managers.

End notebook_helpers.

(** ** Notions and sample inputs for the helpers *)

Module helper_notions.
Import Py Engine notebook_helpers.

(** The names [module_functions] is after: bound to a function and not
    starting with an underscore. *)
Definition public_function (mymodule : gmap string binding) (a : string) : bool :=
  match mymodule !! a with
  | Some Function => negb (startswith a "_")
  | _ => false
  end.

(** The entries of a node dictionary whose name contains [search_term],
    without regard to case, in the order the dictionary lists them. *)
Definition matching_nodes (node_dict : gmap string string) (search_term : string)
  : list (string * string) :=
  List.filter (fun kv => 0 <=? find (upper kv.1) (upper search_term))
              (map_to_list node_dict).

(** [c] does not occur in [s]. *)
Fixpoint lacks (c : ascii) (s : string) : bool :=
  match s with
  | EmptyString => true
  | String d s' => negb (Ascii.eqb c d) && lacks c s'
  end.

End helper_notions.

Module helper_samples.
Import Py Engine notebook_helpers.

(** Node classes as [repr] shows them. *)
Definition node_reprs : gmap string string :=
  {[ "Airspeed Max" := "<class 'analysis_engine.key_point_values.AirspeedMax'>";
     "Airborne" := "<class 'analysis_engine.flight_phase.Airborne'>";
     "Liftoff" := "<class 'analysis_engine.key_time_instances.Liftoff'>";
     "Airspeed True" := "<class 'analysis_engine.derived_parameters.AirspeedTrue'>";
     "FDR Version" := "<class 'analysis_engine.flight_attribute.Version'>" ]}.

(** A Final Approach section that begins before both Approach sections
    of [samples]. *)
Definition early_final : list Section :=
  [ mk_Section "Final Approach" (mk_slice (Some (Q2Qc 2)) (Some (Q2Qc 4)))
               (Some (Q2Qc (3 # 2))) (Some (Q2Qc (9 # 2))) ].

(** A TCAS series that goes from the up advisory straight to the down
    advisory. *)
Definition switching_series : list (sample string) :=
  [ valid "No Advisory"; valid notions.Up; valid notions.Down; valid "No Advisory" ].

Definition switching_world : world :=
  mk_world {[ 1%positive := OStates switching_series ]} [].

(** The level names of the [logging] module. *)
Definition check_level (name : string) : outcome Z :=
  if String.eqb name "CRITICAL" then Ok 50
  else if String.eqb name "ERROR" then Ok 40
  else if String.eqb name "WARN" then Ok 30
  else if String.eqb name "WARNING" then Ok 30
  else if String.eqb name "INFO" then Ok 20
  else if String.eqb name "DEBUG" then Ok 10
  else if String.eqb name "NOTSET" then Ok 0
  else Raise (ValueError ("Unknown level: " +:+ name)).

(** A log file that can always be opened, and one in a folder that does
    not exist. *)
Definition writable (filename : string) : outcome unit := Ok tt.

Definition no_such_folder (filename : string) : outcome unit :=
  Raise (OtherError "IOError: [Errno 2] No such file or directory").

(** A notebook namespace: two profile nodes, a class imported from the
    engine's node module, a class that is no node, and a number. *)
Definition namespace : gmap string pyvalue :=
  {[ "SimpleKPV" := PClass "SimpleKPV" true "__main__";
     "Airspeed" := PClass "ProfileAirspeed" true "__main__";
     "KeyPointValueNode" := PClass "KeyPointValueNode" true "analysis_engine.node";
     "Flight" := PClass "Flight" false "staged_helper";
     "font_size" := PObject "12" ]}.

(** A flight with two recorded series, one of them named as a node of the
    namespace. *)
Definition flight : Flight :=
  mk_Flight {[ "Airspeed" := PObject "Parameter 'Airspeed'";
               "Altitude STD" := PObject "Parameter 'Altitude STD'" ]}
            (VStr "2012-07-13 10:00:00") (VFloat (Q2Qc 5400)) (VRef 9%positive)
            "/data/op/2012-07-13/a.hdf5".

(** The nodes of the engine. *)
Definition engine_nodes : gmap string pyvalue :=
  {[ "Airspeed" := PClass "Airspeed" true "analysis_engine.derived_parameters";
     "SimpleKPV" := PClass "SimpleKPV" true "analysis_engine.key_point_values";
     "Airborne" := PClass "Airborne" true "analysis_engine.flight_phase" ]}.

End helper_samples.
(** * Properties *)

Import Py Engine notions.

(** ** Running a [derive] body *)

Section Runs.

Lemma run_bind {S A B} (m : M S A) (f : A → M S B) (self : S) (w : world) :
  (m ≫= f) self w
  = match m self w with
    | (Ok a, self', w') => f a self' w'
    | (Raise e, self', w') => (Raise e, self', w')
    end.
Proof. reflexivity. Qed.

Lemma world_eta (w : world) : mk_world (heap w) (stdout w) = w.
Proof. by destruct w. Qed.

Lemma ListNode_eta {T} (n : ListNode T) : mk_LN (ln_name n) (items n) = n.
Proof. by destruct n. Qed.

End Runs.

(** ** Python's ordering and [min] *)

Section MinFacts.

Lemma Qcltb_false (x y : Qc) : Qcltb x y = false ↔ (y <= x)%Qc.
Proof.
  unfold Qcltb. rewrite negb_false_iff. unfold Qcle. apply Qle_bool_iff.
Qed.

Lemma Qcltb_true (x y : Qc) : Qcltb x y = true ↔ (x < y)%Qc.
Proof.
  destruct (Qcltb x y) eqn:E.
  - split; [intros _|done]. apply Qcnot_le_lt. intros H.
    apply Qcltb_false in H. congruence.
  - split; [done|]. intros H. apply Qcltb_false in E.
    by apply Qclt_not_le in H.
Qed.

Lemma lt_false_trans (a b c : edge) :
  lt a b = false → lt b c = false → lt a c = false.
Proof.
  destruct a as [x|], b as [y|], c as [z|]; simpl; try done.
  rewrite !Qcltb_false. intros H1 H2. by apply Qcle_trans with y.
Qed.

Lemma lt_irrefl (a : edge) : lt a a = false.
Proof. destruct a as [x|]; simpl; [|done]. apply Qcltb_false, Qcle_refl. Qed.

Lemma lt_asym (a b : edge) : lt a b = true → lt b a = false.
Proof.
  destruct a as [x|], b as [y|]; simpl; try done.
  rewrite Qcltb_true, Qcltb_false. apply Qclt_le_weak.
Qed.

(** The running minimum of [min] is one of the items seen, and none of
    them is below it. *)
Lemma running_min_spec (xs : list edge) (x : edge) :
  let r := fold_left (fun m y => if lt y m then y else m) xs x in
  r ∈ x :: xs ∧ ∀ y, y ∈ x :: xs → lt y r = false.
Proof.
  revert x. induction xs as [|z xs IH]; intros x; simpl.
  - split; [apply list_elem_of_here|]. intros y Hy.
    apply list_elem_of_singleton in Hy as ->. apply lt_irrefl.
  - destruct (IH (if lt z x then z else x)) as [Hin Hle]. split.
    + apply elem_of_cons in Hin as [Hin|Hin].
      * rewrite Hin. destruct (lt z x); rewrite !elem_of_cons; auto.
      * rewrite !elem_of_cons; auto.
    + intros y Hy.
      assert (Hx : lt x (if lt z x then z else x) = false).
      { destruct (lt z x) eqn:E; [by apply lt_asym|apply lt_irrefl]. }
      assert (Hz : lt z (if lt z x then z else x) = false).
      { destruct (lt z x) eqn:E; [apply lt_irrefl|done]. }
      apply elem_of_cons in Hy as [->|Hy].
      * eapply lt_false_trans; [exact Hx|]. apply Hle, list_elem_of_here.
      * apply elem_of_cons in Hy as [->|Hy].
        -- eapply lt_false_trans; [exact Hz|]. apply Hle, list_elem_of_here.
        -- apply Hle. by apply list_elem_of_further.
Qed.

Lemma min_spec (l : list edge) :
  l ≠ [] →
  ∃ m, min l = Ok m ∧ m ∈ l ∧ ∀ y, y ∈ l → lt y m = false.
Proof.
  destruct l as [|x xs]; [done|]. intros _. eexists. split; [done|].
  apply running_min_spec.
Qed.

End MinFacts.

(** ** The phase-combination node *)

Section InitialApproach.

Lemma example_InitialApproach_run (approach final : list Section) (b e : edge)
    (self : FlightPhaseNode) (w : world) :
  min (map start_edge approach) = Ok b →
  min (map start_edge final) = Ok e →
  example_profile.InitialApproach_derive approach final self w
  = (Ok tt,
     mk_LN (ln_name self)
           (items self ++ [mk_Section (ln_name self) (mk_slice b e) b e]),
     w).
Proof.
  intros Hb He. unfold example_profile.InitialApproach_derive.
  destruct approach as [|a approach]; [done|].
  destruct final as [|f final]; [done|].
  cbn [length Nat.ltb Nat.leb andb].
  rewrite run_bind. unfold lift at 1. rewrite Hb.
  rewrite run_bind. unfold lift at 1. rewrite He.
  reflexivity.
Qed.

Lemma parallel_InitialApproach_run (approach final : list Section) (b e : edge)
    (self : FlightPhaseNode) (w : world) :
  min (map start_edge approach) = Ok b →
  min (map start_edge final) = Ok e →
  parallel_profile.InitialApproach_derive approach final self w
  = (Ok tt,
     mk_LN (ln_name self)
           (items self ++ [mk_Section (ln_name self) (mk_slice b e) b e]),
     w).
Proof.
  intros Hb He. unfold parallel_profile.InitialApproach_derive.
  destruct approach as [|a approach]; [done|].
  destruct final as [|f final]; [done|].
  cbn [length Nat.ltb Nat.leb andb].
  rewrite run_bind. unfold lift at 1. rewrite Hb.
  rewrite run_bind. unfold lift at 1. rewrite He.
  reflexivity.
Qed.

Lemma InitialApproach_empty (approach final : list Section)
    (self : FlightPhaseNode) (w : world) :
  approach = [] ∨ final = [] →
  example_profile.InitialApproach_derive approach final self w = (Ok tt, self, w)
  ∧ parallel_profile.InitialApproach_derive approach final self w = (Ok tt, self, w).
Proof.
  unfold example_profile.InitialApproach_derive, parallel_profile.InitialApproach_derive.
  intros [-> | ->]; [done|]. by destruct approach.
Qed.

(** C1.  With both section lists non-empty, [InitialApproach.derive] of
    either profile creates exactly one phase, whose slice runs from the
    least [start_edge] of the Approach sections to the least [start_edge]
    of the Final Approach sections: each bound is a [start_edge] of its
    list that none of the others is below, and the sections' own slices
    play no part.  With either list empty no phase is created. *)
Theorem InitialApproach_phase (approach final : list Section) (name : string) (w : world) :
  (approach ≠ [] → final ≠ [] →
   ∃ b e,
     b ∈ map start_edge approach
     ∧ (∀ s, s ∈ approach → lt (start_edge s) b = false)
     ∧ e ∈ map start_edge final
     ∧ (∀ s, s ∈ final → lt (start_edge s) e = false)
     ∧ min (map start_edge approach) = Ok b
     ∧ min (map start_edge final) = Ok e
     ∧ example_profile.InitialApproach_derive approach final (mk_LN name []) w
       = (Ok tt, mk_LN name [mk_Section name (mk_slice b e) b e], w)
     ∧ parallel_profile.InitialApproach_derive approach final (mk_LN name []) w
       = (Ok tt, mk_LN name [mk_Section name (mk_slice b e) b e], w))
  ∧ (approach = [] ∨ final = [] →
     example_profile.InitialApproach_derive approach final (mk_LN name []) w
     = (Ok tt, mk_LN name [], w)
     ∧ parallel_profile.InitialApproach_derive approach final (mk_LN name []) w
       = (Ok tt, mk_LN name [], w)).
Proof.
  split; [|apply InitialApproach_empty].
  intros Ha Hf.
  destruct (min_spec (map start_edge approach)) as (b & Hb & Hbin & Hble).
  { by destruct approach. }
  destruct (min_spec (map start_edge final)) as (e & He & Hein & Hele).
  { by destruct final. }
  exists b, e. repeat split; try done.
  - intros s Hs. apply Hble. by apply list_elem_of_fmap_2.
  - intros s Hs. apply Hele. by apply list_elem_of_fmap_2.
  - by rewrite (example_InitialApproach_run _ _ b e).
  - by rewrite (parallel_InitialApproach_run _ _ b e).
Qed.

Lemma InitialApproach_phase_witness :
  ∃ b e,
    example_profile.InitialApproach_derive samples.approach_sections samples.final_sections
      (mk_LN "Initial Approach" []) (mk_world ∅ [])
    = (Ok tt,
       mk_LN "Initial Approach"
             [mk_Section "Initial Approach" (mk_slice b e) b e],
       mk_world ∅ [])
    ∧ b = Some (Q2Qc (9 # 2)) ∧ e = Some (Q2Qc (13 # 2)).
Proof.
  destruct (InitialApproach_phase samples.approach_sections samples.final_sections
              "Initial Approach" (mk_world ∅ [])) as [H _].
  destruct H as (b & e & _ & _ & _ & _ & Hb & He & Hex & _); [done|done|].
  exists b, e. split; [exact Hex|].
  assert (Hb' : min (map start_edge samples.approach_sections) = Ok (Some (Q2Qc (9 # 2))))
    by (vm_compute; reflexivity).
  assert (He' : min (map start_edge samples.final_sections) = Ok (Some (Q2Qc (13 # 2))))
    by (vm_compute; reflexivity).
  split; congruence.
Defined.

End InitialApproach.

(** ** The advisory-start node *)

Section Arrays.

Lemma setitem_indices_lookup {A} (a : list (sample A)) (ix : list nat) (x : A) (j : nat) :
  setitem_indices a ix x !! j
  = (fun y => if bool_decide (j ∈ ix) then valid x else y) <$> a !! j.
Proof.
  unfold setitem_indices. revert a. induction ix as [|i ix IH]; intros a; simpl.
  - by destruct (a !! j).
  - rewrite IH. destruct (decide (i = j)) as [->|Hne].
    + destruct (a !! j) as [y|] eqn:E; simpl.
      * rewrite list_lookup_insert_eq by (by eapply lookup_lt_Some). simpl.
        rewrite (bool_decide_eq_true_2 (j ∈ j :: ix)) by apply list_elem_of_here.
        by destruct (bool_decide (j ∈ ix)).
      * rewrite list_insert_ge by (by apply lookup_ge_None). by rewrite E.
    + rewrite list_lookup_insert_ne by done. destruct (a !! j); simpl; [|done].
      replace (bool_decide (j ∈ i :: ix)) with (bool_decide (j ∈ ix)); [done|].
      apply bool_decide_ext. rewrite elem_of_cons. intuition congruence.
Qed.

Lemma ma_where_elem (c : list (sample bool)) (j : nat) :
  j ∈ ma_where c ↔ ∃ x, c !! j = Some x ∧ smask x = false ∧ sdata x = true.
Proof.
  unfold ma_where. rewrite list_elem_of_In, filter_In, <- list_elem_of_In, elem_of_seq.
  split.
  - intros [_ H]. destruct (c !! j) as [x|]; [|done].
    apply andb_true_iff in H as [H1 H2]. apply negb_true_iff in H1. eauto.
  - intros (x & Hx & Hm & Hd). rewrite Hx, Hm, Hd. split; [|done].
    apply lookup_lt_Some in Hx. lia.
Qed.

(** Writing the up label at the valid down samples relabels the series. *)
Lemma merge_array (a : list (sample string)) :
  setitem_indices a (ma_where (ma_eq a Down)) Up = map merge a.
Proof.
  apply list_eq. intros j. rewrite setitem_indices_lookup, list_lookup_fmap.
  destruct (a !! j) as [y|] eqn:E; simpl; [|done]. f_equal. unfold merge, is_state.
  destruct (negb (smask y) && String.eqb (sdata y) Down) eqn:T.
  - rewrite bool_decide_eq_true_2; [done|]. apply ma_where_elem.
    unfold ma_eq. rewrite list_lookup_fmap, E. simpl.
    apply andb_true_iff in T as [T1 T2]. apply negb_true_iff in T1. eauto.
  - rewrite bool_decide_eq_false_2; [done|]. rewrite ma_where_elem.
    unfold ma_eq. rewrite list_lookup_fmap, E. simpl. intros (x & [= <-] & Hm & Hd).
    simpl in *. rewrite Hm, Hd in T. done.
Qed.

Lemma in_state_holds (a : list (sample string)) (state : string) (i : nat) :
  in_state a state i = holds (is_state state) a i.
Proof. reflexivity. Qed.

Lemma holds_merge (a : list (sample string)) (i : nat) :
  holds (is_state Up) (map merge a) i = holds advisory a i.
Proof.
  unfold holds. rewrite list_lookup_fmap. destruct (a !! i) as [x|]; simpl; [|done].
  unfold merge, advisory. destruct (is_state Down x) eqn:E.
  - by rewrite orb_true_r.
  - by rewrite orb_false_r.
Qed.

End Arrays.

Section StateChanges.

Lemma state_changes_elem (state : string) (a : list (sample string)) (s : slice) (i : nat) :
  i ∈ state_changes state a s ↔ entry_within (is_state state) a s i = true.
Proof.
  unfold state_changes, entry_within.
  destruct (indices s (length a)) as [lo hi]. simpl.
  rewrite list_elem_of_In, filter_In, <- list_elem_of_In, elem_of_seq.
  rewrite !in_state_holds, !andb_true_iff, Nat.ltb_lt, Nat.ltb_lt.
  intuition lia.
Qed.

Lemma NoDup_filter_seq (f : nat → bool) (m n : nat) : NoDup (List.filter f (seq m n)).
Proof.
  apply NoDup_ListNoDup, List.NoDup_filter, NoDup_ListNoDup, NoDup_seq.
Qed.

Lemma state_changes_count (state : string) (a : list (sample string)) (s : slice) (i : nat) :
  count_occ Nat.eq_dec (state_changes state a s) i
  = if entry_within (is_state state) a s i then 1%nat else 0%nat.
Proof.
  destruct (entry_within (is_state state) a s i) eqn:E.
  - apply state_changes_elem in E. apply NoDup_count_occ'.
    + unfold state_changes. destruct (indices s (length a)).
      apply NoDup_ListNoDup, NoDup_filter_seq.
    + by apply list_elem_of_In.
  - apply count_occ_not_In. rewrite <- list_elem_of_In, state_changes_elem. congruence.
Qed.

Lemma flat_map_count {A} (f : A → list nat) (g : A → bool) (l : list A) (i : nat) :
  (∀ x, count_occ Nat.eq_dec (f x) i = if g x then 1%nat else 0%nat) →
  count_occ Nat.eq_dec (flat_map f l) i = length (List.filter g l).
Proof.
  intros H. induction l as [|x l IH]; simpl; [done|].
  rewrite count_occ_app, H, IH. by destruct (g x).
Qed.

Lemma state_changes_entries (state : string) (a : list (sample string))
    (air : list Section) (i : nat) :
  count_occ Nat.eq_dec (flat_map (fun p => state_changes state a (slice_ p)) air) i
  = entries (is_state state) a air i.
Proof.
  unfold entries. apply flat_map_count. intros p. apply state_changes_count.
Qed.

Lemma entry_within_ext (p q : sample string → bool) (a b : list (sample string))
    (s : slice) (i : nat) :
  length a = length b → (∀ j, holds p a j = holds q b j) →
  entry_within p a s i = entry_within q b s i.
Proof. intros Hl H. unfold entry_within. by rewrite Hl, !H. Qed.

Lemma entries_merge (a : list (sample string)) (air : list Section) (i : nat) :
  entries (is_state Up) (map merge a) air i = entries advisory a air i.
Proof.
  unfold entries. f_equal. apply filter_ext. intros p.
  apply entry_within_ext; [apply length_map|apply holds_merge].
Qed.

(** With a single restricting interval an entry inside it counts once. *)
Lemma entries_single (p : sample string → bool) (a : list (sample string))
    (sec : Section) (i : nat) :
  entries p a [sec] i = if entry_within p a (slice_ sec) i then 1%nat else 0%nat.
Proof. unfold entries. simpl. by destruct (entry_within p a (slice_ sec) i). Qed.

(** An entry that lies inside none of the restricting intervals does not
    count. *)
Lemma entries_outside (p : sample string → bool) (a : list (sample string))
    (air : list Section) (i : nat) :
  (∀ sec, sec ∈ air → entry_within p a (slice_ sec) i = false) →
  entries p a air i = 0%nat.
Proof.
  intros H. unfold entries. induction air as [|sec air IH]; simpl; [done|].
  rewrite H by apply list_elem_of_here. apply IH. intros s Hs. apply H.
  by apply list_elem_of_further.
Qed.

End StateChanges.

Section TCASRAStart.

Lemma for_create_kti (f : nat → Qc) (l : list nat) (self : KeyTimeInstanceNode) (w : world) :
  for_ l (fun i => create_kti (f i)) self w
  = (Ok tt,
     mk_LN (ln_name self) (items self ++ map (fun i => mk_KTI (f i) (ln_name self)) l),
     w).
Proof.
  revert self. induction l as [|i l IH]; intros self; simpl.
  - by rewrite app_nil_r, ListNode_eta.
  - rewrite run_bind. simpl. rewrite IH. simpl. by rewrite <- app_assoc.
Qed.

Lemma create_ktis_run (state : string) (a : list (sample string)) (c : change)
    (phase : list Section) (self : KeyTimeInstanceNode) (w : world) :
  create_ktis_on_state_change state a c phase self w
  = (Ok tt,
     mk_LN (ln_name self)
       (items self ++
        map (fun i => mk_KTI (index_of_sample i) (ln_name self))
            (flat_map (fun p => state_changes state a (slice_ p)) phase)),
     w).
Proof.
  unfold create_ktis_on_state_change. revert self.
  induction phase as [|p phase IH]; intros self; simpl.
  - by rewrite app_nil_r, ListNode_eta.
  - rewrite run_bind, for_create_kti, IH. simpl.
    by rewrite map_app, app_assoc.
Qed.

Lemma load_states_run {S} (l : loc) (a : list (sample string)) (self : S) (w : world) :
  heap w !! l = Some (OStates a) → load_states l self w = (Ok a, self, w).
Proof. intros H. unfold load_states. rewrite run_bind. simpl. by rewrite H. Qed.

Lemma setitem_states_run {S} (l : loc) (a : list (sample string)) (ix : list nat)
    (state : string) (self : S) (w : world) :
  heap w !! l = Some (OStates a) →
  setitem_states l ix state self w
  = (Ok tt, self,
     mk_world (<[l := OStates (setitem_indices a ix state)]> (heap w)) (stdout w)).
Proof.
  intros H. unfold setitem_states. rewrite run_bind, (load_states_run l a) by done.
  reflexivity.
Qed.

Lemma example_TCASRAStart_run (tcas : Param) (air : list Section)
    (self : KeyTimeInstanceNode) (w : world) (a : list (sample string)) :
  heap w !! array tcas = Some (OStates a) →
  example_profile.TCASRAStart_derive tcas air self w
  = (Ok tt,
     mk_LN (ln_name self)
       (items self ++
        map (fun i => mk_KTI (index_of_sample i) (ln_name self))
            (flat_map (fun p => state_changes Up (map merge a) (slice_ p)) air)),
     mk_world (<[array tcas := OStates (map merge a)]> (heap w)) (stdout w)).
Proof.
  intros Hl. unfold example_profile.TCASRAStart_derive.
  rewrite run_bind, (load_states_run _ a) by done.
  rewrite run_bind, (setitem_states_run _ a) by done.
  fold Down Up. rewrite merge_array.
  rewrite run_bind, (load_states_run _ (map merge a)) by (simpl; apply lookup_insert_eq).
  apply create_ktis_run.
Qed.

Lemma parallel_TCASRAStart_run (tcas : Param) (air : list Section)
    (self : KeyTimeInstanceNode) (w : world) (a : list (sample string)) :
  heap w !! array tcas = Some (OStates a) →
  parallel_profile.TCASRAStart_derive tcas air self w
  = (Ok tt,
     mk_LN (ln_name self)
       (items self ++
        map (fun i => mk_KTI (index_of_sample i) (ln_name self))
            (flat_map (fun p => state_changes Up a (slice_ p)) air ++
             flat_map (fun p => state_changes Down a (slice_ p)) air)),
     w).
Proof.
  intros Hl. unfold parallel_profile.TCASRAStart_derive.
  rewrite run_bind, (load_states_run _ a) by done.
  rewrite run_bind, create_ktis_run.
  rewrite run_bind, (load_states_run _ a) by done.
  rewrite create_ktis_run. simpl. fold Up Down. by rewrite map_app, app_assoc.
Qed.



(** On the sample series the instants are those of samples 5 and 20; the
    entry at sample 35, outside the Airborne interval, gives none. *)
Example TCASRAStart_sample_instants :
  (example_profile.TCASRAStart_derive samples.tcas samples.airborne
     (mk_LN "TCAS RA Start" []) samples.tcas_world).1.2
  = mk_LN "TCAS RA Start"
          [mk_KTI (index_of_sample 5) "TCAS RA Start";
           mk_KTI (index_of_sample 20) "TCAS RA Start"].
Proof. vm_compute. reflexivity. Qed.

(** C10.  When some valid sample of the series is a down advisory,
    [TCASRAStart.derive] of example_profile returns having overwritten the
    array that the dependency refers to: every valid down sample now reads
    as an up advisory, the other samples are as before, and the array is
    no longer the one supplied. *)
Theorem example_TCASRAStart_rewrites_upstream (tcas : Param) (air : list Section)
    (self : KeyTimeInstanceNode) (w : world) (a : list (sample string)) (i : nat) :
  heap w !! array tcas = Some (OStates a) →
  a !! i = Some (valid Down) →
  ∃ self' w' a',
    example_profile.TCASRAStart_derive tcas air self w = (Ok tt, self', w')
    ∧ heap w' !! array tcas = Some (OStates a')
    ∧ a' ≠ a
    ∧ length a' = length a
    ∧ (∀ j x, a !! j = Some x → is_state Down x = true → a' !! j = Some (valid Up))
    ∧ (∀ j x, a !! j = Some x → is_state Down x = false → a' !! j = Some x).
Proof.
  intros Hl Hi. eexists _, _, (map merge a). split.
  { by rewrite (example_TCASRAStart_run _ _ _ _ a). }
  split; [simpl; apply lookup_insert_eq|]. split.
  { intros E. assert (H : map merge a !! i = Some (valid Up)).
    { by rewrite list_lookup_fmap, Hi. }
    rewrite E, Hi in H. discriminate. }
  split; [apply length_map|]. split.
  - intros j x Hj Hx. rewrite list_lookup_fmap, Hj. simpl. unfold merge. by rewrite Hx.
  - intros j x Hj Hx. rewrite list_lookup_fmap, Hj. simpl. unfold merge. by rewrite Hx.
Qed.

Lemma example_TCASRAStart_rewrites_upstream_witness :
  ∃ self' w' a',
    example_profile.TCASRAStart_derive samples.tcas samples.airborne
      (mk_LN "TCAS RA Start" []) samples.tcas_world = (Ok tt, self', w')
    ∧ heap w' !! array samples.tcas = Some (OStates a')
    ∧ a' ≠ samples.tcas_series
    ∧ length a' = length samples.tcas_series
    ∧ (∀ j x, samples.tcas_series !! j = Some x → is_state Down x = true →
              a' !! j = Some (valid Up))
    ∧ (∀ j x, samples.tcas_series !! j = Some x → is_state Down x = false →
              a' !! j = Some x).
Proof.
  apply (example_TCASRAStart_rewrites_upstream samples.tcas samples.airborne
           (mk_LN "TCAS RA Start" []) samples.tcas_world samples.tcas_series 20%nat).
  - reflexivity.
  - reflexivity.
Defined.

End TCASRAStart.

(** ** The distance-integration node *)

Section ZeroOut.

Lemma setitem_slice_length {A} (a : list A) (s : slice) (x : A) :
  length (setitem_slice a s x) = length a.
Proof. apply length_imap. Qed.

Lemma setitem_slice_lookup {A} (a : list A) (s : slice) (x : A) (i : nat) :
  setitem_slice a s x !! i
  = (fun y => if in_slice s (length a) i then x else y) <$> a !! i.
Proof. unfold setitem_slice. apply list_lookup_imap. Qed.

Lemma zero_out_length (a : list (sample Qc)) (grounded : list Section) :
  length (zero_out a grounded) = length a.
Proof.
  unfold zero_out. revert a. induction grounded as [|sec g IH]; intros a; simpl; [done|].
  by rewrite IH, setitem_slice_length.
Qed.

(** A sample is zeroed when some grounded section selects it, and is
    otherwise left as it was. *)
Lemma zero_out_lookup (a : list (sample Qc)) (grounded : list Section) (i : nat) :
  zero_out a grounded !! i
  = (fun y => if existsb (fun sec => in_slice (slice_ sec) (length a) i) grounded
              then valid 0%Qc else y) <$> a !! i.
Proof.
  unfold zero_out. revert a. induction grounded as [|sec g IH]; intros a; simpl.
  - by destruct (a !! i).
  - rewrite IH, setitem_slice_lookup, setitem_slice_length.
    destruct (a !! i) as [y|]; simpl; [|done].
    destruct (in_slice (slice_ sec) (length a) i); simpl; [|done].
    by destruct (existsb _ g).
Qed.

Lemma zero_out_selected (a : list (sample Qc)) (grounded : list Section)
    (sec : Section) (i : nat) :
  sec ∈ grounded → in_slice (slice_ sec) (length a) i = true →
  zero_out a grounded !! i = Some (valid 0%Qc).
Proof.
  intros Hsec Hin. rewrite zero_out_lookup.
  assert (Hlt : (i < length a)%nat).
  { unfold in_slice, indices in Hin. apply andb_true_iff in Hin as [_ Hin].
    apply Nat.ltb_lt in Hin. simpl in Hin.
    unfold clip_bound in Hin. destruct (stop (slice_ sec)); [|lia].
    repeat case_match; lia. }
  destruct (lookup_lt_is_Some_2 a i Hlt) as [y ->]. simpl.
  replace (existsb _ grounded) with true; [done|]. symmetry.
  apply existsb_exists. exists sec. split; [by apply list_elem_of_In|done].
Qed.

(** Zeroing a second time changes nothing. *)
Lemma zero_out_idem (a : list (sample Qc)) (grounded : list Section) :
  zero_out (zero_out a grounded) grounded = zero_out a grounded.
Proof.
  apply list_eq. intros i. rewrite (zero_out_lookup (zero_out a grounded)).
  rewrite zero_out_length, zero_out_lookup.
  destruct (a !! i) as [y|]; simpl; [|done]. by destruct (existsb _ grounded).
Qed.

End ZeroOut.

Section DistanceRuns.

Lemma load_floats_run {S} (l : loc) (a : list (sample Qc)) (self : S) (w : world) :
  heap w !! l = Some (OFloats a) → load_floats l self w = (Ok a, self, w).
Proof. intros H. unfold load_floats. rewrite run_bind. simpl. by rewrite H. Qed.

Lemma setitem_floats_run {S} (l : loc) (a : list (sample Qc)) (sl : slice) (x : Qc)
    (self : S) (w : world) :
  heap w !! l = Some (OFloats a) →
  setitem_floats l sl x self w
  = (Ok tt, self,
     mk_world (<[l := OFloats (setitem_slice a sl (valid x))]> (heap w)) (stdout w)).
Proof.
  intros H. unfold setitem_floats. rewrite run_bind, (load_floats_run l a) by done.
  reflexivity.
Qed.

(** The loop over the grounded sections leaves the zeroed samples in the
    array object that the dependency refers to. *)
Lemma zero_loop_run {S} (l : loc) (a : list (sample Qc)) (grounded : list Section)
    (self : S) (w : world) :
  heap w !! l = Some (OFloats a) →
  for_ grounded (fun section => setitem_floats l (slice_ section) 0%Qc) self w
  = (Ok tt, self,
     mk_world (<[l := OFloats (zero_out a grounded)]> (heap w)) (stdout w)).
Proof.
  revert a w. induction grounded as [|sec g IH]; intros a w Hl; simpl.
  - rewrite insert_id by done. by rewrite world_eta.
  - rewrite run_bind, (setitem_floats_run l a) by done.
    rewrite (IH (setitem_slice a (slice_ sec) (valid 0%Qc)))
      by (simpl; apply lookup_insert_eq).
    simpl. by rewrite insert_insert_eq.
Qed.

End DistanceRuns.

Section Distance.

Variable repair_mask : list (sample Qc) → outcome (list (sample Qc)).
Variable integrate : list (sample Qc) → Qc → Qc → outcome (list (sample Qc)).

(** The value and the world that [DistanceTravelledInAir.derive] leaves:
    the zeroed array is in the store whether or not the library calls
    return. *)
Lemma DistanceTravelledInAir_run (airspeed : Param) (grounded : list Section)
    (self : DerivedParameterNode) (w : world) (a : list (sample Qc)) :
  heap w !! array airspeed = Some (OFloats a) →
  let w' := mk_world (<[array airspeed := OFloats (zero_out a grounded)]> (heap w))
                     (stdout w) in
  example_profile.DistanceTravelledInAir_derive repair_mask integrate
    airspeed grounded self w
  = match repair_mask (zero_out a grounded) with
    | Raise e => (Raise e, self, w')
    | Ok r =>
        match integrate r (frequency airspeed) (Q2Qc (1 # 3600)) with
        | Raise e => (Raise e, self, w')
        | Ok out => (Ok tt, mk_DPN (dpn_name self) (Some out), w')
        end
    end.
Proof.
  intros Hl w'. unfold example_profile.DistanceTravelledInAir_derive.
  rewrite run_bind, (zero_loop_run _ a) by done. fold w'.
  rewrite run_bind, (load_floats_run _ (zero_out a grounded))
    by (simpl; apply lookup_insert_eq).
  rewrite run_bind. unfold lift at 1.
  destruct (repair_mask (zero_out a grounded)) as [r|e]; [|done].
  rewrite run_bind. unfold lift at 1.
  by destruct (integrate r (frequency airspeed) (Q2Qc (1 # 3600))).
Qed.

(** What the node relies on from the library: repair leaves valid samples
    as they are, and integration adds nothing across a step between two
    valid zero samples. *)
Hypothesis repair_keeps_valid : ∀ a r i x,
  repair_mask a = Ok r → a !! i = Some x → smask x = false → r !! i = Some x.
Hypothesis integrate_length : ∀ a f s out,
  integrate a f s = Ok out → length out = length a.
Hypothesis integrate_zero_step : ∀ a f s out i,
  integrate a f s = Ok out →
  a !! i = Some (valid 0%Qc) → a !! S i = Some (valid 0%Qc) →
  sdata <$> out !! S i = sdata <$> out !! i.



End Distance.

(** ** The modelled library routines meet what the node relies on *)

Section Library.









End Library.

Section DistanceSamples.


(** The distance accumulated on the sample series: nothing over the
    grounded samples 0 to 2, and growth afterwards across the repaired
    sample. *)
Example distance_sample_values :
  map (fun x => this (sdata x)) samples.distance
  = [0; 0; 0; 1 # 144; 1 # 36; 1 # 18]%Q.
Proof. vm_compute. reflexivity. Qed.

(** C4, on the sample series.  After [DistanceTravelledInAir.derive], with
    any repair and integration routines, the array that the airspeed
    dependency refers to holds zeros over the grounded samples: it is the
    supplied array that was written, not a copy. *)
Theorem DistanceTravelledInAir_overwrites_upstream
    (repair_mask : list (sample Qc) → outcome (list (sample Qc)))
    (integrate : list (sample Qc) → Qc → Qc → outcome (list (sample Qc)))
    (self : DerivedParameterNode) :
  let w' := (example_profile.DistanceTravelledInAir_derive repair_mask integrate
               samples.airspeed samples.grounded self samples.airspeed_world).2 in
  heap samples.airspeed_world !! array samples.airspeed
  = Some (OFloats samples.airspeed_series)
  ∧ heap w' !! array samples.airspeed
    = Some (OFloats (zero_out samples.airspeed_series samples.grounded))
  ∧ samples.airspeed_series !! 0%nat = Some (valid (Q2Qc 100))
  ∧ zero_out samples.airspeed_series samples.grounded !! 0%nat = Some (valid 0%Qc).
Proof.
  intros w'. split; [reflexivity|]. split; [|split; [reflexivity|vm_compute; reflexivity]].
  unfold w'.
  rewrite (DistanceTravelledInAir_run repair_mask integrate _ _ _ _ samples.airspeed_series)
    by reflexivity.
  destruct (repair_mask _) as [r|e]; [|simpl; apply lookup_insert_eq].
  destruct (integrate _ _ _); simpl; apply lookup_insert_eq.
Qed.

End DistanceSamples.

(** ** Running a node a second time *)

Section Twice.

Variable repair_mask : list (sample Qc) → outcome (list (sample Qc)).
Variable integrate : list (sample Qc) → Qc → Qc → outcome (list (sample Qc)).

Lemma merge_idem (a : list (sample string)) : map merge (map merge a) = map merge a.
Proof.
  rewrite map_map. apply map_ext. intros x. unfold merge.
  destruct (is_state Down x) eqn:E; [done|]. by rewrite E.
Qed.

Lemma load_states_fail {S} (l : loc) (self : S) (w : world) :
  (∀ a, heap w !! l ≠ Some (OStates a)) →
  load_states l self w = (Raise (TypeError "not a multistate array"), self, w).
Proof.
  intros H. unfold load_states. rewrite run_bind. simpl.
  destruct (heap w !! l) as [[]|] eqn:E; try done. by destruct (H a).
Qed.

Lemma load_floats_fail {S} (l : loc) (self : S) (w : world) :
  (∀ a, heap w !! l ≠ Some (OFloats a)) →
  load_floats l self w = (Raise (TypeError "not a float array"), self, w).
Proof.
  intros H. unfold load_floats. rewrite run_bind. simpl.
  destruct (heap w !! l) as [[]|] eqn:E; try done. by destruct (H a).
Qed.

Lemma DistanceTravelledInAir_fail (airspeed : Param) (grounded : list Section)
    (self : DerivedParameterNode) (w : world) :
  (∀ a, heap w !! array airspeed ≠ Some (OFloats a)) →
  example_profile.DistanceTravelledInAir_derive repair_mask integrate
    airspeed grounded self w
  = (Raise (TypeError "not a float array"), self, w).
Proof.
  intros H. unfold example_profile.DistanceTravelledInAir_derive.
  rewrite run_bind. destruct grounded as [|sec g]; simpl.
  - rewrite run_bind. by rewrite load_floats_fail.
  - rewrite run_bind. unfold setitem_floats. rewrite run_bind.
    by rewrite load_floats_fail.
Qed.

Lemma example_TCASRAStart_fail (tcas : Param) (air : list Section)
    (self : KeyTimeInstanceNode) (w : world) :
  (∀ a, heap w !! array tcas ≠ Some (OStates a)) →
  example_profile.TCASRAStart_derive tcas air self w
  = (Raise (TypeError "not a multistate array"), self, w).
Proof.
  intros H. unfold example_profile.TCASRAStart_derive.
  rewrite run_bind. by rewrite load_states_fail.
Qed.

Lemma parallel_TCASRAStart_fail (tcas : Param) (air : list Section)
    (self : KeyTimeInstanceNode) (w : world) :
  (∀ a, heap w !! array tcas ≠ Some (OStates a)) →
  parallel_profile.TCASRAStart_derive tcas air self w
  = (Raise (TypeError "not a multistate array"), self, w).
Proof.
  intros H. unfold parallel_profile.TCASRAStart_derive.
  rewrite run_bind. by rewrite load_states_fail.
Qed.

(** The store after [d[key] = x], or the exception. *)
Lemma setitem_dict_run {S} (d : val) (key : string) (x : val) (self : S) (w : world) :
  setitem_dict d key x self w
  = match d with
    | VRef l =>
        match heap w !! l with
        | Some (ODict m) =>
            (Ok tt, self, mk_world (<[l := ODict (<[key := x]> m)]> (heap w)) (stdout w))
        | _ => (Raise (TypeError "object does not support item assignment"), self, w)
        end
    | _ => (Raise (TypeError "object does not support item assignment"), self, w)
    end.
Proof.
  unfold setitem_dict. destruct d; try done.
  rewrite run_bind. simpl. by destruct (heap w !! l) as [[]|].
Qed.

Lemma example_MydictAttribute_run (mydict : Attribute) (self : FlightAttributeNode)
    (w : world) :
  example_profile.MydictAttribute_derive mydict self w
  = match value mydict with
    | VRef l =>
        match heap w !! l with
        | Some (ODict m) =>
            (Ok tt, mk_FAN (fan_name self) (VRef l),
             mk_world (<[l := ODict (<["testkey" := VList [1; 2; 3]]> m)]> (heap w))
                      (stdout w))
        | _ => (Raise (TypeError "object does not support item assignment"), self, w)
        end
    | _ => (Raise (TypeError "object does not support item assignment"), self, w)
    end.
Proof.
  unfold example_profile.MydictAttribute_derive. rewrite run_bind, setitem_dict_run.
  destruct (value mydict); try done. by destruct (heap w !! l) as [[]|].
Qed.

Lemma parallel_MydictAttribute_run (mydict : Attribute) (self : FlightAttributeNode)
    (w : world) :
  parallel_profile.MydictAttribute_derive mydict self w
  = match value mydict with
    | VRef l =>
        match heap w !! l with
        | Some (ODict m) =>
            (Ok tt, mk_FAN (fan_name self) (VAttribute (attr_name mydict) (VRef l)),
             mk_world (<[l := ODict (<["testkey" := VList [1; 2; 3]]> m)]> (heap w))
                      (stdout w))
        | _ => (Raise (TypeError "object does not support item assignment"), self, w)
        end
    | _ => (Raise (TypeError "object does not support item assignment"), self, w)
    end.
Proof.
  unfold parallel_profile.MydictAttribute_derive. rewrite run_bind, setitem_dict_run.
  destruct (value mydict) eqn:E; try done. destruct (heap w !! l) as [[]|]; try done.
Qed.

(** C5.  Every node of the two profiles, run on a fresh instance and then
    again, on a fresh instance, with the same resolved dependencies in the
    world the first run left: the second run ends as the first did
    (returning, or raising the same exception), with the same output
    records, and leaves the objects of the store as the first run left
    them. *)
Theorem derive_twice (n : run.node) (name : string) (deps : run.resolved) (w : world) :
  let '(o1, r1, w1) := run.derive repair_mask integrate n name deps w in
  let '(o2, r2, w2) := run.derive repair_mask integrate n name deps w1 in
  o2 = o1 ∧ r2 = r1 ∧ heap w2 = heap w1.
Proof.
  destruct n as [[]|[]]; unfold run.derive, run.invoke; try done.
  - (* example MydictAttribute *)
    rewrite example_MydictAttribute_run.
    destruct (value (run.Mydict deps)) as [| | | | | |l|] eqn:V;
      cbv beta iota zeta; rewrite ?example_MydictAttribute_run, ?V; try done.
    destruct (heap w !! l) as [[m| |]|] eqn:E;
      cbv beta iota zeta; rewrite ?example_MydictAttribute_run, ?V;
      cbn [heap stdout fan_name]; rewrite ?E; try done.
    rewrite lookup_insert_eq. cbn [heap]. by rewrite !insert_insert_eq.
  - (* example TCASRAStart *)
    destruct (heap w !! array (run.TCAS_Combined_Control deps)) as [[|a|]|] eqn:E.
    2:{ rewrite (example_TCASRAStart_run _ _ _ _ a) by done. cbv beta iota zeta.
        rewrite (example_TCASRAStart_run _ _ _ _ (map merge a))
          by (cbn [heap]; apply lookup_insert_eq).
        cbn [heap stdout ln_name items]. by rewrite merge_idem, insert_insert_eq. }
    all: rewrite example_TCASRAStart_fail by (intros a; congruence).
    all: cbv beta iota zeta.
    all: by rewrite example_TCASRAStart_fail by (intros a; congruence).
  - (* example InitialApproach *)
    destruct (run.Approach deps) as [|x xs], (run.Final_Approach deps) as [|y ys]; done.
  - (* example DistanceTravelledInAir *)
    destruct (heap w !! array (run.Airspeed_True deps)) as [[| |a]|] eqn:E.
    3:{ rewrite (DistanceTravelledInAir_run repair_mask integrate _ _ _ _ a) by done.
        destruct (repair_mask (zero_out a (run.Grounded deps))) as [r|e] eqn:Hr;
          [destruct (integrate r (frequency (run.Airspeed_True deps)) (Q2Qc (1 # 3600)))
             as [out|e] eqn:Ho|].
        all: cbv beta iota zeta.
        all: rewrite (DistanceTravelledInAir_run repair_mask integrate _ _ _ _
                     (zero_out a (run.Grounded deps)))
            by (cbn [heap]; apply lookup_insert_eq).
        all: rewrite zero_out_idem, Hr, ?Ho.
        all: cbn [heap stdout dpn_name]; by rewrite insert_insert_eq. }
    all: rewrite DistanceTravelledInAir_fail by (intros a; congruence).
    all: cbv beta iota zeta.
    all: by rewrite DistanceTravelledInAir_fail by (intros a; congruence).
  - (* parallel MydictAttribute *)
    rewrite parallel_MydictAttribute_run.
    destruct (value (run.Mydict deps)) as [| | | | | |l|] eqn:V;
      cbv beta iota zeta; rewrite ?parallel_MydictAttribute_run, ?V; try done.
    destruct (heap w !! l) as [[m| |]|] eqn:E;
      cbv beta iota zeta; rewrite ?parallel_MydictAttribute_run, ?V;
      cbn [heap stdout fan_name]; rewrite ?E; try done.
    rewrite lookup_insert_eq. cbn [heap]. by rewrite !insert_insert_eq.
  - (* parallel TCASRAStart *)
    destruct (heap w !! array (run.TCAS_Combined_Control deps)) as [[|a|]|] eqn:E.
    2:{ rewrite (parallel_TCASRAStart_run _ _ _ _ a) by done. cbv beta iota zeta.
        by rewrite (parallel_TCASRAStart_run _ _ _ _ a) by done. }
    all: rewrite parallel_TCASRAStart_fail by (intros a; congruence).
    all: cbv beta iota zeta.
    all: by rewrite parallel_TCASRAStart_fail by (intros a; congruence).
  - (* parallel InitialApproach *)
    destruct (run.Approach deps) as [|x xs], (run.Final_Approach deps) as [|y ys]; done.
Qed.

End Twice.

(** ** The query-strategy selectors *)

Section QuerySelectors.

Variable flight_record_filepaths : string → outcome (list string).

Lemma take_capped {S} (K : nat) (repo : string) (retrieved : list string)
    (self : S) (w : world) :
  capped K (Ok (repo, take K retrieved), self, w) repo retrieved self w.
Proof.
  exists (take K retrieved). split; [done|]. split; [done|]. intros HK. split.
  - rewrite length_take. lia.
  - intros i Hi. by apply lookup_take_lt.
Qed.

(** C6.  The query selectors that cap their result pass the query text to
    the flight-record store as it is, and cut the list that comes back:
    when the store returns [retrieved], the selector returns the first 40
    entries of it, which are exactly 40 entries in their original order
    when more than 40 came back.  None of the three query texts limits
    the rows itself. *)
Theorem query_selectors_cap_after_retrieval (w : world) :
  (∀ retrieved,
     flight_record_filepaths example_profile.test_sql_jfk_query = Ok retrieved →
     capped 40 (example_profile.test_sql_jfk flight_record_filepaths tt w)
            "central" retrieved tt w)
  ∧ (∀ retrieved,
       flight_record_filepaths
         (replace example_profile.test_kpv_range_query "REPO" "linux") = Ok retrieved →
       capped 40 (example_profile.test_kpv_range flight_record_filepaths tt w)
              "linux" retrieved tt w)
  ∧ (∀ retrieved,
       flight_record_filepaths parallel_profile.test_sql_jfk_query = Ok retrieved →
       capped 40 (parallel_profile.test_sql_jfk flight_record_filepaths tt w)
              "central" retrieved tt w)
  ∧ caps_rows example_profile.test_sql_jfk_query = false
  ∧ caps_rows (replace example_profile.test_kpv_range_query "REPO" "linux") = false
  ∧ caps_rows parallel_profile.test_sql_jfk_query = false.
Proof.
  repeat split; try (vm_compute; reflexivity).
  - intros retrieved H. unfold example_profile.test_sql_jfk.
    rewrite run_bind. unfold lift at 1. rewrite H. apply take_capped.
  - intros retrieved H. unfold example_profile.test_kpv_range.
    rewrite run_bind. unfold lift at 1. rewrite H. apply take_capped.
  - intros retrieved H. unfold parallel_profile.test_sql_jfk.
    rewrite run_bind. unfold lift at 1. rewrite H. apply take_capped.
Qed.

End QuerySelectors.

Lemma query_selectors_cap_after_retrieval_witness :
  ∃ files,
    example_profile.test_sql_jfk samples.flight_records tt (mk_world ∅ [])
    = (Ok ("central", files), tt, mk_world ∅ [])
    ∧ length files = 40%nat
    ∧ files !! 39%nat = Some "/flights/h.hdf5".
Proof.
  destruct (query_selectors_cap_after_retrieval samples.flight_records (mk_world ∅ []))
    as [H _].
  destruct (H _ eq_refl) as (files & Hres & Hfiles & Hcap).
  exists files. split; [exact Hres|].
  destruct Hcap as [Hlen Hix]; [vm_compute; lia|].
  split; [exact Hlen|]. rewrite Hix by lia. reflexivity.
Defined.

(** The multi-fleet selector takes the list as the store returns it; the
    row limits of its sub-selects are part of its query text. *)
Example test_multifleet_uncapped (flight_record_filepaths : string → outcome (list string))
    (retrieved : list string) (w : world) :
  flight_record_filepaths example_profile.test_multifleet_query = Ok retrieved →
  example_profile.test_multifleet flight_record_filepaths tt w
  = (Ok ("linux", retrieved), tt, w).
Proof.
  intros H. unfold example_profile.test_multifleet.
  rewrite run_bind. unfold lift at 1. by rewrite H.
Qed.

(** ** The graph display helper *)

Section GraphDisplay.

Variable graph : Type.
Variable layout : Type.
Variable canvas : Type.
Variable spring_layout : graph → outcome layout.
Variable draw_networkx : graph → layout → Qc → Qc → Qc → canvas → outcome unit * canvas.

(** C9.  Whatever the layout and the drawing call do, return or raise,
    [show_graph] returns normally: an exception of either is caught, a
    line is printed in its place, and the figure size is set back to
    (10, 4). *)
Theorem show_graph_returns (g : graph) (font_size : Qc)
    (self : notebook_utils.pylab canvas) (w : world) :
  ∃ self' w',
    notebook_utils.show_graph graph layout canvas spring_layout draw_networkx
      g font_size self w
    = (Ok tt, self', w')
    ∧ notebook_utils.rcParams canvas self' !! "figure.figsize" = Some (Q2Qc 10, Q2Qc 4)
    ∧ heap w' = heap w
    ∧ (stdout w' = stdout w
       ∨ stdout w' = stdout w ++ ["hmm, apparently bogus exception"]).
Proof.
  unfold notebook_utils.show_graph.
  rewrite run_bind. cbn [notebook_utils.set_rcParam].
  unfold notebook_utils.set_rcParam at 1. rewrite run_bind. cbn [get_self put_self].
  rewrite run_bind. unfold notebook_utils.try_except.
  rewrite run_bind. unfold lift at 1.
  destruct (spring_layout g) as [pos|e].
  - unfold notebook_utils.draw. cbn [notebook_utils.surface notebook_utils.rcParams].
    destruct (draw_networkx g pos _ _ font_size (notebook_utils.surface canvas self))
      as [[[]|e] c].
    + eexists _, _. split; [reflexivity|]. cbn. rewrite lookup_insert_eq. auto.
    + eexists _, _. split; [reflexivity|]. cbn. rewrite lookup_insert_eq. auto.
  - eexists _, _. split; [reflexivity|]. cbn. rewrite lookup_insert_eq. auto.
Qed.

End GraphDisplay.

(** ** The filesystem-strategy selector *)

Section Strings.

Lemma append_cons (c : ascii) (a b : string) : String c a +:+ b = String c (a +:+ b).
Proof. reflexivity. Qed.

Lemma append_nil_l (b : string) : "" +:+ b = b.
Proof. reflexivity. Qed.

Lemma append_assoc (a b c : string) : (a +:+ b) +:+ c = a +:+ (b +:+ c).
Proof.
  induction a as [|x a IH]; [done|]. by rewrite !append_cons, IH.
Qed.

Lemma append_not_empty (a b : string) : b ≠ "" → a +:+ b ≠ "".
Proof. by destruct a. Qed.

Lemma startswith_app (p post : string) : startswith (p +:+ post) p = true.
Proof.
  induction p as [|c p IH]; [reflexivity|].
  rewrite append_cons. simpl. by rewrite Ascii.eqb_refl.
Qed.

Lemma startswith_iff (s p : string) : startswith s p = true ↔ ∃ post, s = p +:+ post.
Proof.
  split.
  - revert s. induction p as [|c p IH]; intros s H; simpl in *; [by exists s|].
    destruct s as [|d s]; [done|]. destruct (Ascii.eqb_spec c d) as [->|]; [|done].
    destruct (IH _ H) as [post ->]. by exists post.
  - intros [post ->]. apply startswith_app.
Qed.


Lemma endswith_refl (p : string) : endswith p p = true.
Proof. destruct p; cbn [endswith]; by rewrite String.eqb_refl. Qed.

Lemma endswith_app (a p : string) : endswith (a +:+ p) p = true.
Proof.
  induction a as [|c a IH]; [rewrite append_nil_l; apply endswith_refl|].
  rewrite append_cons. cbn [endswith]. rewrite IH. apply orb_true_r.
Qed.

Lemma endswith_iff (s p : string) : endswith s p = true ↔ ∃ pre, s = pre +:+ p.
Proof.
  split.
  - induction s as [|c s IH]; cbn [endswith].
    + rewrite orb_false_r. intros H. apply String.eqb_eq in H as <-. by exists "".
    + intros H. apply orb_true_iff in H as [H|H].
      * apply String.eqb_eq in H as <-. by exists "".
      * destruct (IH H) as [pre ->]. by exists (String c pre).
  - intros [pre ->]. apply endswith_app.
Qed.

(** A path that ends in a character other than the slash. *)
Lemma endswith_slash_app (a b : string) :
  b ≠ "" → endswith (a +:+ b) "/" = endswith b "/".
Proof.
  intros Hb. induction a as [|c a IH]; [reflexivity|].
  rewrite append_cons. cbn [endswith]. rewrite IH.
  replace (String c (a +:+ b) =? "/")%string with false; [done|].
  symmetry. apply String.eqb_neq. intros [= _ E]. by destruct (append_not_empty a b Hb).
Qed.

Lemma has_magic_app (a b : string) : has_magic (a +:+ b) = has_magic a || has_magic b.
Proof.
  induction a as [|c a IH]; [reflexivity|].
  rewrite append_cons. simpl. rewrite IH. by rewrite !orb_assoc.
Qed.

Lemma rstrip_slash_app (a b : string) :
  rstrip_slash b ≠ "" → rstrip_slash (a +:+ b) = a +:+ rstrip_slash b.
Proof.
  intros Hb. induction a as [|c a IH]; [reflexivity|].
  rewrite !append_cons. cbn [rstrip_slash]. rewrite IH.
  destruct (a +:+ rstrip_slash b) eqn:E; [|done].
  by destruct (append_not_empty a _ Hb).
Qed.

Lemma rstrip_slash_slash (a : string) : rstrip_slash (a +:+ "/") = rstrip_slash a.
Proof.
  induction a as [|c a IH]; [reflexivity|].
  rewrite append_cons. cbn [rstrip_slash]. by rewrite IH.
Qed.

Lemma split_at_last_slash_app (a t : string) :
  split_at_last_slash t = ("", t) →
  split_at_last_slash (a +:+ String "/" t) = (a +:+ "/", t).
Proof.
  intros Ht. induction a as [|c a IH].
  - rewrite !append_nil_l. cbn [split_at_last_slash]. by rewrite Ht.
  - rewrite !append_cons. cbn [split_at_last_slash]. rewrite IH.
    destruct (a +:+ "/") eqn:E; [|done]. by destruct a.
Qed.

End Strings.

Section Glob.

Lemma fnmatchcase_literal (name pat : string) :
  literal pat = true → fnmatchcase name pat = String.eqb name pat.
Proof.
  revert name. induction pat as [|c pat IH]; intros name H; [done|].
  cbn [literal] in H. apply andb_true_iff in H as [H Hl].
  apply andb_true_iff in H as [Hs Hq].
  apply negb_true_iff in Hs, Hq. cbn [fnmatchcase]. rewrite Hs, Hq.
  destruct name as [|d name]; [done|]. rewrite IH by done.
  cbn [String.eqb orb]. by rewrite (eqb_sym c d).
Qed.

Lemma fnmatchcase_star (name pat : string) :
  fnmatchcase name (String "*" pat)
  = fnmatchcase name pat
    || match name with
       | EmptyString => false
       | String _ name' => fnmatchcase name' (String "*" pat)
       end.
Proof. by destruct name. Qed.

Lemma fnmatchcase_star_literal (name pat : string) :
  literal pat = true → fnmatchcase name (String "*" pat) = endswith name pat.
Proof.
  intros H. induction name as [|d name IH]; rewrite fnmatchcase_star;
    cbn [endswith]; rewrite fnmatchcase_literal by done; [done|].
  by rewrite IH.
Qed.

(** The entries that [*.hdf5] selects in a listing. *)
Lemma filter_filter_andb {A} (f g : A → bool) (l : list A) :
  List.filter f (List.filter g l) = List.filter (fun x => g x && f x) l.
Proof.
  induction l as [|x l IH]; [done|]. cbn [List.filter].
  destruct (g x); cbn [andb List.filter]; [|done]. by rewrite IH.
Qed.

Lemma glob1_hdf5 (fs : filesystem) (dirname : string) (names : list string) :
  dirname ≠ "" → listdir fs dirname = Some names →
  glob1 fs dirname "*.hdf5" = List.filter hdf5_file names.
Proof.
  intros Hd Hl. unfold glob1. apply String.eqb_neq in Hd. rewrite Hd, Hl.
  cbn [startswith Ascii.eqb Bool.eqb].
  rewrite filter_filter_andb. apply filter_ext. intros n. unfold hdf5_file.
  by rewrite fnmatchcase_star_literal.
Qed.

Lemma join_dir (d name : string) :
  d ≠ "" → endswith d "/" = false → startswith name "/" = false →
  join d name = d +:+ "/" +:+ name.
Proof.
  intros Hd He Hn. unfold join. rewrite Hn, He.
  apply String.eqb_neq in Hd. by rewrite Hd.
Qed.

Lemma rstrip_slash_id (s : string) :
  endswith s "/" = false → rstrip_slash s = s.
Proof.
  induction s as [|c s IH]; [done|]. cbn [endswith rstrip_slash].
  intros H. apply orb_false_iff in H as [Hc Hs]. rewrite IH by done.
  destruct s as [|d s]; [|done].
  destruct (Ascii.eqb_spec c "/") as [->|]; done.
Qed.

(** The paths that [glob] returns for [*.hdf5] under [base ++ sub ++ "/"],
    where [sub] is a plain directory name. *)
Lemma glob_hdf5 (fs : filesystem) (base sub : string) (names : list string) :
  has_magic base = false → has_magic sub = false →
  sub ≠ "" → endswith sub "/" = false →
  listdir fs (base +:+ sub) = Some names →
  Forall (fun n => startswith n "/" = false) names →
  glob fs (join (base +:+ sub +:+ "/") "*.hdf5")
  = map (fun n => base +:+ sub +:+ "/" +:+ n) (List.filter hdf5_file names).
Proof.
  intros Hb Hs Hsub Hend Hl Hnames.
  assert (Hjoin : join (base +:+ sub +:+ "/") "*.hdf5"
                  = (base +:+ sub) +:+ String "/" "*.hdf5").
  { unfold join. cbn [startswith Ascii.eqb Bool.eqb].
    rewrite <- (append_assoc base sub "/"), endswith_app, orb_true_r.
    by rewrite (append_assoc (base +:+ sub)). }
  rewrite Hjoin. unfold glob.
  destruct (String.length _) as [|fuel] eqn:Hlen.
  { destruct (base +:+ sub); discriminate. }
  clear Hlen. cbn [iglob].
  rewrite has_magic_app, orb_true_r. cbn [negb].
  unfold split. rewrite split_at_last_slash_app by done.
  rewrite rstrip_slash_slash.
  assert (Hd : base +:+ sub ≠ "") by (by apply append_not_empty).
  assert (Hd' : (base +:+ sub) +:+ "/" ≠ "") by (by apply append_not_empty).
  assert (Hend' : endswith (base +:+ sub) "/" = false)
    by (by rewrite endswith_slash_app).
  rewrite (rstrip_slash_id (base +:+ sub)) by done.
  apply String.eqb_neq in Hd as Hdb. apply String.eqb_neq in Hd' as Hdb'.
  rewrite Hdb, Hdb'. cbn [negb andb].
  rewrite (has_magic_app base sub), Hb, Hs. cbn [orb]. rewrite andb_false_r.
  cbn [has_magic Ascii.eqb Bool.eqb orb flat_map]. rewrite app_nil_r.
  rewrite Hdb, (glob1_hdf5 fs _ names) by done.
  clear Hl. induction names as [|n names IH]; [done|].
  apply Forall_cons in Hnames as [Hn Hnames].
  cbn [List.filter]. destruct (hdf5_file n); cbn [map]; [|by apply IH].
  rewrite IH by done. f_equal.
  rewrite join_dir by done. by rewrite !append_assoc.
Qed.

End Glob.

Section TinyTest.

Variable BASE_DATA_PATH : string.
Variable fs : filesystem.


End TinyTest.


(** ** The notebook search helper *)

Section Find.

Lemma find_nonneg (s sub : string) : 0 ≤ find s sub ↔ occurs sub s.
Proof.
  unfold occurs. induction s as [|c s IH]; cbn [find].
  - destruct (startswith "" sub) eqn:E.
    + apply startswith_iff in E as [post E]. split; [|done]. intros _.
      exists "", post. by rewrite append_nil_l.
    + split; [lia|]. intros (pre & post & E'). destruct pre; [|done].
      rewrite append_nil_l in E'.
      assert (startswith "" sub = true) by (apply startswith_iff; eauto). congruence.
  - destruct (startswith (String c s) sub) eqn:E.
    + apply startswith_iff in E as [post E]. split; [|done]. intros _.
      exists "", post. by rewrite append_nil_l.
    + destruct (find s sub <? 0) eqn:L.
      * apply Z.ltb_lt in L. split; [lia|]. intros (pre & post & E').
        destruct pre as [|d pre].
        -- rewrite append_nil_l in E'.
           assert (startswith (String c s) sub = true) by (apply startswith_iff; eauto).
           congruence.
        -- rewrite append_cons in E'. injection E' as -> ->.
           assert (0 ≤ find (pre +:+ sub +:+ post) sub) by (apply IH; eauto). lia.
      * apply Z.ltb_ge in L. split; [|lia]. intros _.
        destruct (proj1 IH L) as (pre & post & ->).
        exists (String c pre), post. by rewrite append_cons.
Qed.

End Find.

Section HdfSearch.

Lemma comprehension_map {A B C} (f : B → outcome C) (h : A → B) (g : A → C) (l : list A) :
  (∀ x, x ∈ l → f (h x) = Ok (g x)) →
  comprehension f (map h l) = Ok (map g l).
Proof.
  intros H. induction l as [|x l IH]; [done|]. cbn [map comprehension].
  rewrite H by apply list_elem_of_here.
  rewrite IH by (intros y Hy; apply H; by apply list_elem_of_further). done.
Qed.

Lemma filter_map_fst {A B} (p : A → bool) (l : list (A * B)) :
  List.filter p (map fst l) = map fst (List.filter (fun ab => p ab.1) l).
Proof.
  induction l as [|[a b] l IH]; [done|]. cbn [map List.filter fst].
  destruct (p a); cbn [map fst]; by rewrite IH.
Qed.

Lemma matching_series_elem (myhdf5 : gmap string notebook_utils.Series)
    (search_term nm : string) (s : notebook_utils.Series) :
  (nm, s) ∈ matching_series myhdf5 search_term
  ↔ myhdf5 !! nm = Some s ∧ occurs (upper search_term) (upper nm).
Proof.
  unfold matching_series.
  rewrite list_elem_of_In, filter_In, <- list_elem_of_In, elem_of_map_to_list.
  cbn [fst]. by rewrite Z.leb_le, find_nonneg.
Qed.


Lemma if_Ok {A} (b : bool) (x y : A) :
  (if b then Ok x else Ok y) = Ok (if b then x else y).
Proof. by destruct b. Qed.

Lemma DataFrame_setitem_new (n : nat) (cols : list (string * list notebook_utils.cell))
    (col : string) (values : list notebook_utils.cell) :
  length values = n →
  existsb (fun c => String.eqb c.1 col) cols = false →
  notebook_utils.DataFrame_setitem (notebook_utils.mk_DataFrame n cols) col values
  = Ok (notebook_utils.mk_DataFrame n (cols ++ [(col, values)])).
Proof.
  intros Hl He. unfold notebook_utils.DataFrame_setitem.
  cbn [notebook_utils.rows notebook_utils.columns]. by rewrite Hl, Nat.eqb_refl, He.
Qed.


End HdfSearch.

(** On the sample container a search for "gear" finds the two gear
    series, whatever the case of their names, and only the discrete one
    shows a state mapping. *)
Example hdf_search_sample :
  notebook_utils.hdf_search samples.series_container "gear"
  = Ok (notebook_utils.mk_DataFrame 2
      [ ("name", [notebook_utils.Cell (VStr "Gear Lever Position");
                  notebook_utils.Cell (VStr "Gear Down")]);
        ("recorded", [notebook_utils.Cell (VStr "F"); notebook_utils.Cell (VStr "T")]);
        ("frequency", [notebook_utils.Cell (VFloat (Q2Qc (1 # 4)));
                       notebook_utils.Cell (VFloat 1%Qc)]);
        ("data_type", [notebook_utils.Cell (VStr "Signed");
                       notebook_utils.Cell (VStr "Discrete")]);
        ("units", [notebook_utils.Cell (VStr ""); notebook_utils.Cell (VStr "")]);
        ("values", [notebook_utils.Cell (VStr "n/a");
                    notebook_utils.Mapping {[ 0 := "Up"; 1 := "Down" ]}]) ]).
Proof. vm_compute. reflexivity. Qed.

(** * Further properties of the profiles *)

(** ** The measure nodes *)

Section MoreNodes.

Lemma lt_antisym (a b : edge) : lt a b = false → lt b a = false → a = b.
Proof.
  destruct a as [x|], b as [y|]; simpl; try done.
  rewrite !Qcltb_false. intros H1 H2. f_equal. by apply Qcle_antisym.
Qed.

(** The least item of a list does not depend on the order of the list. *)
Lemma min_Permutation (l l' : list edge) : l ≡ₚ l' → min l = min l'.
Proof.
  intros HP. destruct l as [|x xs].
  { apply Permutation_nil in HP. by subst. }
  destruct (min_spec (x :: xs)) as (m & Hm & Hin & Hle); [done|].
  destruct (min_spec l') as (m' & Hm' & Hin' & Hle').
  { intros ->. by apply Permutation_nil_r in HP. }
  rewrite Hm, Hm'. f_equal. apply lt_antisym.
  - apply Hle'. by rewrite <- HP.
  - apply Hle. by rewrite HP.
Qed.

(** X1.  The phase that [InitialApproach.derive] creates does not depend
    on the order in which the Approach and the Final Approach sections
    are listed. *)
Theorem InitialApproach_order (approach approach' final final' : list Section)
    (self : FlightPhaseNode) (w : world) :
  approach ≡ₚ approach' → final ≡ₚ final' →
  example_profile.InitialApproach_derive approach final self w
  = example_profile.InitialApproach_derive approach' final' self w
  ∧ parallel_profile.InitialApproach_derive approach final self w
    = parallel_profile.InitialApproach_derive approach' final' self w.
Proof.
  intros Ha Hf.
  assert (Hla : length approach = length approach') by (by rewrite Ha).
  assert (Hlf : length final = length final') by (by rewrite Hf).
  assert (Hma : min (map start_edge approach) = min (map start_edge approach')).
  { apply min_Permutation. by rewrite Ha. }
  assert (Hmf : min (map start_edge final) = min (map start_edge final')).
  { apply min_Permutation. by rewrite Hf. }
  unfold example_profile.InitialApproach_derive, parallel_profile.InitialApproach_derive.
  by rewrite Hla, Hlf, Hma, Hmf.
Qed.

Lemma InitialApproach_order_witness :
  example_profile.InitialApproach_derive samples.approach_sections samples.final_sections
    (mk_LN "Initial Approach" []) (mk_world ∅ [])
  = example_profile.InitialApproach_derive more_samples.approach_reversed
      samples.final_sections (mk_LN "Initial Approach" []) (mk_world ∅ []).
Proof.
  apply (InitialApproach_order samples.approach_sections more_samples.approach_reversed
           samples.final_sections samples.final_sections).
  - apply Permutation_rev.
  - reflexivity.
Defined.

(** X2.  When Mydict refers to a dictionary, [MydictAttribute.derive] of
    either profile writes into that dictionary itself: afterwards the
    dictionary holds [1, 2, 3] under testkey, whatever it held there
    before, and every other key as before; no other object of the store
    changes; and the node's value refers to the same dictionary (directly
    in example_profile, through the attribute object in parallel_profile). *)
Theorem MydictAttribute_writes_upstream (mydict : Attribute) (self : FlightAttributeNode)
    (w : world) (l : positive) (m : gmap string val) :
  value mydict = VRef l → heap w !! l = Some (ODict m) →
  ∃ m' w',
    example_profile.MydictAttribute_derive mydict self w
    = (Ok tt, mk_FAN (fan_name self) (VRef l), w')
    ∧ parallel_profile.MydictAttribute_derive mydict self w
      = (Ok tt, mk_FAN (fan_name self) (VAttribute (attr_name mydict) (VRef l)), w')
    ∧ heap w' !! l = Some (ODict m')
    ∧ m' !! "testkey" = Some (VList [1; 2; 3])
    ∧ (∀ k, k ≠ "testkey" → m' !! k = m !! k)
    ∧ (∀ l', l' ≠ l → heap w' !! l' = heap w !! l')
    ∧ stdout w' = stdout w.
Proof.
  intros Hv Hl.
  pose proof (example_MydictAttribute_run mydict self w) as E1.
  pose proof (parallel_MydictAttribute_run mydict self w) as E2.
  rewrite Hv in E1, E2. cbv beta iota in E1, E2. rewrite Hl in E1, E2.
  rewrite E1, E2.
  eexists _, _. split; [reflexivity|]. split; [reflexivity|]. cbn [heap stdout].
  split; [apply lookup_insert_eq|]. split; [apply lookup_insert_eq|].
  split; [|split; [|done]].
  - intros k Hk. by apply lookup_insert_ne.
  - intros l' Hl'. by apply lookup_insert_ne.
Qed.

Lemma MydictAttribute_writes_upstream_witness :
  ∃ m' w',
    example_profile.MydictAttribute_derive more_samples.mydict
      (mk_FAN "Mydict Attribute" VNone) more_samples.mydict_world
    = (Ok tt, mk_FAN "Mydict Attribute" (VRef 3%positive), w')
    ∧ heap w' !! 3%positive = Some (ODict m')
    ∧ m' !! "testkey" = Some (VList [1; 2; 3])
    ∧ m' !! "tail" = Some (VStr "N123").
Proof.
  destruct (MydictAttribute_writes_upstream more_samples.mydict
              (mk_FAN "Mydict Attribute" VNone) more_samples.mydict_world 3%positive
              {[ "testkey" := VInt 0; "tail" := VStr "N123" ]} eq_refl eq_refl)
    as (m' & w' & H1 & _ & H3 & H4 & H5 & _).
  exists m', w'. repeat split; [exact H1|exact H3|exact H4|].
  rewrite H5 by done. reflexivity.
Defined.



Lemma merge_no_down (a : list (sample string)) :
  (∀ i x, a !! i = Some x → is_state Down x = false) → map merge a = a.
Proof.
  intros H. apply list_eq. intros i. rewrite list_lookup_fmap.
  destruct (a !! i) as [x|] eqn:E; [|done]. simpl. unfold merge.
  by rewrite (H i x E).
Qed.

(** X4.  [TCASRAStart.derive] of example_profile leaves the world as it
    found it when the series has no valid down advisory, and
    [TCASRAStart.derive] of parallel_profile never changes the world,
    whether it returns or raises. *)
Theorem TCASRAStart_frame (tcas : Param) (air : list Section)
    (self : KeyTimeInstanceNode) (w : world) :
  (∀ a, heap w !! array tcas = Some (OStates a) →
        (∀ i x, a !! i = Some x → is_state Down x = false) →
        (example_profile.TCASRAStart_derive tcas air self w).2 = w)
  ∧ (parallel_profile.TCASRAStart_derive tcas air self w).2 = w.
Proof.
  split.
  - intros a Hl Hno. rewrite (example_TCASRAStart_run _ _ _ _ a) by done.
    cbn [snd]. rewrite merge_no_down by done. rewrite insert_id by done.
    apply world_eta.
  - destruct (heap w !! array tcas) as [[|a|]|] eqn:E.
    2:{ by rewrite (parallel_TCASRAStart_run _ _ _ _ a). }
    all: by rewrite parallel_TCASRAStart_fail by (intros a; congruence).
Qed.

Lemma TCASRAStart_frame_witness :
  (example_profile.TCASRAStart_derive samples.tcas samples.airborne
     (mk_LN "TCAS RA Start" []) more_samples.quiet_world).2
  = more_samples.quiet_world.
Proof.
  destruct (TCASRAStart_frame samples.tcas samples.airborne
              (mk_LN "TCAS RA Start" []) more_samples.quiet_world) as [H _].
  apply (H more_samples.quiet_series); [reflexivity|].
  intros i x Hi. 
  destruct i as [|[|[|[|i]]]]; simpl in Hi; try discriminate; by injection Hi as <-.
Defined.

End MoreNodes.

Section MoreDistance.

Variable repair_mask : list (sample Qc) → outcome (list (sample Qc)).
Variable integrate : list (sample Qc) → Qc → Qc → outcome (list (sample Qc)).




(** X6.  An exception of [repair_mask] or of [integrate] leaves
    [DistanceTravelledInAir.derive] through the same exception with
    [self.array] not set, and by then the grounded samples of the
    airspeed array have already been zeroed. *)
Theorem DistanceTravelledInAir_raises (airspeed : Param) (grounded : list Section)
    (self : DerivedParameterNode) (w : world) (a : list (sample Qc)) (e : exn) :
  heap w !! array airspeed = Some (OFloats a) →
  repair_mask (zero_out a grounded) = Raise e
  ∨ (∃ r, repair_mask (zero_out a grounded) = Ok r
          ∧ integrate r (frequency airspeed) (Q2Qc (1 # 3600)) = Raise e) →
  ∃ w',
    example_profile.DistanceTravelledInAir_derive repair_mask integrate
      airspeed grounded self w = (Raise e, self, w')
    ∧ heap w' !! array airspeed = Some (OFloats (zero_out a grounded))
    ∧ ∀ sec i, sec ∈ grounded → in_slice (slice_ sec) (length a) i = true →
               zero_out a grounded !! i = Some (valid 0%Qc).
Proof.
  intros Hl H.
  exists (mk_world (<[array airspeed := OFloats (zero_out a grounded)]> (heap w))
                   (stdout w)).
  rewrite (DistanceTravelledInAir_run repair_mask integrate _ _ _ _ a) by done.
  split; [|split; [cbn [heap]; apply lookup_insert_eq|apply zero_out_selected]].
  destruct H as [Hr|(r & Hr & Hi)]; rewrite Hr; [done|]. by rewrite Hi.
Qed.

End MoreDistance.


Lemma DistanceTravelledInAir_raises_witness :
  ∃ w',
    example_profile.DistanceTravelledInAir_derive
      more_samples.failing_repair library.integrate
      samples.airspeed samples.grounded (mk_DPN "Distance Travelled In Air" None)
      samples.airspeed_world
    = (Raise (ValueError "Array cannot be repaired as it is entirely masked"),
       mk_DPN "Distance Travelled In Air" None, w')
    ∧ heap w' !! array samples.airspeed
      = Some (OFloats (zero_out samples.airspeed_series samples.grounded)).
Proof.
  destruct (DistanceTravelledInAir_raises more_samples.failing_repair library.integrate
              samples.airspeed samples.grounded (mk_DPN "Distance Travelled In Air" None)
              samples.airspeed_world samples.airspeed_series
              (ValueError "Array cannot be repaired as it is entirely masked") eq_refl)
    as (w' & H1 & H2 & _).
  - left. reflexivity.
  - exists w'. split; [exact H1|exact H2].
Defined.

(** ** The selectors *)

Section MoreGlob.

(** [glob] on [*.hdf5] under a plain directory lists that directory once. *)
Lemma glob_star_dir (fs : filesystem) (base sub : string) :
  has_magic base = false → has_magic sub = false →
  sub ≠ "" → endswith sub "/" = false →
  glob fs (join (base +:+ sub +:+ "/") "*.hdf5")
  = map (join (base +:+ sub)) (glob1 fs (base +:+ sub) "*.hdf5").
Proof.
  intros Hb Hs Hsub Hend.
  assert (Hjoin : join (base +:+ sub +:+ "/") "*.hdf5"
                  = (base +:+ sub) +:+ String "/" "*.hdf5").
  { unfold join. cbn [startswith Ascii.eqb Bool.eqb].
    rewrite <- (append_assoc base sub "/"), endswith_app, orb_true_r.
    by rewrite (append_assoc (base +:+ sub)). }
  rewrite Hjoin. unfold glob.
  destruct (String.length _) as [|fuel] eqn:Hlen.
  { destruct (base +:+ sub); discriminate. }
  clear Hlen. cbn [iglob].
  rewrite has_magic_app, orb_true_r. cbn [negb].
  unfold split. rewrite split_at_last_slash_app by done.
  rewrite rstrip_slash_slash.
  assert (Hd : base +:+ sub ≠ "") by (by apply append_not_empty).
  assert (Hd' : (base +:+ sub) +:+ "/" ≠ "") by (by apply append_not_empty).
  assert (Hend' : endswith (base +:+ sub) "/" = false)
    by (by rewrite endswith_slash_app).
  rewrite (rstrip_slash_id (base +:+ sub)) by done.
  apply String.eqb_neq in Hd as Hdb. apply String.eqb_neq in Hd' as Hdb'.
  rewrite Hdb, Hdb'. cbn [negb andb].
  rewrite (has_magic_app base sub), Hb, Hs. cbn [orb]. rewrite andb_false_r.
  cbn [has_magic Ascii.eqb Bool.eqb orb flat_map]. rewrite app_nil_r.
  by rewrite Hdb.
Qed.

Lemma glob_missing (fs : filesystem) (base sub : string) :
  has_magic base = false → has_magic sub = false →
  sub ≠ "" → endswith sub "/" = false →
  listdir fs (base +:+ sub) = None →
  glob fs (join (base +:+ sub +:+ "/") "*.hdf5") = [].
Proof.
  intros Hb Hs Hsub Hend Hl. rewrite glob_star_dir by done.
  unfold glob1. assert (Hd : base +:+ sub ≠ "") by (by apply append_not_empty).
  apply String.eqb_neq in Hd. by rewrite Hd, Hl.
Qed.

End MoreGlob.

Section MoreSelectors.

Variable BASE_DATA_PATH : string.
Variable OPERATOR_FOLDER : string.
Variable fs : filesystem.

(** X7.  A filesystem selector whose directory cannot be listed returns
    its repository tag with an empty list, and raises nothing. *)
Theorem selectors_missing_directory (w : world) :
  has_magic BASE_DATA_PATH = false →
  has_magic OPERATOR_FOLDER = false →
  (∀ d, listdir fs d = None) →
  (example_profile.tiny_test BASE_DATA_PATH fs tt w).1.1 = Ok ("linux", [])
  ∧ (example_profile.ffd_test10 BASE_DATA_PATH fs tt w).1.1 = Ok ("linux", [])
  ∧ (example_profile.test10_scratch fs tt w).1.1 = Ok ("cockpit", [])
  ∧ (example_profile.test10 BASE_DATA_PATH fs tt w).1.1 = Ok ("linux", [])
  ∧ (example_profile.test100 BASE_DATA_PATH OPERATOR_FOLDER fs tt w).1.1
    = Ok ("keith", [])
  ∧ (parallel_profile.tiny_test BASE_DATA_PATH fs tt w).1.1 = Ok ("keith", [])
  ∧ (parallel_profile.test10 BASE_DATA_PATH fs tt w).1.1 = Ok ("NA", [])
  ∧ (parallel_profile.test100 BASE_DATA_PATH OPERATOR_FOLDER fs tt w).1.1
    = Ok ("keith", []).
Proof.
  intros Hb Ho Hl.
  pose proof (glob_missing fs BASE_DATA_PATH "tiny_test" Hb eq_refl ltac:(done) eq_refl
                (Hl _)) as G1.
  pose proof (glob_missing fs BASE_DATA_PATH "ffd897" Hb eq_refl ltac:(done) eq_refl
                (Hl _)) as G2.
  pose proof (glob_missing fs "/opt/scratch/" "test10" eq_refl eq_refl ltac:(done)
                eq_refl (Hl _)) as G3.
  pose proof (glob_missing fs BASE_DATA_PATH "test10" Hb eq_refl ltac:(done) eq_refl
                (Hl _)) as G4.
  assert (Hbo : has_magic (BASE_DATA_PATH +:+ OPERATOR_FOLDER) = false)
    by (by rewrite has_magic_app, Hb, Ho).
  pose proof (glob_missing fs (BASE_DATA_PATH +:+ OPERATOR_FOLDER) "2012-07-13" Hbo
                eq_refl ltac:(done) eq_refl (Hl _)) as G5.
  rewrite (append_assoc BASE_DATA_PATH OPERATOR_FOLDER) in G5.
  change ("tiny_test" +:+ "/") with "tiny_test/" in G1.
  change ("ffd897" +:+ "/") with "ffd897/" in G2.
  change ("/opt/scratch/" +:+ "test10" +:+ "/") with "/opt/scratch/test10/" in G3.
  change ("test10" +:+ "/") with "test10/" in G4.
  change ("2012-07-13" +:+ "/") with "2012-07-13/" in G5.
  unfold example_profile.tiny_test, example_profile.ffd_test10,
    example_profile.test10_scratch, example_profile.test10, example_profile.test100,
    parallel_profile.tiny_test, parallel_profile.test10, parallel_profile.test100.
  rewrite !run_bind. cbn [print]. by rewrite G1, G2, G3, G4, G5.
Qed.

End MoreSelectors.

Lemma selectors_missing_directory_witness :
  (example_profile.tiny_test "/data/" more_samples.empty_fs tt (mk_world ∅ [])).1.1
  = Ok ("linux", [])
  ∧ (example_profile.test100 "/data/" "op/" more_samples.empty_fs tt (mk_world ∅ [])).1.1
    = Ok ("keith", []).
Proof.
  destruct (selectors_missing_directory "/data/" "op/" more_samples.empty_fs
              (mk_world ∅ []) eq_refl eq_refl (fun _ => eq_refl))
    as (H1 & _ & _ & _ & H5 & _).
  split; [exact H1|exact H5].
Defined.

Section MoreSelectors2.

Variable BASE_DATA_PATH : string.
Variable OPERATOR_FOLDER : string.
Variable fs : filesystem.

(** X8.  [test100] of either profile returns the selected entries of the
    operator's 2012-07-13 folder in the order listed, each joined to the
    folder, but never more than the first 100 of them. *)
Theorem test100_cap (names : list string) (w : world) :
  has_magic BASE_DATA_PATH = false →
  has_magic OPERATOR_FOLDER = false →
  listdir fs (BASE_DATA_PATH +:+ OPERATOR_FOLDER +:+ "2012-07-13") = Some names →
  Forall (fun n => startswith n "/" = false) names →
  ∃ files,
    (example_profile.test100 BASE_DATA_PATH OPERATOR_FOLDER fs tt w).1.1
    = Ok ("keith", files)
    ∧ (parallel_profile.test100 BASE_DATA_PATH OPERATOR_FOLDER fs tt w).1.1
      = Ok ("keith", files)
    ∧ files = take 100 (map (fun n => BASE_DATA_PATH +:+ OPERATOR_FOLDER
                                       +:+ "2012-07-13/" +:+ n)
                            (List.filter hdf5_file names))
    ∧ (length files ≤ 100)%nat
    ∧ ((length (List.filter hdf5_file names) ≤ 100)%nat →
       length files = length (List.filter hdf5_file names)).
Proof.
  intros Hb Ho Hl Hnames.
  assert (Hbo : has_magic (BASE_DATA_PATH +:+ OPERATOR_FOLDER) = false)
    by (by rewrite has_magic_app, Hb, Ho).
  rewrite <- append_assoc in Hl.
  pose proof (glob_hdf5 fs (BASE_DATA_PATH +:+ OPERATOR_FOLDER) "2012-07-13" names Hbo
                eq_refl ltac:(done) eq_refl Hl Hnames) as G.
  change ("2012-07-13" +:+ "/") with "2012-07-13/" in G.
  change ("2012-07-13" +:+ "/" +:+ ?n) with ("2012-07-13/" +:+ n) in G.
  rewrite (append_assoc BASE_DATA_PATH OPERATOR_FOLDER) in G.
  rewrite (map_ext _ (fun n => BASE_DATA_PATH +:+ OPERATOR_FOLDER
                               +:+ "2012-07-13/" +:+ n)) in G
    by (intros n; apply append_assoc).
  eexists. split; [|split; [|split; [reflexivity|]]].
  - unfold example_profile.test100. rewrite run_bind. cbn [print]. by rewrite G.
  - unfold parallel_profile.test100. rewrite run_bind. cbn [print]. by rewrite G.
  - rewrite length_take, length_map. split; [lia|]. lia.
Qed.

End MoreSelectors2.

Lemma test100_cap_witness :
  ∃ files,
    (example_profile.test100 "/data/" "op/" more_samples.big_fs tt (mk_world ∅ [])).1.1
    = Ok ("keith", files)
    ∧ length files = 100%nat
    ∧ files !! 0%nat = Some "/data/op/2012-07-13/0.hdf5".
Proof.
  destruct (test100_cap "/data/" "op/" more_samples.big_fs
              (map (fun i : nat => String (ascii_of_nat (48 + i)) ".hdf5") (seq 0 120))
              (mk_world ∅ []) eq_refl eq_refl eq_refl)
    as (files & H1 & _ & H3 & _).
  - apply Forall_forall. intros n Hn.
    apply list_elem_of_In, in_map_iff in Hn as (i & <- & Hi). apply in_seq in Hi.
    cbn [startswith]. apply not_true_is_false. intros E.
    destruct (Ascii.eqb_spec "/" (ascii_of_nat (48 + i))) as [E'|]; [|done].
    apply (f_equal nat_of_ascii) in E'. rewrite nat_ascii_embedding in E' by lia.
    change (nat_of_ascii "/") with 47%nat in E'. lia.
  - exists files. split; [exact H1|]. rewrite H3. split; vm_compute; reflexivity.
Defined.

Section MoreQueries.

Variable flight_record_filepaths : string → outcome (list string).

(** X9.  The query selectors handle no error: when the flight-record
    store raises, each of them ends in that exception, having printed
    nothing and changed nothing. *)
Theorem query_selectors_propagate (e : exn) (w : world) :
  (∀ query, flight_record_filepaths query = Raise e) →
  example_profile.test_sql_jfk flight_record_filepaths tt w = (Raise e, tt, w)
  ∧ example_profile.test_sql_jfk_local flight_record_filepaths tt w = (Raise e, tt, w)
  ∧ example_profile.fll_local flight_record_filepaths tt w = (Raise e, tt, w)
  ∧ example_profile.test_multifleet flight_record_filepaths tt w = (Raise e, tt, w)
  ∧ example_profile.test_kpv_range flight_record_filepaths tt w = (Raise e, tt, w)
  ∧ parallel_profile.test_sql_jfk flight_record_filepaths tt w = (Raise e, tt, w)
  ∧ parallel_profile.test_sql_jfk_local flight_record_filepaths tt w = (Raise e, tt, w)
  ∧ parallel_profile.fll_local flight_record_filepaths tt w = (Raise e, tt, w)
  ∧ parallel_profile.jfk_local flight_record_filepaths tt w = (Raise e, tt, w)
  ∧ parallel_profile.test_kpv_range flight_record_filepaths tt w = (Raise e, tt, w).
Proof.
  intros H.
  unfold example_profile.test_sql_jfk, example_profile.test_sql_jfk_local,
    example_profile.fll_local, example_profile.test_multifleet,
    example_profile.test_kpv_range, parallel_profile.test_sql_jfk,
    parallel_profile.test_sql_jfk_local, parallel_profile.fll_local,
    parallel_profile.jfk_local, parallel_profile.test_kpv_range.
  rewrite !run_bind. unfold lift. by rewrite !H.
Qed.

(** X10.  [test_kpv_range] sends the same query text in both profiles;
    parallel_profile returns everything the store retrieved, and
    example_profile the first 40 entries of the same list. *)
Theorem test_kpv_range_profiles (w : world) :
  example_profile.test_kpv_range flight_record_filepaths tt w
  = match parallel_profile.test_kpv_range flight_record_filepaths tt w with
    | (Ok (repo, files), self, w') => (Ok (repo, take 40 files), self, w')
    | (Raise e, self, w') => (Raise e, self, w')
    end.
Proof.
  unfold example_profile.test_kpv_range, parallel_profile.test_kpv_range.
  change example_profile.test_kpv_range_query with parallel_profile.test_kpv_range_query.
  rewrite !run_bind. unfold lift.
  by destruct (flight_record_filepaths _).
Qed.

End MoreQueries.

Lemma query_selectors_propagate_witness :
  example_profile.test_kpv_range more_samples.unreachable_store tt (mk_world ∅ [])
  = (Raise (OtherError "ORA-12541: TNS:no listener"), tt, mk_world ∅ []).
Proof.
  destruct (query_selectors_propagate more_samples.unreachable_store
              (OtherError "ORA-12541: TNS:no listener") (mk_world ∅ [])
              (fun _ => eq_refl))
    as (_ & _ & _ & _ & H & _).
  exact H.
Defined.

(** * Further properties of the notebook helpers *)

Section MoreNodeTypes.

Import notebook_utils notebook_helpers helper_notions.

Lemma find_lower_bound (s sub : string) : -1 ≤ find s sub.
Proof.
  induction s as [|c s IH]; cbn [find].
  - by destruct (startswith "" sub).
  - destruct (startswith (String c s) sub); [lia|]. destruct (find s sub <? 0); lia.
Qed.

Lemma find_pos (s sub : string) :
  startswith s sub = false → (0 <? find s sub) = true ↔ occurs sub s.
Proof.
  intros E. rewrite <- find_nonneg, Z.ltb_lt.
  destruct s as [|c s]; cbn [find]; rewrite E.
  - lia.
  - pose proof (find_lower_bound s sub). destruct (find s sub <? 0) eqn:L.
    + lia.
    + apply Z.ltb_ge in L. lia.
Qed.

Lemma find_pos_false (s sub : string) :
  startswith s sub = false → (0 <? find s sub) = false ↔ ¬ occurs sub s.
Proof.
  intros E. rewrite <- (find_pos s sub E). by destruct (0 <? find s sub).
Qed.

(** X11.  For a node whose [repr] begins with [<], as that of every class
    does, [node_type] answers by the first marker that occurs in it, in
    the order key_point_values, _phase, _time_, _param: KPV, phase, KTI or
    parameter; a [repr] with none of the markers is returned as it is. *)
Theorem node_type_class (base_nodes : gmap string string) (nm nodestr : string) :
  base_nodes !! nm = Some nodestr →
  startswith nodestr "<" = true →
  (occurs "key_point_values" nodestr → node_type base_nodes nm = Ok "KPV")
  ∧ (¬ occurs "key_point_values" nodestr → occurs "_phase" nodestr →
     node_type base_nodes nm = Ok "phase")
  ∧ (¬ occurs "key_point_values" nodestr → ¬ occurs "_phase" nodestr →
     occurs "_time_" nodestr → node_type base_nodes nm = Ok "KTI")
  ∧ (¬ occurs "key_point_values" nodestr → ¬ occurs "_phase" nodestr →
     ¬ occurs "_time_" nodestr → occurs "_param" nodestr →
     node_type base_nodes nm = Ok "parameter")
  ∧ (¬ occurs "key_point_values" nodestr → ¬ occurs "_phase" nodestr →
     ¬ occurs "_time_" nodestr → ¬ occurs "_param" nodestr →
     node_type base_nodes nm = Ok nodestr).
Proof.
  intros Hnm Hs. unfold node_type. rewrite Hnm.
  destruct nodestr as [|c s]; [done|].
  cbn [startswith] in Hs. destruct (Ascii.eqb_spec "<" c) as [<-|]; [|done].
  pose proof (find_pos (String "<" s) "key_point_values" eq_refl) as P1.
  pose proof (find_pos (String "<" s) "_phase" eq_refl) as P2.
  pose proof (find_pos (String "<" s) "_time_" eq_refl) as P3.
  pose proof (find_pos (String "<" s) "_param" eq_refl) as P4.
  destruct (0 <? find (String "<" s) "key_point_values");
    destruct (0 <? find (String "<" s) "_phase");
    destruct (0 <? find (String "<" s) "_time_");
    destruct (0 <? find (String "<" s) "_param");
    repeat split; intros; try reflexivity; exfalso;
    intuition congruence.
Qed.


Lemma leb_trans (a b c : string) :
  String.leb a b = true → String.leb b c = true → String.leb a c = true.
Proof.
  unfold String.leb.
  destruct (String.compare a b) eqn:E1; [| |discriminate]; intros _.
  - apply String.compare_eq_iff in E1 as ->. done.
  - destruct (String.compare b c) eqn:E2; [| |discriminate]; intros _.
    + apply String.compare_eq_iff in E2 as <-. by rewrite E1.
    + apply OrderedTypeEx.String_as_OT.cmp_lt in E1, E2.
      pose proof (OrderedTypeEx.String_as_OT.lt_trans _ _ _ E1 E2) as H.
      apply OrderedTypeEx.String_as_OT.cmp_lt in H.
      unfold OrderedTypeEx.String_as_OT.cmp in H. by rewrite H.
Qed.


Lemma leb_Total : Total (fun a b : string => Is_true (String.leb a b)).
Proof.
  intros a b. destruct (String.leb_total a b) as [H|H]; rewrite H; [by left|by right].
Qed.

Lemma leb_Transitive : Transitive (fun a b : string => Is_true (String.leb a b)).
Proof.
  intros a b c H1 H2. apply Is_true_true in H1, H2. apply Is_true_true.
  by apply leb_trans with b.
Qed.

Lemma dir_elem (mymodule : gmap string binding) (a : string) :
  a ∈ dir mymodule ↔ is_Some (mymodule !! a).
Proof.
  unfold dir. rewrite merge_sort_Permutation, list_elem_of_fmap. split.
  - intros ([k v] & -> & H). apply elem_of_map_to_list in H. by exists v.
  - intros [v H]. exists (a, v). split; [done|]. by apply elem_of_map_to_list.
Qed.

Lemma dir_NoDup (mymodule : gmap string binding) : NoDup (dir mymodule).
Proof.
  unfold dir. rewrite merge_sort_Permutation. apply NoDup_fst_map_to_list.
Qed.

Lemma dir_sorted (mymodule : gmap string binding) :
  StronglySorted (fun a b : string => Is_true (String.leb a b)) (dir mymodule).
Proof.
  unfold dir. apply @StronglySorted_merge_sort; [apply leb_Transitive|apply leb_Total].
Qed.

Lemma comprehension_if_filter {A} (cond : A → outcome bool) (p : A → bool) (xs : list A) :
  (∀ x, x ∈ xs → cond x = Ok (p x)) →
  comprehension_if cond xs = Ok (List.filter p xs).
Proof.
  intros H. induction xs as [|x xs IH]; [done|]. cbn [comprehension_if List.filter].
  rewrite H by apply list_elem_of_here.
  rewrite IH by (intros y Hy; apply H; by apply list_elem_of_further).
  cbn [mbind outcome_bind mret outcome_ret]. by destruct (p x).
Qed.

Lemma comprehension_if_raises {A} (cond : A → outcome bool) (e : exn) (xs : list A) (x : A) :
  x ∈ xs → cond x = Raise e →
  (∀ y e', y ∈ xs → cond y = Raise e' → e' = e) →
  comprehension_if cond xs = Raise e.
Proof.
  intros Hx Hc Hall. induction xs as [|y xs IH]; [by apply elem_of_nil in Hx|].
  cbn [comprehension_if]. destruct (cond y) as [b|e'] eqn:E.
  - apply elem_of_cons in Hx as [->|Hx]; [congruence|].
    rewrite IH; [done|done|]. intros z e' Hz. apply Hall. by apply list_elem_of_further.
  - f_equal. apply (Hall y); [apply list_elem_of_here|done].
Qed.

Lemma module_functions_run (mymodule : gmap string binding) :
  mymodule !! "" ≠ Some Function →
  module_functions mymodule = Ok (List.filter (public_function mymodule) (dir mymodule)).
Proof.
  intros E0. unfold module_functions. apply comprehension_if_filter. intros a _.
  unfold public_function. destruct (mymodule !! a) as [[]|] eqn:Ea; try done.
  destruct a as [|c a]; [congruence|].
  cbn [getitem0 mbind outcome_bind mret outcome_ret startswith].
  rewrite (Ascii.eqb_sym c). by destruct (Ascii.eqb "_" c).
Qed.

Lemma public_function_elem (mymodule : gmap string binding) (a : string) :
  a ∈ List.filter (public_function mymodule) (dir mymodule)
  ↔ mymodule !! a = Some Function ∧ startswith a "_" = false.
Proof.
  rewrite list_elem_of_In, filter_In, <- list_elem_of_In, dir_elem.
  unfold public_function. destruct (mymodule !! a) as [[]|].
  - rewrite negb_true_iff. split; [by intros [_ H]|intros [_ H]; split; [by eexists|done]].
  - split; [by intros [_ H]|by intros [H _]].
  - split; [by intros [_ H]|by intros [H _]].
Qed.

Lemma filter_StronglySorted {A} (R : A → A → Prop) (p : A → bool) (l : list A) :
  StronglySorted R l → StronglySorted R (List.filter p l).
Proof.
  induction 1 as [|x l Hs IH Hf]; cbn [List.filter]; [constructor|].
  destruct (p x); [|done]. constructor; [done|].
  apply List.Forall_forall. intros y Hy. apply filter_In in Hy as [Hy _].
  by apply (proj1 (List.Forall_forall _ _) Hf).
Qed.

(** X12.  [module_functions] returns the names of the module that are
    bound to a function and do not begin with an underscore, each once
    and in sorted order; only a function bound under the empty name makes
    it raise, on the look at the first character. *)
Theorem module_functions_public (mymodule : gmap string binding) :
  match mymodule !! "" with
  | Some Function =>
      module_functions mymodule
      = Raise (OtherError "IndexError: string index out of range")
  | _ =>
      ∃ names,
        module_functions mymodule = Ok names
        ∧ (∀ a, a ∈ names ↔ mymodule !! a = Some Function ∧ startswith a "_" = false)
        ∧ NoDup names
        ∧ StronglySorted (fun a b : string => Is_true (String.leb a b)) names
  end.
Proof.
  assert (Hok : mymodule !! "" ≠ Some Function →
    ∃ names,
        module_functions mymodule = Ok names
        ∧ (∀ a, a ∈ names ↔ mymodule !! a = Some Function ∧ startswith a "_" = false)
        ∧ NoDup names
        ∧ StronglySorted (fun a b : string => Is_true (String.leb a b)) names).
  { intros E0. exists (List.filter (public_function mymodule) (dir mymodule)).
    split; [by apply module_functions_run|]. split; [apply public_function_elem|]. split.
    - apply NoDup_ListNoDup, List.NoDup_filter, NoDup_ListNoDup, dir_NoDup.
    - apply filter_StronglySorted, dir_sorted. }
  destruct (mymodule !! "") as [[]|] eqn:E0; [|by apply Hok..].
  unfold module_functions. apply comprehension_if_raises with "".
  - apply dir_elem. by eexists.
  - by rewrite E0.
  - intros y e' _. destruct (mymodule !! y) as [[]|]; [|done|done].
    destruct y; cbn [getitem0 mbind outcome_bind mret outcome_ret];
      [by intros [= <-]|done].
Qed.


Lemma node_type_known (node_dict : gmap string string) (nm nodestr : string) :
  node_dict !! nm = Some nodestr → ∃ ty, node_type node_dict nm = Ok ty.
Proof.
  intros H. unfold node_type. rewrite H.
  repeat match goal with |- context [if ?b then _ else _] => destruct b end; eauto.
Qed.

Lemma matching_nodes_elem (node_dict : gmap string string) (search_term nm s : string) :
  (nm, s) ∈ matching_nodes node_dict search_term
  ↔ node_dict !! nm = Some s ∧ occurs (upper search_term) (upper nm).
Proof.
  unfold matching_nodes.
  rewrite list_elem_of_In, filter_In, <- list_elem_of_In, elem_of_map_to_list.
  cbn [fst]. by rewrite Z.leb_le, find_nonneg.
Qed.

Lemma node_search_run (node_dict : gmap string string) (search_term : string) :
  let found := matching_nodes node_dict search_term in
  node_search node_dict search_term
  = Ok (mk_DataFrame (length found)
      [ ("name", map (fun kv => Cell (VStr kv.1)) found);
        ("type", map (fun kv => Cell (VStr (match node_type node_dict kv.1 with
                                            | Ok ty => ty
                                            | Raise _ => kv.2
                                            end))) found) ]).
Proof.
  intros found. unfold node_search.
  change ((map_to_list node_dict).*1) with (map fst (map_to_list node_dict)).
  rewrite (filter_map_fst (fun k => 0 <=? find (upper k) (upper search_term))).
  fold (matching_nodes node_dict search_term). fold found.
  rewrite map_map. cbn [fst].
  rewrite (comprehension_map _ fst
             (fun kv => Cell (VStr (match node_type node_dict kv.1 with
                                    | Ok ty => ty
                                    | Raise _ => kv.2
                                    end)))).
  2:{ intros [nm s] H. apply matching_nodes_elem in H as [H _]. cbn [fst snd].
      destruct (node_type_known _ _ _ H) as [ty ->]. reflexivity. }
  cbn [mbind outcome_bind mret outcome_ret].
  unfold DataFrame_new. rewrite length_map.
  rewrite DataFrame_setitem_new by (by rewrite ?length_map).
  reflexivity.
Qed.

(** X13.  [node_search] never raises: it returns a table with the columns
    name and type and one row for each node whose upper-cased name
    contains the upper-cased search string, and for no other; the type
    cell of a row is what [node_type] answers for its name, and the lookup
    inside [node_type] cannot fail there. *)
Theorem node_search_table (node_dict : gmap string string) (search_term : string) :
  let found := matching_nodes node_dict search_term in
  ∃ types,
    node_search node_dict search_term
    = Ok (mk_DataFrame (length found)
        [ ("name", map (fun kv => Cell (VStr kv.1)) found); ("type", types) ])
    ∧ Forall2 (fun kv c => ∃ ty, node_type node_dict kv.1 = Ok ty ∧ c = Cell (VStr ty))
              found types
    ∧ (∀ nm s, (nm, s) ∈ found
               ↔ node_dict !! nm = Some s ∧ occurs (upper search_term) (upper nm))
    ∧ NoDup found.*1.
Proof.
  intros found. eexists. split; [apply node_search_run|]. split; [|split].
  - apply Forall2_fmap_r, Forall_Forall2_diag, Forall_forall. intros [nm s] H.
    apply matching_nodes_elem in H as [H _]. cbv beta. cbn [fst snd].
    destruct (node_type_known _ _ _ H) as [ty E]. exists ty. simpl. by rewrite E.
  - apply matching_nodes_elem.
  - unfold found, matching_nodes.
    change (NoDup (map fst (List.filter
              (fun kv => 0 <=? find (upper kv.1) (upper search_term))
              (map_to_list node_dict)))).
    rewrite <- (filter_map_fst (fun k => 0 <=? find (upper k) (upper search_term))).
    apply NoDup_ListNoDup, List.NoDup_filter, NoDup_ListNoDup, NoDup_fst_map_to_list.
Qed.


Lemma find_empty (s : string) : find s "" = 0.
Proof. by destruct s. Qed.

Lemma filter_all {A} (p : A → bool) (l : list A) :
  (∀ x, p x = true) → List.filter p l = l.
Proof.
  intros H. induction l as [|x l IH]; [done|]. cbn [List.filter]. by rewrite H, IH.
Qed.

Lemma hdf_search_names (myhdf5 : gmap string Series) (search_term : string) :
  let names :=
    List.filter (fun k => 0 <=? find (upper k) (upper search_term)) (keys myhdf5) in
  ∃ cols,
    hdf_search myhdf5 search_term
    = Ok (mk_DataFrame (length names) (("name", map (fun k => Cell (VStr k)) names) :: cols)).
Proof.
  intros names. unfold names.
  assert (Hget : ∀ ks, ks ∈ matching_series myhdf5 search_term → myhdf5 !! ks.1 = Some ks.2).
  { intros [nm s] H. by apply matching_series_elem in H as [H _]. }
  unfold hdf_search, keys.
  change ((map_to_list myhdf5).*1) with (map fst (map_to_list myhdf5)).
  rewrite (filter_map_fst (fun k => 0 <=? find (upper k) (upper search_term))).
  fold (matching_series myhdf5 search_term).
  rewrite map_map. cbn [fst].
  do 5 (erewrite (comprehension_map _ fst)
          by (intros ks H; unfold get_attr;
              rewrite (Hget ks H); cbn [mbind outcome_bind mret outcome_ret];
              rewrite ?(Hget ks H); cbn [mbind outcome_bind mret outcome_ret];
              rewrite ?if_Ok; reflexivity)).
  cbn [mbind outcome_bind mret outcome_ret].
  unfold DataFrame_new. rewrite !length_map.
  do 5 (rewrite DataFrame_setitem_new by (by rewrite ?length_map);
        cbn [app mbind outcome_bind mret outcome_ret]).
  eexists. reflexivity.
Qed.

(** X14.  With an empty search string [hdf_search] and [node_search] list
    every entry: the table has as many rows as the container has keys,
    and its name column is the keys in the order the container lists
    them. *)
Theorem searches_list_everything (myhdf5 : gmap string Series)
    (node_dict : gmap string string) :
  (∃ cols,
     hdf_search myhdf5 ""
     = Ok (mk_DataFrame (size myhdf5)
             (("name", map (fun k => Cell (VStr k)) (keys myhdf5)) :: cols)))
  ∧ (∃ cols,
       node_search node_dict ""
       = Ok (mk_DataFrame (size node_dict)
               (("name", map (fun k => Cell (VStr k)) (map_to_list node_dict).*1) :: cols))).
Proof.
  split.
  - destruct (hdf_search_names myhdf5 "") as [cols H]. exists cols.
    rewrite filter_all in H by (intros k; cbn [upper]; by rewrite find_empty).
    rewrite H. unfold keys. by rewrite length_fmap, length_map_to_list.
  - eexists. rewrite node_search_run. unfold matching_nodes.
    rewrite filter_all by (intros k; cbn [upper]; by rewrite find_empty).
    rewrite map_map. cbn [fst]. by rewrite length_map_to_list.
Qed.

End MoreNodeTypes.

Section MoreLogging.

Import notebook_helpers.

Variable _checkLevel : string → outcome Z.
Variable open_append : string → outcome unit.

Lemma initialize_logger_run (LOG_LEVEL filename : string) (self : Logger) (w : world) :
  initialize_logger _checkLevel open_append LOG_LEVEL filename self w
  = match _checkLevel LOG_LEVEL with
    | Raise e => (Raise e, self, w)
    | Ok n =>
        match open_append filename with
        | Raise e => (Raise e, mk_Logger n (handlers self), w)
        | Ok _ =>
            (Ok tt, mk_Logger n (handlers self ++ [FileHandler filename; StreamHandler]), w)
        end
    end.
Proof.
  unfold initialize_logger, setLevel, new_FileHandler, addHandler.
  rewrite !run_bind. unfold lift at 1.
  destruct (_checkLevel LOG_LEVEL) as [n|e]; [|done].
  rewrite !run_bind. cbn [get_self put_self]. rewrite !run_bind. unfold lift.
  destruct (open_append filename) as [[]|e]; [|done].
  cbn [mret M_ret]. rewrite !run_bind. cbn [get_self put_self handlers level].
  rewrite run_bind. cbn [get_self put_self handlers level]. by rewrite <- app_assoc.
Qed.

(** X15.  When the level is refused, or the log file cannot be opened,
    [initialize_logger] ends in that exception without having added a
    handler, not even the one for the screen; if the level of the root
    logger differs afterwards, it is the requested one, set before the
    file was tried. *)
Theorem initialize_logger_failure (LOG_LEVEL filename : string) (e : exn)
    (self : Logger) (w : world) :
  _checkLevel LOG_LEVEL = Raise e
  ∨ (∃ n, _checkLevel LOG_LEVEL = Ok n ∧ open_append filename = Raise e) →
  ∃ self',
    initialize_logger _checkLevel open_append LOG_LEVEL filename self w = (Raise e, self', w)
    ∧ handlers self' = handlers self
    ∧ (level self' ≠ level self → _checkLevel LOG_LEVEL = Ok (level self')).
Proof.
  rewrite initialize_logger_run. intros [H|(n & H1 & H2)].
  - rewrite H. by exists self.
  - rewrite H1, H2. by exists (mk_Logger n (handlers self)).
Qed.

(** X16.  [initialize_logger] acts on the one root logger: a second call
    adds a second file handler and a second stream handler behind those
    of the first call, so every record goes out twice, and the level is
    that of the last call. *)
Theorem initialize_logger_accumulates (LOG_LEVEL1 filename1 LOG_LEVEL2 filename2 : string)
    (n1 n2 : Z) (self : Logger) (w : world) :
  _checkLevel LOG_LEVEL1 = Ok n1 → _checkLevel LOG_LEVEL2 = Ok n2 →
  open_append filename1 = Ok tt → open_append filename2 = Ok tt →
  (initialize_logger _checkLevel open_append LOG_LEVEL1 filename1 ;;
   initialize_logger _checkLevel open_append LOG_LEVEL2 filename2) self w
  = (Ok tt,
     mk_Logger n2 (handlers self ++ [FileHandler filename1; StreamHandler;
                                     FileHandler filename2; StreamHandler]),
     w).
Proof.
  intros L1 L2 F1 F2. rewrite run_bind, initialize_logger_run, L1, F1.
  rewrite initialize_logger_run, L2, F2. cbn [handlers]. by rewrite <- app_assoc.
Qed.

End MoreLogging.

Section MoreManagers.

Import notebook_helpers.

Lemma update_all_lookup {V} (d : gmap string V) (items : list (string * V)) (k : string) :
  NoDup items.*1 →
  update_all d items !! k
  = match (list_to_map items : gmap string V) !! k with
    | Some v => Some v
    | None => d !! k
    end.
Proof.
  unfold update_all. revert d. induction items as [|[k0 v0] items IH]; intros d Hnd.
  - cbn [fold_left list_to_map foldr]. by rewrite lookup_empty.
  - apply NoDup_cons in Hnd as [Hk0 Hnd]. cbn [fold_left fst snd list_to_map foldr uncurry].
    rewrite IH by done. destruct (decide (k = k0)) as [->|Hne].
    + rewrite lookup_insert_eq, (not_elem_of_list_to_map_1 _ _ Hk0).
      by rewrite lookup_insert_eq.
    + by rewrite !lookup_insert_ne.
Qed.

Lemma update_all_union {V} (d m : gmap string V) :
  update_all d (map_to_list m) = m ∪ d.
Proof.
  apply map_eq. intros k.
  rewrite update_all_lookup by apply NoDup_fst_map_to_list.
  rewrite list_to_map_to_list, lookup_union.
  destruct (m !! k), (d !! k); done.
Qed.

Lemma get_profile_nodes_lookup (myvars : gmap string pyvalue) (k : string) :
  get_profile_nodes myvars !! k
  = match myvars !! k with
    | Some v => if profile_node v then Some v else None
    | None => None
    end.
Proof.
  unfold get_profile_nodes. cbv zeta.
  assert (Hnd : NoDup (List.filter (fun kv : string * pyvalue => profile_node kv.2)
                                   (map_to_list myvars)).*1).
  { change (NoDup (map fst (List.filter (fun kv => profile_node kv.2) (map_to_list myvars)))).
    apply NoDup_fmap_fst.
    - intros k0 v1 v2 H1 H2. apply list_elem_of_In, filter_In in H1 as [H1 _].
      apply list_elem_of_In, filter_In in H2 as [H2 _].
      apply list_elem_of_In, elem_of_map_to_list in H1, H2. congruence.
    - apply NoDup_ListNoDup, List.NoDup_filter, NoDup_ListNoDup, NoDup_map_to_list. }
  rewrite update_all_lookup, lookup_empty by done.
  destruct (list_to_map _ !! k) as [v|] eqn:E.
  - apply elem_of_list_to_map in E; [|done].
    apply list_elem_of_In, filter_In in E as [E Hp].
    apply list_elem_of_In, elem_of_map_to_list in E. cbn [snd] in Hp. by rewrite E, Hp.
  - destruct (myvars !! k) as [v|] eqn:Ek; [|done].
    destruct (profile_node v) eqn:Hp; [|done].
    apply not_elem_of_list_to_map in E. exfalso. apply E.
    apply list_elem_of_fmap. exists (k, v). split; [done|].
    apply list_elem_of_In, filter_In. split; [|done].
    by apply list_elem_of_In, elem_of_map_to_list.
Qed.

(** X17.  [get_profile_nodes] returns exactly the entries of the
    namespace that are classes derived from [node.Node] and defined
    outside the engine's node module, under the names the namespace has
    for them. *)
Theorem get_profile_nodes_selects (myvars : gmap string pyvalue) (k : string) (v : pyvalue) :
  get_profile_nodes myvars !! k = Some v
  ↔ myvars !! k = Some v
    ∧ ∃ qualname module_name,
        v = PClass qualname true module_name ∧ module_name ≠ "analysis_engine.node".
Proof.
  rewrite get_profile_nodes_lookup. destruct (myvars !! k) as [v'|]; [|split; [done|by intros [? _]]].
  destruct v' as [q sub m|d]; cbn [profile_node].
  - destruct sub; cbn [andb].
    + destruct (String.eqb_spec m "analysis_engine.node") as [->|Hm]; cbn [negb].
      * split; [done|]. intros [[= <-] (q' & m' & [= -> ->] & H)]. done.
      * split; [intros [= <-]; eauto|]. by intros [[= <-] _].
    + split; [done|]. intros [[= <-] (q' & m' & [=] & _)].
  - split; [done|]. intros [[= <-] (q' & m' & [=] & _)].
Qed.

Variable base_nodes : gmap string pyvalue.

(** X18.  The manager of [get_profile_nodemanager] is built from the
    series of the flight laid over the profile nodes laid over the
    engine's nodes: a name that is both a profile node and a recorded
    series stays requested but resolves to the series.  It requests
    exactly the profile nodes, lists exactly the series as hdf keys, and
    starts with an empty Mydict and the file path of the flight. *)
Theorem get_profile_nodemanager_tables (flt : Flight) (myvars : gmap string pyvalue) :
  let mgr := get_profile_nodemanager base_nodes flt myvars in
  derived_nodes mgr = series flt ∪ (get_profile_nodes myvars ∪ base_nodes)
  ∧ (∀ k, k ∈ requested mgr ↔ is_Some (get_profile_nodes myvars !! k))
  ∧ (∀ k, k ∈ hdf_keys mgr ↔ is_Some (series flt !! k))
  ∧ (∀ k s, series flt !! k = Some s → derived_nodes mgr !! k = Some s)
  ∧ Mydict (achieved_flight_record mgr) = ∅
  ∧ Myfile (achieved_flight_record mgr) = filepath flt.
Proof.
  intros mgr. unfold mgr, get_profile_nodemanager.
  cbn [derived_nodes requested hdf_keys achieved_flight_record Mydict Myfile].
  rewrite !update_all_union. split; [done|]. split; [|split; [|split; [|done]]].
  - intros k. rewrite list_elem_of_fmap. split.
    + intros ([k' v] & -> & H). apply elem_of_map_to_list in H. by exists v.
    + intros [v H]. exists (k, v). split; [done|]. by apply elem_of_map_to_list.
  - intros k. rewrite list_elem_of_fmap. split.
    + intros ([k' v] & -> & H). apply elem_of_map_to_list in H. by exists v.
    + intros [v H]. exists (k, v). split; [done|]. by apply elem_of_map_to_list.
  - intros k s H. by apply lookup_union_Some_l.
Qed.

(** X19.  The manager that [derive_one] and [single_graph] build requests
    the one class; its node table resolves a name to the recorded series
    of that name if there is one, else to the class if the name is the
    class name, else to the engine's node. *)
Theorem single_manager_tables (class_name : string) (parameter_class : pyvalue)
    (flight : Flight) :
  let mgr := single_manager base_nodes class_name parameter_class flight in
  requested mgr = [class_name]
  ∧ (∀ k, derived_nodes mgr !! k
          = match series flight !! k with
            | Some s => Some s
            | None => if decide (k = class_name) then Some parameter_class
                      else base_nodes !! k
            end).
Proof.
  intros mgr. unfold mgr, single_manager. cbn [derived_nodes requested].
  rewrite !update_all_union, map_to_list_singleton. split; [done|]. intros k.
  rewrite lookup_union. destruct (series flight !! k) as [s|]; [by rewrite union_Some_l|].
  rewrite (left_id None _), lookup_union. destruct (decide (k = class_name)) as [->|Hne].
  - by rewrite lookup_singleton_eq, union_Some_l.
  - by rewrite lookup_singleton_ne, (left_id None _).
Qed.

End MoreManagers.

Section MoreTypeStrings.

Import notebook_helpers helper_notions.

Lemma append_nil_r (a : string) : a +:+ "" = a.
Proof. induction a as [|c a IH]; [done|]. by rewrite append_cons, IH. Qed.

Lemma replace_from_skip (old new p rest : string) :
  replace_from old new (String.length p) (p +:+ rest) = replace_from old new 0 rest.
Proof.
  induction p as [|c p IH]; [by destruct rest|]. by rewrite append_cons.
Qed.

Lemma replace_prefix (c : ascii) (old new rest : string) :
  replace (String c old +:+ rest) (String c old) new
  = new +:+ replace rest (String c old) new.
Proof.
  unfold replace. rewrite append_cons. cbn [replace_from].
  assert (startswith (String c (old +:+ rest)) (String c old) = true) as ->
    by (rewrite <- append_cons; apply startswith_app).
  cbn [String.length]. rewrite Nat.sub_1_r. cbn [Nat.pred].
  by rewrite replace_from_skip.
Qed.

Lemma replace_absent (c : ascii) (old new s : string) :
  lacks c s = true → replace s (String c old) new = s.
Proof.
  unfold replace. induction s as [|d s IH]; [done|]. cbn [lacks replace_from startswith].
  intros [Hd Hs]%andb_true_iff. apply negb_true_iff in Hd. rewrite Hd.
  by rewrite IH.
Qed.

Lemma replace_suffix (c : ascii) (old s : string) :
  lacks c s = true → replace (s +:+ String c old) (String c old) "" = s.
Proof.
  unfold replace. induction s as [|d s IH].
  - intros _. rewrite append_nil_l.
    pose proof (replace_prefix c old "" "") as H. unfold replace in H.
    by rewrite append_nil_r in H.
  - cbn [lacks]. intros [Hd Hs]%andb_true_iff. apply negb_true_iff in Hd.
    rewrite append_cons. cbn [replace_from startswith]. rewrite Hd. by rewrite IH.
Qed.

Lemma lacks_app (c : ascii) (a b : string) :
  lacks c (a +:+ b) = lacks c a && lacks c b.
Proof.
  induction a as [|d a IH]; [done|]. rewrite append_cons. cbn [lacks].
  by rewrite IH, andb_assoc.
Qed.

(** X20.  On the text of a class of the engine's node module
    [_node_typestr] gives back the bare class name, for every name
    without a quote and without an angle bracket. *)
Theorem node_typestr_class_name (name : string) :
  lacks "'" name = true → lacks "<" name = true →
  _node_typestr ("<class 'analysis_engine.node." +:+ name +:+ "'>") = name.
Proof.
  intros Hq Hl. unfold _node_typestr.
  rewrite replace_prefix, append_nil_l.
  rewrite (replace_absent "<") by (by rewrite lacks_app, Hl).
  by apply replace_suffix.
Qed.

End MoreTypeStrings.

Section MoreGraph.

Variable graph : Type.
Variable layout : Type.
Variable canvas : Type.
Variable spring_layout : graph → outcome layout.
Variable draw_networkx : graph → layout → Qc → Qc → Qc → canvas → outcome unit * canvas.

(** X21.  What [show_graph] leaves behind: the figure size is (10, 4)
    whatever it was before the call, and every other plotting parameter
    is kept; the line is printed exactly when the layout or the drawing
    raised; when the layout raised nothing was drawn, and when the
    drawing raised the surface stays as the drawing left it. *)
Theorem show_graph_outcome (g : graph) (font_size : Qc)
    (self : notebook_utils.pylab canvas) (w : world) :
  let after c :=
    notebook_utils.mk_pylab canvas
      (<["figure.figsize" := (Q2Qc 10, Q2Qc 4)]> (notebook_utils.rcParams canvas self)) c in
  let complained := mk_world (heap w) (stdout w ++ ["hmm, apparently bogus exception"]) in
  notebook_utils.show_graph graph layout canvas spring_layout draw_networkx
    g font_size self w
  = match spring_layout g with
    | Raise _ => (Ok tt, after (notebook_utils.surface canvas self), complained)
    | Ok pos =>
        match draw_networkx g pos (Q2Qc 6) (Q2Qc (1 # 10)) font_size
                (notebook_utils.surface canvas self) with
        | (Ok _, c) => (Ok tt, after c, w)
        | (Raise _, c) => (Ok tt, after c, complained)
        end
    end.
Proof.
  intros after complained. unfold notebook_utils.show_graph.
  rewrite run_bind. unfold notebook_utils.set_rcParam at 1.
  rewrite run_bind. cbn [get_self put_self].
  rewrite run_bind. unfold notebook_utils.try_except.
  rewrite run_bind. unfold lift at 1.
  destruct (spring_layout g) as [pos|e].
  - unfold notebook_utils.draw. cbn [notebook_utils.surface notebook_utils.rcParams].
    destruct (draw_networkx g pos _ _ font_size (notebook_utils.surface canvas self))
      as [[[]|e] c].
    + unfold notebook_utils.set_rcParam. rewrite run_bind. cbn [get_self put_self].
      cbn [notebook_utils.surface notebook_utils.rcParams].
      unfold after. by rewrite insert_insert_eq.
    + unfold print, notebook_utils.set_rcParam. rewrite run_bind.
      cbn [get_self put_self notebook_utils.surface notebook_utils.rcParams].
      unfold after. by rewrite insert_insert_eq.
  - unfold print, notebook_utils.set_rcParam. rewrite run_bind.
    cbn [get_self put_self notebook_utils.surface notebook_utils.rcParams].
    unfold after. by rewrite insert_insert_eq.
Qed.

End MoreGraph.

Lemma node_type_class_witness :
  notebook_helpers.node_type helper_samples.node_reprs "Liftoff" = Ok "KTI".
Proof.
  refine (proj1 (proj2 (proj2 (node_type_class helper_samples.node_reprs "Liftoff"
            "<class 'analysis_engine.key_time_instances.Liftoff'>" _ _))) _ _ _).
  - reflexivity.
  - reflexivity.
  - intros H. apply find_nonneg in H. vm_compute in H. by apply H.
  - intros H. apply find_nonneg in H. vm_compute in H. by apply H.
  - apply find_nonneg. vm_compute. discriminate.
Defined.

Lemma initialize_logger_failure_witness :
  ∃ self',
    notebook_helpers.initialize_logger helper_samples.check_level
      helper_samples.no_such_folder "DEBUG" "/nowhere/log_messages.txt"
      (notebook_helpers.mk_Logger 30 []) (mk_world ∅ [])
    = (Raise (OtherError "IOError: [Errno 2] No such file or directory"), self', mk_world ∅ [])
    ∧ notebook_helpers.handlers self' = []
    ∧ (notebook_helpers.level self' ≠ 30 →
       helper_samples.check_level "DEBUG" = Ok (notebook_helpers.level self')).
Proof.
  apply (initialize_logger_failure helper_samples.check_level helper_samples.no_such_folder
           "DEBUG" "/nowhere/log_messages.txt"
           (OtherError "IOError: [Errno 2] No such file or directory")
           (notebook_helpers.mk_Logger 30 []) (mk_world ∅ [])).
  right. exists 10. split; reflexivity.
Defined.

Lemma initialize_logger_accumulates_witness :
  (notebook_helpers.initialize_logger helper_samples.check_level helper_samples.writable
     "DEBUG" "log_messages.txt" ;;
   notebook_helpers.initialize_logger helper_samples.check_level helper_samples.writable
     "WARNING" "log_messages.txt") (notebook_helpers.mk_Logger 30 []) (mk_world ∅ [])
  = (Ok tt,
     notebook_helpers.mk_Logger 30
       [notebook_helpers.FileHandler "log_messages.txt"; notebook_helpers.StreamHandler;
        notebook_helpers.FileHandler "log_messages.txt"; notebook_helpers.StreamHandler],
     mk_world ∅ []).
Proof.
  apply (initialize_logger_accumulates helper_samples.check_level helper_samples.writable
           "DEBUG" "log_messages.txt" "WARNING" "log_messages.txt" 10 30
           (notebook_helpers.mk_Logger 30 []) (mk_world ∅ [])); reflexivity.
Defined.

Lemma get_profile_nodemanager_tables_witness :
  let mgr := notebook_helpers.get_profile_nodemanager helper_samples.engine_nodes
               helper_samples.flight helper_samples.namespace in
  "Airspeed" ∈ notebook_helpers.requested mgr
  ∧ notebook_helpers.derived_nodes mgr !! "Airspeed"
    = Some (notebook_helpers.PObject "Parameter 'Airspeed'").
Proof.
  intros mgr.
  destruct (get_profile_nodemanager_tables helper_samples.engine_nodes
              helper_samples.flight helper_samples.namespace)
    as (_ & Hreq & _ & Hser & _).
  split.
  - apply Hreq. rewrite get_profile_nodes_lookup. vm_compute. eauto.
  - apply Hser. reflexivity.
Defined.

Lemma node_typestr_class_name_witness :
  notebook_helpers._node_typestr "<class 'analysis_engine.node.KeyPointValueNode'>"
  = "KeyPointValueNode".
Proof.
  apply (node_typestr_class_name "KeyPointValueNode"); reflexivity.
Defined.

(** * The two profiles side by side *)

Section MoreAdvisories.

Lemma state_changes_absent (state : string) (a : list (sample string)) (s : slice) :
  (∀ i x, a !! i = Some x → is_state state x = false) → state_changes state a s = [].
Proof.
  intros H. destruct (state_changes state a s) as [|i l] eqn:E; [done|].
  assert (Hi : i ∈ state_changes state a s) by (rewrite E; apply list_elem_of_here).
  apply state_changes_elem in Hi. unfold entry_within, holds in Hi.
  destruct (a !! i) as [x|] eqn:Ex.
  - rewrite (H i x Ex) in Hi. by rewrite andb_false_r in Hi.
  - by rewrite andb_false_r in Hi.
Qed.

Lemma flat_map_nil {A B} (f : A → list B) (l : list A) :
  (∀ x, f x = []) → flat_map f l = [].
Proof. intros H. induction l as [|x l IH]; [done|]. cbn [flat_map]. by rewrite H, IH. Qed.

(** X22.  On a series without a valid down advisory the two profiles'
    [TCASRAStart.derive] do the same: same instants in the same order,
    same store. *)
Theorem TCASRAStart_profiles_agree (tcas : Param) (air : list Section)
    (self : KeyTimeInstanceNode) (w : world) (a : list (sample string)) :
  heap w !! array tcas = Some (OStates a) →
  (∀ i x, a !! i = Some x → is_state Down x = false) →
  example_profile.TCASRAStart_derive tcas air self w
  = parallel_profile.TCASRAStart_derive tcas air self w.
Proof.
  intros Hl Hno.
  rewrite (example_TCASRAStart_run _ _ _ _ a), (parallel_TCASRAStart_run _ _ _ _ a) by done.
  rewrite merge_no_down by done. rewrite insert_id by done. rewrite world_eta.
  rewrite (flat_map_nil (fun p => state_changes Down a (slice_ p)))
    by (intros p; by apply state_changes_absent).
  by rewrite app_nil_r.
Qed.

(** X23.  Where the series goes from a valid up advisory straight to a
    valid down advisory inside an Airborne section, parallel_profile
    records an instant at the down sample and example_profile, which
    takes the two advisories for one state, records none there. *)
Theorem TCASRAStart_direct_switch (tcas : Param) (air : list Section) (name : string)
    (w : world) (a : list (sample string)) (i : nat) (sec : Section) :
  heap w !! array tcas = Some (OStates a) →
  holds (is_state Up) a (i - 1) = true →
  holds (is_state Down) a i = true →
  sec ∈ air →
  (fst (indices (slice_ sec) (length a)) < i < snd (indices (slice_ sec) (length a)))%nat →
  (∃ ixs w',
     example_profile.TCASRAStart_derive tcas air (mk_LN name []) w
     = (Ok tt, mk_LN name (map (fun i => mk_KTI (index_of_sample i) name) ixs), w')
     ∧ i ∉ ixs)
  ∧ (∃ ixs,
       parallel_profile.TCASRAStart_derive tcas air (mk_LN name []) w
       = (Ok tt, mk_LN name (map (fun i => mk_KTI (index_of_sample i) name) ixs), w)
       ∧ i ∈ ixs).
Proof.
  intros Hl Hup Hdn Hsec [Hlo Hhi]. split.
  - eexists _, _. split; [by rewrite (example_TCASRAStart_run _ _ _ _ a)|].
    rewrite list_elem_of_In, (count_occ_not_In Nat.eq_dec).
    rewrite state_changes_entries, entries_merge. apply entries_outside.
    intros s _. unfold entry_within.
    assert (holds advisory a (i - 1) = true) as ->; [|by rewrite andb_false_r].
    unfold holds in *. destruct (a !! (i - 1)%nat); [|done]. unfold advisory. by rewrite Hup.
  - eexists. split; [by rewrite (parallel_TCASRAStart_run _ _ _ _ a)|].
    apply elem_of_app. right. apply list_elem_of_In, in_flat_map. exists sec.
    split; [by apply list_elem_of_In|]. apply list_elem_of_In, state_changes_elem.
    unfold entry_within. rewrite Hdn.
    assert (holds (is_state Down) a (i - 1) = false) as ->.
    { unfold holds in *. destruct (a !! (i - 1)%nat) as [x|]; [|done].
      unfold is_state in *. apply andb_true_iff in Hup as [Hm Hs].
      apply String.eqb_eq in Hs. rewrite Hs, Hm. reflexivity. }
    apply Nat.ltb_lt in Hlo, Hhi. by rewrite Hlo, Hhi.
Qed.

End MoreAdvisories.

Lemma TCASRAStart_profiles_agree_witness :
  example_profile.TCASRAStart_derive samples.tcas samples.airborne
    (mk_LN "TCAS RA Start" []) more_samples.quiet_world
  = parallel_profile.TCASRAStart_derive samples.tcas samples.airborne
      (mk_LN "TCAS RA Start" []) more_samples.quiet_world.
Proof.
  apply (TCASRAStart_profiles_agree samples.tcas samples.airborne
           (mk_LN "TCAS RA Start" []) more_samples.quiet_world more_samples.quiet_series).
  - reflexivity.
  - intros i x Hi.
    destruct i as [|[|[|[|i]]]]; simpl in Hi; try discriminate; by injection Hi as <-.
Defined.

Lemma TCASRAStart_direct_switch_witness :
  (∃ ixs w',
     example_profile.TCASRAStart_derive samples.tcas samples.airborne
       (mk_LN "TCAS RA Start" []) helper_samples.switching_world
     = (Ok tt, mk_LN "TCAS RA Start"
                 (map (fun i => mk_KTI (index_of_sample i) "TCAS RA Start") ixs), w')
     ∧ 2%nat ∉ ixs)
  ∧ (∃ ixs,
       parallel_profile.TCASRAStart_derive samples.tcas samples.airborne
         (mk_LN "TCAS RA Start" []) helper_samples.switching_world
       = (Ok tt, mk_LN "TCAS RA Start"
                   (map (fun i => mk_KTI (index_of_sample i) "TCAS RA Start") ixs),
          helper_samples.switching_world)
       ∧ 2%nat ∈ ixs).
Proof.
  apply (TCASRAStart_direct_switch samples.tcas samples.airborne "TCAS RA Start"
           helper_samples.switching_world helper_samples.switching_series 2
           (mk_Section "Airborne" (mk_slice (Some (Q2Qc 0)) (Some (Q2Qc 30)))
              (Some (Q2Qc 0)) (Some (Q2Qc 30)))).
  - reflexivity.
  - reflexivity.
  - reflexivity.
  - apply list_elem_of_here.
  - vm_compute. lia.
Defined.

Section MoreInitialApproach.

(** X24.  [InitialApproach.derive] does not compare the two bounds: when
    some Final Approach section begins before every Approach section, the
    one phase it creates ends before it begins. *)
Theorem InitialApproach_unchecked_bounds (approach final : list Section) (f : Section)
    (name : string) (w : world) :
  approach ≠ [] → f ∈ final →
  (∀ s, s ∈ approach → lt (start_edge f) (start_edge s) = true) →
  ∃ b e,
    example_profile.InitialApproach_derive approach final (mk_LN name []) w
    = (Ok tt, mk_LN name [mk_Section name (mk_slice b e) b e], w)
    ∧ parallel_profile.InitialApproach_derive approach final (mk_LN name []) w
      = (Ok tt, mk_LN name [mk_Section name (mk_slice b e) b e], w)
    ∧ lt e b = true.
Proof.
  intros Ha Hf Hbefore.
  destruct (min_spec (map start_edge approach)) as (b & Hb & Hbin & _).
  { by destruct approach. }
  destruct (min_spec (map start_edge final)) as (e & He & _ & Hele).
  { intros E. apply fmap_nil_inv in E. subst. by apply elem_of_nil in Hf. }
  exists b, e. split; [by rewrite (example_InitialApproach_run _ _ b e)|].
  split; [by rewrite (parallel_InitialApproach_run _ _ b e)|].
  apply list_elem_of_fmap in Hbin as (s & -> & Hs).
  destruct (lt e (start_edge s)) eqn:E; [done|].
  assert (lt (start_edge f) (start_edge s) = false) as Hno.
  { apply (lt_false_trans _ e); [|done]. apply Hele. by apply list_elem_of_fmap_2. }
  by rewrite Hbefore in Hno.
Qed.

End MoreInitialApproach.

Lemma InitialApproach_unchecked_bounds_witness :
  ∃ b e,
    example_profile.InitialApproach_derive samples.approach_sections
      helper_samples.early_final (mk_LN "Initial Approach" []) (mk_world ∅ [])
    = (Ok tt, mk_LN "Initial Approach" [mk_Section "Initial Approach" (mk_slice b e) b e],
       mk_world ∅ [])
    ∧ parallel_profile.InitialApproach_derive samples.approach_sections
        helper_samples.early_final (mk_LN "Initial Approach" []) (mk_world ∅ [])
      = (Ok tt, mk_LN "Initial Approach" [mk_Section "Initial Approach" (mk_slice b e) b e],
         mk_world ∅ [])
    ∧ lt e b = true.
Proof.
  apply (InitialApproach_unchecked_bounds samples.approach_sections helper_samples.early_final
           (mk_Section "Final Approach" (mk_slice (Some (Q2Qc 2)) (Some (Q2Qc 4)))
              (Some (Q2Qc (3 # 2))) (Some (Q2Qc (9 # 2))))).
  - discriminate.
  - apply list_elem_of_here.
  - intros s Hs. unfold samples.approach_sections in Hs.
    apply elem_of_cons in Hs as [->|Hs]; [reflexivity|].
    apply elem_of_cons in Hs as [->|Hs]; [reflexivity|].
    by apply elem_of_nil in Hs.
Defined.
